(** * Data normalization and cleaning pipeline (run.py): shallow embedding

    The deterministic part of [DataNormalizer] is embedded as Rocq
    functions: the IPv4, hostname, FQDN and MAC validators, the site
    normalizer, the keyword fall-back of the device classifier, the
    per-record pipeline of [process] and [generate_recommendations].

    Python [str] values are modelled by [string]; a character is a code
    point below 256 (Latin-1), and the Unicode predicates Python uses
    ([str.isspace], [str.isdigit], [\w], [str.lower], ...) are written
    out on that range.  [int] values are [Z]; [int(s)] refuses a literal
    of more than 4300 digits, as the interpreter does by default.  The
    records of [process] map field names to texts; [Csv] adds the records
    in which [csv.DictReader] left a field at [None]. *)

From Stdlib Require Import ZArith NArith Ascii String List Bool Lia.
From Stdlib Require QArith.
From stdpp Require Import gmap strings list.

Local Open Scope string_scope.
Local Open Scope list_scope.

#[local] Arguments String.append !s1 s2 : simpl nomatch.

(** ** Characters *)

Module PyChar.

Definition code (c : ascii) : N := N_of_ascii c.

Definition between (lo hi : N) (c : ascii) : bool :=
  ((lo <=? code c) && (code c <=? hi))%N.

(** [str.isspace], the characters removed by [str.strip()] and matched by
    [\s]: TAB..CR, FS..US, space, NEL and the no-break space. *)
Definition isspace (c : ascii) : bool :=
  between 9 13 c || between 28 32 c || (code c =? 133)%N || (code c =? 160)%N.

(** Unicode decimal digits (what [\d] matches and [int] reads). *)
Definition isdecimal (c : ascii) : bool := between 48 57 c.

(** [str.isdigit] for one character: the decimal digits and the
    superscripts two, three and one. *)
Definition isdigit (c : ascii) : bool :=
  isdecimal c || (code c =? 178)%N || (code c =? 179)%N || (code c =? 185)%N.

Definition is_ascii_upper (c : ascii) : bool := between 65 90 c.
Definition is_ascii_lower (c : ascii) : bool := between 97 122 c.
Definition is_ascii_alpha (c : ascii) : bool := is_ascii_upper c || is_ascii_lower c.
Definition is_ascii_alnum (c : ascii) : bool := is_ascii_alpha c || isdecimal c.
Definition is_hex (c : ascii) : bool :=
  isdecimal c || between 65 70 c || between 97 102 c.

(** [str.isalpha] for one character. *)
Definition isalpha (c : ascii) : bool :=
  is_ascii_alpha c || (code c =? 170)%N || (code c =? 181)%N || (code c =? 186)%N
  || between 192 214 c || between 216 246 c || between 248 255 c.

(** [\w] of the [re] module on [str] patterns: [str.isalnum] or underscore
    (the vulgar fractions are numeric, hence alphanumeric). *)
Definition is_word (c : ascii) : bool :=
  isalpha c || isdigit c || between 188 190 c || (code c =? 95)%N.

(** [str.lower] for one character. *)
Definition lower (c : ascii) : ascii :=
  if is_ascii_upper c || between 192 214 c || between 216 222 c
  then ascii_of_N (code c + 32) else c.

(** [str.upper] for one character, as a sequence of code points: the sharp s
    becomes two letters, the micro sign and y-diaeresis leave Latin-1. *)
Definition upper (c : ascii) : list N :=
  if is_ascii_lower c || between 224 246 c || between 248 254 c
  then [(code c - 32)%N]
  else if (code c =? 223)%N then [83%N; 83%N]
  else if (code c =? 181)%N then [924%N]
  else if (code c =? 255)%N then [376%N]
  else [code c].

End PyChar.

(** ** Strings *)

Module PyStr.

Fixpoint lstrip_by (p : ascii -> bool) (s : string) : string :=
  match s with
  | String c s' => if p c then lstrip_by p s' else s
  | EmptyString => EmptyString
  end.

Fixpoint rstrip_by (p : ascii -> bool) (s : string) : string :=
  match s with
  | EmptyString => EmptyString
  | String c s' =>
      match rstrip_by p s' with
      | EmptyString => if p c then EmptyString else String c EmptyString
      | r => String c r
      end
  end.

(** Remove from both ends the characters that satisfy [p]. *)
Definition strip_by (p : ascii -> bool) (s : string) : string :=
  rstrip_by p (lstrip_by p s).

(** [s.strip()] *)
Definition strip (s : string) : string := strip_by PyChar.isspace s.

Fixpoint smap (f : ascii -> ascii) (s : string) : string :=
  match s with
  | EmptyString => EmptyString
  | String c s' => String (f c) (smap f s')
  end.

(** [s.lower()] *)
Definition lower (s : string) : string := smap PyChar.lower s.

Fixpoint codes (s : string) : list N :=
  match s with
  | EmptyString => []
  | String c s' => PyChar.code c :: codes s'
  end.

(** [s.upper()], as code points *)
Fixpoint upper (s : string) : list N :=
  match s with
  | EmptyString => []
  | String c s' => PyChar.upper c ++ upper s'
  end.

Fixpoint forallb (p : ascii -> bool) (s : string) : bool :=
  match s with
  | EmptyString => true
  | String c s' => p c && forallb p s'
  end.

Fixpoint existsb (p : ascii -> bool) (s : string) : bool :=
  match s with
  | EmptyString => false
  | String c s' => p c || existsb p s'
  end.

(** [c in s] for a one-character [c] *)
Definition has_char (c : ascii) (s : string) : bool := existsb (Ascii.eqb c) s.

(** [s.startswith(p)] *)
Fixpoint startswith (p s : string) : bool :=
  match p, s with
  | EmptyString, _ => true
  | String a p', String b s' => Ascii.eqb a b && startswith p' s'
  | String _ _, EmptyString => false
  end.

(** [p in s] *)
Fixpoint contains (p s : string) : bool :=
  startswith p s ||
  match s with
  | EmptyString => false
  | String _ s' => contains p s'
  end.

(** [s.split(sep)] for a one-character separator *)
Fixpoint split (sep : ascii) (s : string) : list string :=
  match s with
  | EmptyString => [EmptyString]
  | String c s' =>
      if Ascii.eqb c sep then EmptyString :: split sep s'
      else match split sep s' with
           | h :: t => String c h :: t
           | [] => [String c EmptyString]
           end
  end.

(** [sep.join(l)] *)
Fixpoint join (sep : string) (l : list string) : string :=
  match l with
  | [] => EmptyString
  | [x] => x
  | x :: l' => x +:+ sep +:+ join sep l'
  end.

(** [s.isdigit()] *)
Definition isdigit (s : string) : bool :=
  negb (s =? "") && forallb PyChar.isdigit s.

(** *** Integers and their decimal text *)

Definition digit_char (d : N) : ascii := ascii_of_N (48 + d).

Fixpoint digits_of (fuel : nat) (n : N) (acc : string) : string :=
  match fuel with
  | O => acc
  | S fuel' =>
      let acc' := String (digit_char (n mod 10)) acc in
      if (n / 10 =? 0)%N then acc' else digits_of fuel' (n / 10) acc'
  end.

Definition str_N (n : N) : string := digits_of (S (N.to_nat n)) n EmptyString.

(** [str(v)] for an [int] *)
Definition str (v : Z) : string :=
  match v with
  | Zneg p => String "-" (str_N (Npos p))
  | _ => str_N (Z.to_N v)
  end.

(** The digits of an integer literal, with single underscores allowed
    between digits. *)
Fixpoint int_digits (s : string) (acc : N) (after_digit : bool) : option N :=
  match s with
  | EmptyString => if after_digit then Some acc else None
  | String c s' =>
      if Ascii.eqb c "_" then
        if after_digit then int_digits s' acc false else None
      else if PyChar.isdecimal c then
        int_digits s' (10 * acc + (PyChar.code c - 48))%N true
      else None
  end.

(** White space that [int] skips around the literal: the ASCII white space
    of C and the two non-ASCII spaces of Latin-1 (the separators FS..US are
    white space for [strip] but not for [int]). *)
Definition int_space (c : ascii) : bool :=
  PyChar.between 9 13 c || (PyChar.code c =? 32)%N
  || (PyChar.code c =? 133)%N || (PyChar.code c =? 160)%N.

(** The number of digits of a literal, as [int] counts them: leading zeros
    count, underscores do not. *)
Fixpoint digit_count (s : string) : nat :=
  match s with
  | EmptyString => 0
  | String c s' => (if PyChar.isdecimal c then 1 else 0) + digit_count s'
  end.

(** [sys.get_int_max_str_digits()]; the program leaves it at its default. *)
Definition int_max_str_digits : nat := 4300.

(** The literal after the sign: a literal of more digits than the limit is
    refused. *)
Definition int_literal (t : string) : option N :=
  if (int_max_str_digits <? digit_count t)%nat then None else int_digits t 0 false.

(** [int(s, 10)]: [None] stands for [ValueError], which is raised for a text
    that is no literal and for a literal of more than 4300 digits. *)
Definition int (s : string) : option Z :=
  match strip_by int_space s with
  | String "-" r => option_map (fun n => (- Z.of_N n)%Z) (int_literal r)
  | String "+" r => option_map Z.of_N (int_literal r)
  | t => option_map Z.of_N (int_literal t)
  end.

End PyStr.

(** ** IPv4 validation (rules only) *)

(** The four-tuple returned by [ipv4_validate_and_normalize]:
    (valid, value, ip_version, reason). *)
Definition ip_result : Type := bool * string * string * string.

(** The [for p in parts] loop: [inl reason] is an early [return] with that
    reason, [inr canonical_parts] the list built when the loop ends. *)
Fixpoint ipv4_octets (parts canonical_parts : list string) : string + list string :=
  match parts with
  | [] => inr canonical_parts
  | p :: rest =>
      if p =? "" then inl "empty_octet"
      else if PyStr.startswith "-" p then inl "negative_octet"
      else if negb (PyStr.isdigit p) then inl "non_numeric_octet"
      else match PyStr.int p with
           | None => inl "parse_error"
           | Some v =>
               if ((v <? 0) || (v >? 255))%Z then inl "octet_out_of_range"
               else ipv4_octets rest (canonical_parts ++ [PyStr.str v])
           end
  end.

(** [ip_str.strip().upper() in ("N/A", "")] *)
Definition is_na_or_empty (s : string) : bool :=
  let u := PyStr.upper (PyStr.strip s) in
  bool_decide (u = PyStr.codes "N/A") || bool_decide (u = []).

Definition ipv4_validate_and_normalize (ip_str : string) : ip_result :=
  if (ip_str =? "") || is_na_or_empty ip_str then (false, ip_str, "", "missing")
  else
    let s := PyStr.strip ip_str in
    if PyStr.has_char ":" s || PyStr.has_char "%" s then (false, s, "6", "ipv6_detected")
    else
      let parts := PyStr.split "." s in
      if negb (length parts =? 4)%nat then (false, s, "", "wrong_part_count")
      else match ipv4_octets parts [] with
           | inl reason => (false, s, "", reason)
           | inr canonical_parts => (true, PyStr.join "." canonical_parts, "4", "ok")
           end.


(** [list(map(int, ip.split(".")))]: [None] when one conversion raises. *)
Definition int_octets (ip : string) : option (list Z) :=
  mapM PyStr.int (PyStr.split "." ip).

(** The body of the [try] block of [classify_ipv4_type]; [None] stands for
    an exception ([ValueError] of [int], [IndexError] of [octets[1]]). *)
Definition classify_ipv4_try (ip : string) : option string :=
  octets ← int_octets ip;
  o0 ← octets !! 0%nat;
  if (o0 =? 10)%Z then Some "private_rfc1918" else
  c172 ← (if (o0 =? 172)%Z
          then o1 ← octets !! 1%nat; Some ((16 <=? o1) && (o1 <=? 31))%Z
          else Some false);
  if (c172 : bool) then Some "private_rfc1918" else
  c192 ← (if (o0 =? 192)%Z
          then o1 ← octets !! 1%nat; Some (o1 =? 168)%Z
          else Some false);
  if (c192 : bool) then Some "private_rfc1918" else
  c169 ← (if (o0 =? 169)%Z
          then o1 ← octets !! 1%nat; Some (o1 =? 254)%Z
          else Some false);
  if (c169 : bool) then Some "link_local_apipa" else
  if (o0 =? 127)%Z then Some "loopback" else
  Some "public_or_other".

Definition classify_ipv4_type (ip : string) : string :=
  default "unknown" (classify_ipv4_try ip).

(** [default_subnet]: [None] stands for the [IndexError] that the function
    does not catch. *)
Definition default_subnet (ip : string) : option string :=
  let iptype := classify_ipv4_type ip in
  if iptype =? "private_rfc1918" then
    parts ← int_octets ip;
    p0 ← parts !! 0%nat;
    p1 ← parts !! 1%nat;
    p2 ← parts !! 2%nat;
    Some (PyStr.str p0 +:+ "." +:+ PyStr.str p1 +:+ "." +:+ PyStr.str p2 +:+ ".0/24")
  else Some "".

Definition generate_reverse_ptr (ip : string) (ip_valid : bool) : string :=
  if negb ip_valid then ""
  else
    let octets := PyStr.split "." ip in
    default ""
      (o3 ← octets !! 3%nat;
       o2 ← octets !! 2%nat;
       o1 ← octets !! 1%nat;
       o0 ← octets !! 0%nat;
       Some (o3 +:+ "." +:+ o2 +:+ "." +:+ o1 +:+ "." +:+ o0 +:+ ".in-addr.arpa")).

(** ** Regular expressions

    The patterns of the program, as syntax trees, and a backtracking
    matcher in the style of the [re] module: alternatives are tried in
    order and repetitions are greedy.  A matcher state is the character
    before the current position (if any) and the rest of the subject. *)

Module Re.

Inductive regex : Type :=
| Chr (p : ascii -> bool)            (* one character of a class *)
| Cat (a b : regex)                  (* ab *)
| Alt (a b : regex)                  (* a|b *)
| Opt (a : regex)                    (* a? *)
| Rep (lo extra : nat) (a : regex)   (* a{lo,lo+extra} *)
| Plus (a : regex)                   (* a+ *)
| Bol                                (* ^ *)
| Eol                                (* $ *)
| WordB.                             (* \b *)

Definition cont : Type := option ascii -> string -> option string.

Definition or_else (x y : option string) : option string :=
  match x with Some r => Some r | None => y end.

Fixpoint rep_min (m : cont -> cont) (lo : nat) (k : cont) : cont :=
  match lo with
  | O => k
  | S n => m (rep_min m n k)
  end.

Fixpoint rep_max (m : cont -> cont) (extra : nat) (k : cont) : cont :=
  match extra with
  | O => k
  | S n => fun prev s => or_else (m (rep_max m n k) prev s) (k prev s)
  end.

Definition word_at (c : option ascii) : bool :=
  match c with Some x => PyChar.is_word x | None => false end.

Definition first_char (s : string) : option ascii :=
  match s with String c _ => Some c | EmptyString => None end.

(** [exec r k prev s]: match [r] at the current position, then continue
    with [k]; the answer is the subject left after the whole match.  [$]
    matches at the end and before a final newline.  [a+] is bounded by the
    length of the subject, every iteration consuming a character. *)
Fixpoint exec (r : regex) (k : cont) : cont :=
  match r with
  | Chr p => fun prev s =>
      match s with
      | String c s' => if p c then k (Some c) s' else None
      | EmptyString => None
      end
  | Cat a b => exec a (exec b k)
  | Alt a b => fun prev s => or_else (exec a k prev s) (exec b k prev s)
  | Opt a => fun prev s => or_else (exec a k prev s) (k prev s)
  | Rep lo extra a => rep_min (exec a) lo (rep_max (exec a) extra k)
  | Plus a => fun prev s => exec a (rep_max (exec a) (String.length s) k) prev s
  | Bol => fun prev s => match prev with None => k prev s | Some _ => None end
  | Eol => fun prev s =>
      if (s =? "") || (s =? String "010" "") then k prev s else None
  | WordB => fun prev s =>
      if xorb (word_at prev) (word_at (first_char s)) then k prev s else None
  end.

Definition accept : cont := fun _ rest => Some rest.

(** [re.match(r, s)] as a truth value *)
Definition matches (r : regex) (s : string) : bool :=
  match exec r accept None s with Some _ => true | None => false end.

(** The scan of [re.sub]: [skip] counts the characters of the subject that
    belong to a match already replaced.  The patterns of the program match
    no empty string; an empty match is left alone. *)
Fixpoint sub_scan (r : regex) (repl : string -> string)
    (prev : option ascii) (skip : nat) (s : string) : string :=
  match s with
  | EmptyString => EmptyString
  | String c s' =>
      match skip with
      | S n => sub_scan r repl (Some c) n s'
      | O =>
          match exec r accept prev s with
          | Some rest =>
              let n := (String.length s - String.length rest)%nat in
              match n with
              | O => String c (sub_scan r repl (Some c) 0 s')
              | S n' => repl (substring 0 n s) +:+ sub_scan r repl (Some c) n' s'
              end
          | None => String c (sub_scan r repl (Some c) 0 s')
          end
      end
  end.

(** [re.sub(r, repl, s)], the replacement given as a function of the text
    matched. *)
Definition sub (r : regex) (repl : string -> string) (s : string) : string :=
  sub_scan r repl None 0 s.

(** A literal word; under [re.IGNORECASE] a character matches a letter of
    the pattern when their lower-case forms agree. *)
Fixpoint literal (ignorecase : bool) (w : string) : regex :=
  match w with
  | EmptyString => Rep 0 0 Bol
  | String x EmptyString =>
      Chr (fun c => if ignorecase then Ascii.eqb (PyChar.lower c) (PyChar.lower x)
                    else Ascii.eqb c x)
  | String x w' =>
      Cat (Chr (fun c => if ignorecase then Ascii.eqb (PyChar.lower c) (PyChar.lower x)
                         else Ascii.eqb c x))
          (literal ignorecase w')
  end.

End Re.

(** ** Hostname and FQDN validation (rules only) *)

Definition alnum_hyphen (c : ascii) : bool :=
  PyChar.is_ascii_alnum c || Ascii.eqb c "-".

(** [^[a-zA-Z0-9]([a-zA-Z0-9\-]{0,61}[a-zA-Z0-9])?$] *)
Definition label_pattern : Re.regex :=
  Re.Cat Re.Bol
    (Re.Cat (Re.Chr PyChar.is_ascii_alnum)
       (Re.Cat (Re.Opt (Re.Cat (Re.Rep 0 61 (Re.Chr alnum_hyphen))
                               (Re.Chr PyChar.is_ascii_alnum)))
               Re.Eol)).

Definition validate_hostname (hostname : string) : bool * string :=
  if (hostname =? "") || (PyStr.strip hostname =? "") then (false, "missing")
  else
    let h := PyStr.strip hostname in
    if (253 <? String.length h)%nat then (false, "too_long")
    else if negb (Re.matches label_pattern h) then (false, "invalid_format")
    else (true, "ok").

(** The [for label in labels] loop: [Some reason] is an early [return]. *)
Fixpoint fqdn_labels (labels : list string) : option string :=
  match labels with
  | [] => None
  | label :: rest =>
      if (63 <? String.length label)%nat || (String.length label =? 0)%nat
      then Some "invalid_label_length"
      else if negb (Re.matches label_pattern label) then Some "invalid_label_format"
      else fqdn_labels rest
  end.

Definition validate_fqdn (fqdn : string) : bool * string :=
  if (fqdn =? "") || (PyStr.strip fqdn =? "") then (false, "missing")
  else
    let f := PyStr.strip fqdn in
    if negb (PyStr.has_char "." f) then (false, "missing_domain")
    else
      let labels := PyStr.split "." f in
      match fqdn_labels labels with
      | Some reason => (false, reason)
      | None => (true, "ok")
      end.

Definition check_fqdn_consistency (hostname fqdn : string) : bool :=
  if (hostname =? "") || (fqdn =? "") then false
  else PyStr.startswith (PyStr.lower hostname +:+ ".") (PyStr.lower fqdn).

(** ** MAC address validation (rules only) *)

Definition mac_separator (c : ascii) : bool :=
  Ascii.eqb c "-" || Ascii.eqb c ":" || Ascii.eqb c ".".

(** [^[0-9A-Fa-f]{12}$] *)
Definition mac_pattern : Re.regex :=
  Re.Cat Re.Bol (Re.Cat (Re.Rep 12 0 (Re.Chr PyChar.is_hex)) Re.Eol).

(** [[cleaned[i:i+2].lower() for i in range(0, 12, 2)]] *)
Definition mac_pairs (cleaned : string) : list string :=
  map (fun i => PyStr.lower (substring i 2 cleaned)) [0; 2; 4; 6; 8; 10]%nat.

Definition normalize_mac (mac : string) : bool * string * string :=
  if (mac =? "") || (PyStr.strip mac =? "") then (false, "", "missing")
  else
    let m := PyStr.strip mac in
    let cleaned := Re.sub (Re.Chr mac_separator) (fun _ => "") m in
    if negb (Re.matches mac_pattern cleaned) then (false, m, "invalid_format")
    else
      let normalized := PyStr.join ":" (mac_pairs cleaned) in
      (true, normalized, "ok").

(** ** Site normalization (rules only) *)

(** [\b(w1|w2)\b] and [\b(w)\b] under [re.IGNORECASE] *)
Definition whole_word (alternatives : Re.regex) : Re.regex :=
  Re.Cat Re.WordB (Re.Cat alternatives Re.WordB).

(** The replacement [\1 \2] of the pattern [([a-zA-Z])(\d)], whose match is
    the two characters of its groups. *)
Definition space_between (m : string) : string :=
  match m with
  | String a (String d EmptyString) => String a (String " " (String d EmptyString))
  | _ => m
  end.

Definition normalize_site (site : string) : string :=
  if (site =? "") || is_na_or_empty site then ""
  else
    let s := PyStr.strip site in
    let s := Re.sub (Re.Plus (Re.Chr (fun c => Ascii.eqb c "-" || Ascii.eqb c "_")))
               (fun _ => " ") s in
    let s := Re.sub (Re.Plus (Re.Chr PyChar.isspace)) (fun _ => " ") s in
    let s := Re.sub (whole_word (Re.Alt (Re.literal true "bldg") (Re.literal true "building")))
               (fun _ => "Building") s in
    let s := Re.sub (whole_word (Re.literal true "campus")) (fun _ => "Campus") s in
    let s := Re.sub (whole_word (Re.literal true "hq")) (fun _ => "HQ") s in
    let s := Re.sub (whole_word (Re.literal true "lab")) (fun _ => "Lab") s in
    let s := Re.sub (whole_word (Re.literal true "dc")) (fun _ => "DC") s in
    let s := Re.sub (Re.Cat (Re.Chr PyChar.is_ascii_alpha) (Re.Chr PyChar.isdecimal))
               space_between s in
    PyStr.strip (Re.sub (Re.Plus (Re.Chr PyChar.isspace)) (fun _ => " ") s).

(** ** Device type classification

    The model behind [client.models.generate_content] is outside the
    program.  [llm_env] describes one run: whether the client was set up
    ([HAS_GEMINI]), what the request of the [try] block yields for the
    values put in the prompt ([None] when anything in the block raises,
    else the [device_type] and the [confidence] read from the reply, with
    their defaults), and the owner parser, whose result no later stage
    reads. *)

Record device_prompt : Type := {
  prompt_hostname : string;
  prompt_notes : string;
  prompt_ip : string
}.

(** A number of a reply as [json.loads] returns it: an [int] or a finite
    [float], given by its exact value, or one of the three other floats. *)
Inductive number : Type :=
| Finite (q : QArith_base.Q)
| Infinity
| MinusInfinity
| NaN.

(** The float written [0.8]: the double nearest to 8/10. *)
Definition float_08 : QArith_base.Q :=
  QArith_base.Qmake 3602879701896397 4503599627370496.

(** [x >= y] for a number [x] and a finite float [y]; the comparison of an
    [int] with a [float] is exact, and [NaN] compares false. *)
Definition ge_float (x : number) (y : QArith_base.Q) : bool :=
  match x with
  | Finite q => QArith_base.Qle_bool y q
  | Infinity => true
  | MinusInfinity | NaN => false
  end.

Record device_reply : Type := {
  reply_device_type : string;
  reply_confidence : number
}.

Record llm_env : Type := {
  HAS_GEMINI : bool;
  generate_device : device_prompt -> option device_reply;
  parse_owner_llm : string -> string -> string * string * string
}.

(** [row.get(key, "")]; a record maps field names to texts. *)
Definition get (row : gmap string string) (key : string) : string :=
  default "" (row !! key).

Definition known_types : list string :=
  ["server"; "router"; "switch"; "printer"; "iot"; "firewall"; "access point";
   "workstation"].

(** [x in l] for a list of strings *)
Definition in_list (x : string) (l : list string) : bool :=
  existsb (String.eqb x) l.

(** [any(x in clues for x in keys)] *)
Definition any_in (keys : list string) (clues : string) : bool :=
  existsb (fun x => PyStr.contains x clues) keys.

(** The keyword rules after the [try] block. *)
Definition classify_by_keywords (hostname notes : string) : string * string :=
  let clues := PyStr.lower (hostname +:+ " " +:+ notes) in
  if any_in ["srv"; "server"; "db"; "host"; "sql"; "web"; "app"] clues
  then ("server", "medium")
  else if any_in ["rtr"; "router"; "gw"; "gateway"; "edge"] clues
  then ("router", "medium")
  else if any_in ["sw"; "switch"; "core"] clues
  then ("switch", "medium")
  else if any_in ["print"; "printer"] clues
  then ("printer", "medium")
  else if any_in ["cam"; "camera"; "iot"; "sensor"] clues
  then ("iot", "medium")
  else if any_in ["ap"; "access"; "wireless"; "wifi"] clues
  then ("access point", "medium")
  else if any_in ["fw"; "firewall"] clues
  then ("firewall", "medium")
  else if any_in ["pc"; "laptop"; "desktop"; "workstation"] clues
  then ("workstation", "medium")
  else ("unknown", "low").

Definition or_na (s : string) : string := if s =? "" then "N/A" else s.

(** The result is the pair (device type, confidence) together with the
    requests sent to the model during the call. *)
Definition classify_device_type_llm (env : llm_env) (row_data : gmap string string)
    : (string * string) * list device_prompt :=
  let device_type := PyStr.lower (PyStr.strip (get row_data "device_type")) in
  let hostname := PyStr.strip (get row_data "hostname") in
  let notes := PyStr.strip (get row_data "notes") in
  let ip_addr := PyStr.strip (get row_data "ip") in
  if in_list device_type known_types then ((device_type, "high"), [])
  else if HAS_GEMINI env then
    let prompt := {| prompt_hostname := or_na hostname;
                     prompt_notes := or_na notes;
                     prompt_ip := or_na ip_addr |} in
    match generate_device env prompt with
    | Some reply =>
        let classification := PyStr.lower (reply_device_type reply) in
        let confidence_score := reply_confidence reply in
        let conf_level := if ge_float confidence_score float_08 then "medium" else "low" in
        ((classification, conf_level), [prompt])
    | None => (classify_by_keywords hostname notes, [prompt])
    end
  else (classify_by_keywords hostname notes, []).

(** ** Anomalies and recommendations *)

Record issue : Type := {
  field : string;
  type : string;
  value : string
}.

Record anomaly : Type := {
  anomaly_source_row_id : string;
  issues : list issue;
  recommended_actions : list string
}.

(** What one iteration of the loop of [generate_recommendations] appends. *)
Definition recommend (i : issue) : list string :=
  if field i =? "ip" then
    if PyStr.contains "out_of_range" (type i)
    then ["Correct IP octets to valid range (0-255)"]
    else if PyStr.contains "wrong_part_count" (type i)
    then ["Verify IP address has exactly 4 octets"]
    else if PyStr.contains "ipv6" (type i)
    then ["Use IPv4 address or update schema to support IPv6"]
    else ["Correct or validate IP address format"]
  else if field i =? "hostname" then ["Update hostname to meet RFC 1123 standards"]
  else if field i =? "mac" then ["Correct MAC address to valid 12-digit hex format"]
  else if field i =? "fqdn" then ["Ensure FQDN has valid domain structure"]
  else [].

Definition generate_recommendations (issues : list issue) : list string :=
  let recommendations := fold_left (fun acc i => acc ++ recommend i) issues [] in
  match recommendations with
  | [] => ["Review and correct field data"]
  | _ => recommendations
  end.

(** ** The pipeline *)

Record output_row : Type := {
  out_ip : string;
  out_ip_valid : string;
  out_ip_version : string;
  out_subnet_cidr : string;
  out_hostname : string;
  out_hostname_valid : string;
  out_fqdn : string;
  out_fqdn_consistent : string;
  out_reverse_ptr : string;
  out_mac : string;
  out_mac_valid : string;
  out_owner : string;
  out_owner_email : string;
  out_owner_team : string;
  out_device_type : string;
  out_device_type_confidence : string;
  out_site : string;
  out_site_normalized : string;
  out_source_row_id : string;
  out_normalization_steps : string
}.

(** What the body of the loop of [process] leaves for one row: the row
    appended to [output_rows], the local lists [steps] and [row_anomalies],
    the entry appended to [self.anomalies] (if any) and the requests sent to
    the model. *)
Record row_result : Type := {
  row_output : output_row;
  row_steps : list string;
  row_anomalies : list issue;
  row_anomaly : option anomaly;
  row_requests : list device_prompt
}.

Definition py_bool (b : bool) : string := if b then "true" else "false".

(** One iteration of [for row in reader]; [None] stands for an exception
    leaving [process]. *)
Definition process_row (env : llm_env) (row : gmap string string) : option row_result :=
  let row_id := get row "source_row_id" in
  let steps := [] in
  let row_anomalies := [] in
  (* 1. IP *)
  let raw_ip := get row "ip" in
  let '(ip_valid, ip_normalized, ip_version, ip_reason) :=
    ipv4_validate_and_normalize raw_ip in
  let steps := steps ++ ["ip_trim"] in
  '(steps, subnet_cidr, reverse_ptr, row_anomalies) ←
    (if ip_valid then
       let steps := steps ++ ["ip_parse"] in
       let steps := steps ++ ["ip_normalize"] in
       subnet_cidr ← default_subnet ip_normalized;
       Some (steps, subnet_cidr, generate_reverse_ptr ip_normalized true, row_anomalies)
     else
       Some (steps ++ ["ip_invalid_" +:+ ip_reason], "", "",
             row_anomalies ++ [{| field := "ip"; type := ip_reason; value := raw_ip |}]));
  (* 2. hostname *)
  let raw_hostname := get row "hostname" in
  let '(hostname_valid, hostname_reason) := validate_hostname raw_hostname in
  let steps := steps ++ ["hostname_trim"] in
  let '(steps, hostname_out, row_anomalies) :=
    if hostname_valid then
      (steps ++ ["hostname_validate"], PyStr.strip raw_hostname, row_anomalies)
    else
      (steps ++ ["hostname_invalid_" +:+ hostname_reason], PyStr.strip raw_hostname,
       if negb (PyStr.strip raw_hostname =? "")
       then row_anomalies ++ [{| field := "hostname"; type := hostname_reason;
                                 value := raw_hostname |}]
       else row_anomalies) in
  (* 3. FQDN *)
  let raw_fqdn := get row "fqdn" in
  let '(fqdn_valid, fqdn_reason) := validate_fqdn raw_fqdn in
  let steps := steps ++ ["fqdn_trim"] in
  let '(steps, fqdn_out, fqdn_consistent, row_anomalies) :=
    if fqdn_valid then
      let fqdn_out := PyStr.strip raw_fqdn in
      (steps ++ ["fqdn_validate"], fqdn_out,
       check_fqdn_consistency hostname_out fqdn_out, row_anomalies)
    else
      (steps, PyStr.strip raw_fqdn, false,
       if negb (PyStr.strip raw_fqdn =? "")
       then row_anomalies ++ [{| field := "fqdn"; type := fqdn_reason;
                                 value := raw_fqdn |}]
       else row_anomalies) in
  (* 4. MAC *)
  let raw_mac := get row "mac" in
  let '(mac_valid, mac_normalized, mac_reason) := normalize_mac raw_mac in
  let steps := steps ++ ["mac_trim"] in
  let '(steps, mac_out, row_anomalies) :=
    if mac_valid then (steps ++ ["mac_normalize"], mac_normalized, row_anomalies)
    else if negb (PyStr.strip raw_mac =? "") then
      (steps ++ ["mac_invalid_" +:+ mac_reason], PyStr.strip raw_mac,
       row_anomalies ++ [{| field := "mac"; type := mac_reason; value := raw_mac |}])
    else (steps, PyStr.strip raw_mac, row_anomalies) in
  (* 5. owner *)
  let raw_owner := get row "owner" in
  let '(owner_name, owner_email, owner_team) := parse_owner_llm env raw_owner row_id in
  let steps := steps ++ ["owner_parse_llm"] in
  (* 6. device type *)
  let '(device_type, device_confidence, requests) := classify_device_type_llm env row in
  let steps := steps ++ ["device_classify_llm_" +:+ device_confidence] in
  (* 7. site *)
  let raw_site := get row "site" in
  let site_normalized := normalize_site raw_site in
  let steps := steps ++ ["site_normalize"] in
  let output_row := {|
    out_ip := if ip_valid then ip_normalized else PyStr.strip raw_ip;
    out_ip_valid := py_bool ip_valid;
    out_ip_version := ip_version;
    out_subnet_cidr := subnet_cidr;
    out_hostname := hostname_out;
    out_hostname_valid := py_bool hostname_valid;
    out_fqdn := fqdn_out;
    out_fqdn_consistent := py_bool fqdn_consistent;
    out_reverse_ptr := reverse_ptr;
    out_mac := mac_out;
    out_mac_valid := py_bool mac_valid;
    out_owner := owner_name;
    out_owner_email := owner_email;
    out_owner_team := owner_team;
    out_device_type := device_type;
    out_device_type_confidence := device_confidence;
    out_site := PyStr.strip raw_site;
    out_site_normalized := site_normalized;
    out_source_row_id := row_id;
    out_normalization_steps := PyStr.join "|" steps
  |} in
  Some {|
    row_output := output_row;
    row_steps := steps;
    row_anomalies := row_anomalies;
    row_anomaly :=
      match row_anomalies with
      | [] => None
      | _ => Some {| anomaly_source_row_id := row_id;
                     issues := row_anomalies;
                     recommended_actions := generate_recommendations row_anomalies |}
      end;
    row_requests := requests
  |}.

(** [process]: the rows of [output_rows] and the list [self.anomalies],
    in input order. *)
Fixpoint process (env : llm_env) (rows : list (gmap string string))
    : option (list output_row * list anomaly) :=
  match rows with
  | [] => Some ([], [])
  | row :: rest =>
      r ← process_row env row;
      '(output_rows, anomalies) ← process env rest;
      Some (row_output r :: output_rows,
            match row_anomaly r with
            | Some a => a :: anomalies
            | None => anomalies
            end)
  end.

(** ** Definitions used to state the properties *)

(** *** Texts *)

(** A character that stripping by [p] leaves in place. *)
Definition clean (p : ascii -> bool) (c : ascii) : bool := negb (p c).

(** The characters of [s] that satisfy [p], in order. *)
Fixpoint sfilter (p : ascii -> bool) (s : string) : string :=
  match s with
  | EmptyString => EmptyString
  | String c s' => if p c then String c (sfilter p s') else sfilter p s'
  end.

(** The first [n] characters of a string, and the rest. *)
Fixpoint stake (n : nat) (s : string) : string :=
  match n, s with
  | S n', String c s' => String c (stake n' s')
  | _, _ => EmptyString
  end.

Fixpoint sdrop (n : nat) (s : string) : string :=
  match n, s with
  | S n', String _ s' => sdrop n' s'
  | _, _ => s
  end.

(** Number of occurrences of a character. *)
Fixpoint count_char (x : ascii) (s : string) : nat :=
  match s with
  | EmptyString => O
  | String c s' => (if Ascii.eqb c x then 1 else 0) + count_char x s'
  end.

(** The value of a string of decimal digits read after the value [acc]. *)
Fixpoint dec_val (s : string) (acc : N) : N :=
  match s with
  | EmptyString => acc
  | String c s' => dec_val s' (10 * acc + (PyChar.code c - 48))%N
  end.

(** [k] zeros, the leading zeros of an octet. *)
Fixpoint zeros (k : nat) : string :=
  match k with
  | O => EmptyString
  | S k' => String "0" (zeros k')
  end.

(** The characters of a string two by two, with ":" between the pairs. *)
Fixpoint pairs_colon (s : string) : string :=
  match s with
  | String a (String b r) =>
      match r with
      | EmptyString => s
      | _ => String a (String b (String ":" (pairs_colon r)))
      end
  | _ => s
  end.

(** A lower-case hexadecimal digit. *)
Definition is_lower_hex (c : ascii) : bool :=
  PyChar.is_hex c && Ascii.eqb (PyChar.lower c) c.

(** *** IPv4 addresses *)

(** An octet written with [k] leading zeros. *)
Definition octet_text (k : nat) (v : Z) : string := zeros k +:+ PyStr.str v.

(** The dotted text of four parts. *)
Definition dotted (p1 p2 p3 p4 : string) : string :=
  p1 +:+ "." +:+ p2 +:+ "." +:+ p3 +:+ "." +:+ p4.

Definition is_octet (v : Z) : Prop := (0 <= v <= 255)%Z.

Definition digit_or_dot (c : ascii) : bool := PyChar.isdecimal c || Ascii.eqb c ".".

(** The canonical text of the address a.b.c.d. *)
Definition canonical_ip (a b c d : Z) : string :=
  dotted (PyStr.str a) (PyStr.str b) (PyStr.str c) (PyStr.str d).

(** Membership of the three RFC 1918 ranges, by the first two octets. *)
Definition rfc1918 (a b : Z) : Prop :=
  (a = 10 \/ (a = 172 /\ 16 <= b <= 31) \/ (a = 192 /\ b = 168))%Z.

(** The components of the validators' results. *)
Definition ip_valid (r : ip_result) : bool := let '(v, _, _, _) := r in v.
Definition ip_value (r : ip_result) : string := let '(_, x, _, _) := r in x.
Definition ip_version (r : ip_result) : string := let '(_, _, x, _) := r in x.
Definition ip_reason (r : ip_result) : string := let '(_, _, _, x) := r in x.
Definition mac_valid (r : bool * string * string) : bool := let '(v, _, _) := r in v.
Definition mac_value (r : bool * string * string) : string := let '(_, x, _) := r in x.
Definition mac_reason (r : bool * string * string) : string := let '(_, _, x) := r in x.

(** The checks of [ipv4_validate_and_normalize] on the stripped text, once
    the input is known not to be missing. *)
Definition ipv4_checks (s : string) : ip_result :=
  if PyStr.has_char ":" s || PyStr.has_char "%" s then (false, s, "6", "ipv6_detected")
  else if negb (length (PyStr.split "." s) =? 4)%nat then (false, s, "", "wrong_part_count")
  else match ipv4_octets (PyStr.split "." s) [] with
       | inl reason => (false, s, "", reason)
       | inr canonical_parts => (true, PyStr.join "." canonical_parts, "4", "ok")
       end.

(** *** The trace and the issues of a record, stage by stage

    These follow the description of the stages; [process_row_stages]
    relates them to [process_row]. *)

Definition ip_trace (raw_ip : string) : list string :=
  let r := ipv4_validate_and_normalize raw_ip in
  "ip_trim" :: (if ip_valid r then ["ip_parse"; "ip_normalize"]
                else ["ip_invalid_" +:+ ip_reason r]).

Definition hostname_trace (raw_hostname : string) : list string :=
  let r := validate_hostname raw_hostname in
  "hostname_trim" :: (if fst r then ["hostname_validate"]
                      else ["hostname_invalid_" +:+ snd r]).

(** What follows "fqdn_trim" in the trace. *)
Definition fqdn_trace_tail (raw_fqdn : string) : list string :=
  if fst (validate_fqdn raw_fqdn) then ["fqdn_validate"] else [].

Definition mac_trace (raw_mac : string) : list string :=
  let r := normalize_mac raw_mac in
  "mac_trim" :: (if mac_valid r then ["mac_normalize"]
                 else if PyStr.strip raw_mac =? "" then []
                 else ["mac_invalid_" +:+ mac_reason r]).

Definition ip_issues (raw_ip : string) : list issue :=
  let r := ipv4_validate_and_normalize raw_ip in
  if ip_valid r then []
  else [{| field := "ip"; type := ip_reason r; value := raw_ip |}].

(** The issue of the hostname, FQDN or MAC stage: none when the field is
    valid or empty after trimming. *)
Definition field_issues (name : string) (valid : bool) (reason raw : string) : list issue :=
  if valid || (PyStr.strip raw =? "") then []
  else [{| field := name; type := reason; value := raw |}].

Definition record_issues (row : gmap string string) : list issue :=
  ip_issues (get row "ip")
  ++ field_issues "hostname" (fst (validate_hostname (get row "hostname")))
       (snd (validate_hostname (get row "hostname"))) (get row "hostname")
  ++ field_issues "fqdn" (fst (validate_fqdn (get row "fqdn")))
       (snd (validate_fqdn (get row "fqdn"))) (get row "fqdn")
  ++ field_issues "mac" (mac_valid (normalize_mac (get row "mac")))
       (mac_reason (normalize_mac (get row "mac"))) (get row "mac").

(** *** Recommendations and keywords *)

(** The recommendation of one issue, by the table of the recommendation
    engine: the first rule whose field is the issue's and whose fragment (if
    any) occurs in the issue's reason. *)
Definition recommendation_rules : list (string * option string * string) :=
  [("ip", Some "out_of_range", "Correct IP octets to valid range (0-255)");
   ("ip", Some "wrong_part_count", "Verify IP address has exactly 4 octets");
   ("ip", Some "ipv6", "Use IPv4 address or update schema to support IPv6");
   ("ip", None, "Correct or validate IP address format");
   ("hostname", None, "Update hostname to meet RFC 1123 standards");
   ("mac", None, "Correct MAC address to valid 12-digit hex format");
   ("fqdn", None, "Ensure FQDN has valid domain structure")].

Definition rule_applies (i : issue) (rule : string * option string * string) : bool :=
  let '(name, fragment, _) := rule in
  (field i =? name)
  && match fragment with
     | Some w => PyStr.contains w (type i)
     | None => true
     end.

Definition recommendation (i : issue) : option string :=
  option_map snd (find (rule_applies i) recommendation_rules).

(** The keyword fall-back as a table in priority order: the category of
    the first row one of whose keywords occurs in the clues. *)
Definition keyword_table : list (string * list string) :=
  [("server", ["srv"; "server"; "db"; "host"; "sql"; "web"; "app"]);
   ("router", ["rtr"; "router"; "gw"; "gateway"; "edge"]);
   ("switch", ["sw"; "switch"; "core"]);
   ("printer", ["print"; "printer"]);
   ("iot", ["cam"; "camera"; "iot"; "sensor"]);
   ("access point", ["ap"; "access"; "wireless"; "wifi"]);
   ("firewall", ["fw"; "firewall"]);
   ("workstation", ["pc"; "laptop"; "desktop"; "workstation"])].

Definition first_keyword_match (clues : string) : string * string :=
  match find (fun entry => existsb (fun k => PyStr.contains k clues) (snd entry))
          keyword_table with
  | Some entry => (fst entry, "medium")
  | None => ("unknown", "low")
  end.

(** *** Examples *)

(** A run without the model, and records used as examples. *)
Definition rules_only : llm_env :=
  {| HAS_GEMINI := false;
     generate_device := fun _ => None;
     parse_owner_llm := fun _ _ => ("", "", "") |}.

Definition valid_record : gmap string string :=
  list_to_map [("source_row_id", "1"); ("ip", "10.1.2.3"); ("hostname", "web-01");
               ("fqdn", "web-01.corp.example.com"); ("mac", "AA-BB-CC-DD-EE-FF");
               ("owner", "ops"); ("device_type", "Server"); ("site", "bldg-1_campus")].

Definition bad_fqdn_record : gmap string string :=
  list_to_map [("source_row_id", "2"); ("ip", "10.1.2.3"); ("hostname", "web");
               ("fqdn", "web.corp_x.com")].

Definition empty_fields_record : gmap string string :=
  list_to_map [("source_row_id", "3"); ("ip", "192.168.0.7"); ("hostname", "  ");
               ("fqdn", ""); ("site", "hq")].

Definition na_ip_record : gmap string string :=
  list_to_map [("source_row_id", "4"); ("ip", " n/a "); ("hostname", "web-01")].

Definition bad_ip_record : gmap string string :=
  list_to_map [("source_row_id", "5"); ("ip", "300.1.1.1"); ("hostname", "-web");
               ("mac", "AABBCCDDEE")].

(** A non-empty text of decimal digits ([str.isdecimal]), of no more
    digits than [int] reads, whose value is at most 255. *)
Definition is_octet_text (p : string) : Prop :=
  p <> "" /\ PyStr.forallb PyChar.isdecimal p = true
  /\ (String.length p <= PyStr.int_max_str_digits)%nat /\ (dec_val p 0 <= 255)%N.

(** A text without its final newline, when it ends with one: what a pattern
    ending in [$] reads. *)
Fixpoint chomp (s : string) : string :=
  match s with
  | String c s' =>
      if (s' =? "") && Ascii.eqb c "010" then "" else String c (chomp s')
  | EmptyString => ""
  end.

Definition first_is (q : ascii -> bool) (s : string) : bool :=
  match s with String c _ => q c | EmptyString => false end.

Fixpoint last_is (q : ascii -> bool) (s : string) : bool :=
  match s with
  | EmptyString => false
  | String c EmptyString => q c
  | String _ s' => last_is q s'
  end.

(** The label rule: one to 63 ASCII letters, digits and hyphens, with a
    letter or digit at both ends. *)
Definition label_ok (t : string) : bool :=
  (String.length t <=? 63)%nat && PyStr.forallb alnum_hyphen t
  && first_is PyChar.is_ascii_alnum t && last_is PyChar.is_ascii_alnum t.

(** What may follow the first character of a label: at most [n] letters,
    digits and hyphens, then a letter or digit at the end of the text. *)
Fixpoint label_tail (n : nat) (s : string) {struct s} : bool :=
  match s with
  | EmptyString => false
  | String d t =>
      match n with
      | S n' => if alnum_hyphen d && label_tail n' t then true
                else PyChar.is_ascii_alnum d && ((t =? "") || (t =? String "010" ""))
      | O => PyChar.is_ascii_alnum d && ((t =? "") || (t =? String "010" ""))
      end
  end.

(** Each maximal run of characters of a class replaced by the text [w];
    [in_run] tells that the character before belongs to a run. *)
Fixpoint collapse (p : ascii -> bool) (w : string) (in_run : bool) (s : string) : string :=
  match s with
  | EmptyString => EmptyString
  | String c t =>
      if p c then (if in_run then collapse p w true t else w +:+ collapse p w true t)
      else String c (collapse p w false t)
  end.

(** Every whitespace character is a space, and no two of them are adjacent;
    [after_space] tells that the character before is one. *)
Fixpoint single_spaced (after_space : bool) (s : string) : bool :=
  match s with
  | EmptyString => true
  | String c t =>
      if PyChar.isspace c
      then Ascii.eqb c " " && negb after_space && single_spaced true t
      else single_spaced false t
  end.

Definition site_separator (c : ascii) : bool := Ascii.eqb c "-" || Ascii.eqb c "_".

(** ** Owner parsing

    [parse_owner_llm] asks the model when the client is set up and falls
    back to two patterns when there is no client or the request fails.  The
    model is a parameter: [generate_owner o] is what the [try] block yields
    for the trimmed text [o] put in the prompt, [None] when anything in it
    raises, else the three values read from the reply. *)

Module Owner.

(** [re.search(r, s)]: the text of the leftmost match. *)
Fixpoint search_scan (r : Re.regex) (prev : option ascii) (s : string) : option string :=
  match Re.exec r Re.accept prev s with
  | Some rest => Some (substring 0 (String.length s - String.length rest) s)
  | None =>
      match s with
      | String c s' => search_scan r (Some c) s'
      | EmptyString => None
      end
  end.

Definition search (r : Re.regex) (s : string) : option string := search_scan r None s.

(** [s.replace(old, "")]: the occurrences of [old] are deleted from left to
    right; [skip] counts the characters of an occurrence still to pass. *)
Fixpoint delete_scan (old : string) (skip : nat) (s : string) : string :=
  match s with
  | EmptyString => EmptyString
  | String c s' =>
      match skip with
      | S n => delete_scan old n s'
      | O =>
          if PyStr.startswith old s then delete_scan old (String.length old - 1) s'
          else String c (delete_scan old 0 s')
      end
  end.

Definition delete (old s : string) : string :=
  if old =? "" then s else delete_scan old 0 s.

Definition email_local (c : ascii) : bool :=
  PyChar.is_ascii_alnum c || Ascii.eqb c "." || Ascii.eqb c "_" || Ascii.eqb c "%"
  || Ascii.eqb c "+" || Ascii.eqb c "-".

Definition email_domain (c : ascii) : bool :=
  PyChar.is_ascii_alnum c || Ascii.eqb c "." || Ascii.eqb c "-".

(** [[a-zA-Z0-9._%+-]+@[a-zA-Z0-9.-]+\.[a-zA-Z]{2,}] *)
Definition email_pattern : Re.regex :=
  Re.Cat (Re.Plus (Re.Chr email_local))
    (Re.Cat (Re.Chr (Ascii.eqb "@"))
       (Re.Cat (Re.Plus (Re.Chr email_domain))
          (Re.Cat (Re.Chr (Ascii.eqb "."))
             (Re.Cat (Re.Chr PyChar.is_ascii_alpha) (Re.Plus (Re.Chr PyChar.is_ascii_alpha)))))).

(** [\(([^)]+)\)] *)
Definition team_pattern : Re.regex :=
  Re.Cat (Re.Chr (Ascii.eqb "("))
    (Re.Cat (Re.Plus (Re.Chr (fun c => negb (Ascii.eqb c ")")))) (Re.Chr (Ascii.eqb ")"))).

(** Group 1 of a match of the team pattern: the match without its
    parentheses. *)
Definition team_group (m : string) : string := substring 1 (String.length m - 2) m.

(** The two patterns, after the [try] block. *)
Definition parse_owner_rules (o : string) : string * string * string :=
  let email_match := search email_pattern o in
  let team_match := search team_pattern o in
  let email := default "" email_match in
  let team := match team_match with
              | Some m => PyStr.strip (team_group m)
              | None => ""
              end in
  let name := o in
  let name := if email =? "" then name else PyStr.strip (delete email name) in
  let name := match team_match with
              | Some m => PyStr.strip (delete m name)
              | None => name
              end in
  let name := PyStr.strip (PyStr.strip_by (Ascii.eqb ",") (PyStr.strip name)) in
  (name, email, team).

(** The result and the texts sent to the model during the call. *)
Definition parse_owner_llm (has_gemini : bool)
    (generate_owner : string -> option (string * string * string))
    (owner row_id : string) : (string * string * string) * list string :=
  if (owner =? "") || (PyStr.strip owner =? "") then (("", "", ""), [])
  else
    let o := PyStr.strip owner in
    if has_gemini then
      match generate_owner o with
      | Some reply => (reply, [o])
      | None => (parse_owner_rules o, [o])
      end
    else (parse_owner_rules o, []).

End Owner.

(** ** Records with fields left out

    [csv.DictReader] gives [None] for the fields that a line shorter than
    the header leaves out.  [Csv] follows [process] on such records: a
    field is a text or [None], and the result [None] stands for the
    [AttributeError] that a method call on [None] raises and that nothing in
    [process] catches.  The dictionaries built by [process] are written as
    lists of keys and values, an issue as (field, type, value), an entry of
    [self.anomalies] as (source_row_id, issues, recommended_actions). *)

Module Csv.

Definition cell : Type := option string.

Definition record : Type := gmap string cell.

(** [row.get(key, "")] *)
Definition get (row : record) (key : string) : cell := default (Some "") (row !! key).

(** [v.strip()] *)
Definition strip (v : cell) : option string := option_map PyStr.strip v.

(** The fields that hold a text. *)
Definition texts (row : record) : gmap string string := omap id row.

(** Each validator starts with [if not x or ...]: on [None] it returns its
    "missing" outcome before any method is called. *)
Definition ipv4_validate_and_normalize (ip_str : cell) : bool * cell * string * string :=
  match ip_str with
  | None => (false, None, "", "missing")
  | Some s =>
      let '(valid, normalized, version, reason) := ipv4_validate_and_normalize s in
      (valid, Some normalized, version, reason)
  end.

Definition validate_hostname (hostname : cell) : bool * string :=
  match hostname with
  | None => (false, "missing")
  | Some s => validate_hostname s
  end.

Definition validate_fqdn (fqdn : cell) : bool * string :=
  match fqdn with
  | None => (false, "missing")
  | Some s => validate_fqdn s
  end.

Definition normalize_mac (mac : cell) : bool * string * string :=
  match mac with
  | None => (false, "", "missing")
  | Some s => normalize_mac s
  end.

Definition normalize_site (site : cell) : string :=
  match site with
  | None => ""
  | Some s => normalize_site s
  end.

(** The row identifier is only printed and logged by [parse_owner_llm]. *)
Definition parse_owner_llm (env : llm_env) (owner row_id : cell) : string * string * string :=
  match owner with
  | None => ("", "", "")
  | Some o => parse_owner_llm env o (default "" row_id)
  end.

(** The first four statements of [classify_device_type_llm] call [strip] on
    four fields of the record; the rest reads these texts only. *)
Definition classify_device_type_llm (env : llm_env) (row_data : record)
    : option ((string * string) * list device_prompt) :=
  _ ← strip (get row_data "device_type");
  _ ← strip (get row_data "hostname");
  _ ← strip (get row_data "notes");
  _ ← strip (get row_data "ip");
  Some (classify_device_type_llm env (texts row_data)).

(** [generate_recommendations] reads the field and the type of an issue. *)
Definition generate_recommendations (issues : list (string * string * cell)) : list string :=
  generate_recommendations
    (map (fun '(f, t, _) => {| field := f; type := t; value := "" |}) issues).

(** One iteration of [for row in reader]. *)
Definition process_record (env : llm_env) (row : record)
    : option (list (string * cell)
              * option (cell * list (string * string * cell) * list string)
              * list device_prompt) :=
  let row_id := get row "source_row_id" in
  let steps := [] in
  let row_anomalies := [] in
  (* 1. IP *)
  let raw_ip := get row "ip" in
  let '(ip_valid, ip_normalized, ip_version, ip_reason) :=
    ipv4_validate_and_normalize raw_ip in
  let steps := steps ++ ["ip_trim"] in
  '(steps, subnet_cidr, reverse_ptr, row_anomalies) ←
    (if ip_valid then
       let steps := steps ++ ["ip_parse"] in
       let steps := steps ++ ["ip_normalize"] in
       ip ← ip_normalized;
       subnet_cidr ← default_subnet ip;
       Some (steps, subnet_cidr, generate_reverse_ptr ip true, row_anomalies)
     else
       Some (steps ++ ["ip_invalid_" +:+ ip_reason], "", "",
             row_anomalies ++ [("ip", ip_reason, raw_ip)]));
  (* 2. hostname *)
  let raw_hostname := get row "hostname" in
  let '(hostname_valid, hostname_reason) := validate_hostname raw_hostname in
  let steps := steps ++ ["hostname_trim"] in
  '(steps, hostname_out, row_anomalies) ←
    (if hostname_valid then
       let steps := steps ++ ["hostname_validate"] in
       hostname_out ← strip raw_hostname;
       Some (steps, hostname_out, row_anomalies)
     else
       let steps := steps ++ ["hostname_invalid_" +:+ hostname_reason] in
       hostname_out ← strip raw_hostname;
       stripped ← strip raw_hostname;
       Some (steps, hostname_out,
             if negb (stripped =? "")
             then row_anomalies ++ [("hostname", hostname_reason, raw_hostname)]
             else row_anomalies));
  (* 3. FQDN *)
  let raw_fqdn := get row "fqdn" in
  let '(fqdn_valid, fqdn_reason) := validate_fqdn raw_fqdn in
  let steps := steps ++ ["fqdn_trim"] in
  '(steps, fqdn_out, fqdn_consistent, row_anomalies) ←
    (if fqdn_valid then
       let steps := steps ++ ["fqdn_validate"] in
       fqdn_out ← strip raw_fqdn;
       Some (steps, fqdn_out, check_fqdn_consistency hostname_out fqdn_out, row_anomalies)
     else
       fqdn_out ← strip raw_fqdn;
       stripped ← strip raw_fqdn;
       Some (steps, fqdn_out, false,
             if negb (stripped =? "")
             then row_anomalies ++ [("fqdn", fqdn_reason, raw_fqdn)]
             else row_anomalies));
  (* 4. MAC *)
  let raw_mac := get row "mac" in
  let '(mac_valid, mac_normalized, mac_reason) := normalize_mac raw_mac in
  let steps := steps ++ ["mac_trim"] in
  '(steps, mac_out, row_anomalies) ←
    (if mac_valid then Some (steps ++ ["mac_normalize"], mac_normalized, row_anomalies)
     else
       mac_out ← strip raw_mac;
       stripped ← strip raw_mac;
       Some (if negb (stripped =? "")
             then (steps ++ ["mac_invalid_" +:+ mac_reason], mac_out,
                   row_anomalies ++ [("mac", mac_reason, raw_mac)])
             else (steps, mac_out, row_anomalies)));
  (* 5. owner *)
  let raw_owner := get row "owner" in
  let '(owner_name, owner_email, owner_team) := parse_owner_llm env raw_owner row_id in
  let steps := steps ++ ["owner_parse_llm"] in
  (* 6. device type *)
  '(device_type, device_confidence, requests) ← classify_device_type_llm env row;
  let steps := steps ++ ["device_classify_llm_" +:+ device_confidence] in
  (* 7. site *)
  let raw_site := get row "site" in
  let site_normalized := normalize_site raw_site in
  let steps := steps ++ ["site_normalize"] in
  ip_out ← (if ip_valid then Some ip_normalized else option_map Some (strip raw_ip));
  site_out ← strip raw_site;
  let output_row := [
    ("ip", ip_out);
    ("ip_valid", Some (py_bool ip_valid));
    ("ip_version", Some ip_version);
    ("subnet_cidr", Some subnet_cidr);
    ("hostname", Some hostname_out);
    ("hostname_valid", Some (py_bool hostname_valid));
    ("fqdn", Some fqdn_out);
    ("fqdn_consistent", Some (py_bool fqdn_consistent));
    ("reverse_ptr", Some reverse_ptr);
    ("mac", Some mac_out);
    ("mac_valid", Some (py_bool mac_valid));
    ("owner", Some owner_name);
    ("owner_email", Some owner_email);
    ("owner_team", Some owner_team);
    ("device_type", Some device_type);
    ("device_type_confidence", Some device_confidence);
    ("site", Some site_out);
    ("site_normalized", Some site_normalized);
    ("source_row_id", row_id);
    ("normalization_steps", Some (PyStr.join "|" steps))
  ] in
  Some (output_row,
        match row_anomalies with
        | [] => None
        | _ => Some (row_id, row_anomalies, generate_recommendations row_anomalies)
        end,
        requests).

(** [process]: the rows of [output_rows] and the list [self.anomalies]. *)
Fixpoint process (env : llm_env) (rows : list record)
    : option (list (list (string * cell))
              * list (cell * list (string * string * cell) * list string)) :=
  match rows with
  | [] => Some ([], [])
  | row :: rest =>
      '(output_row, entry, _) ← process_record env row;
      '(output_rows, anomalies) ← process env rest;
      Some (output_row :: output_rows,
            match entry with
            | Some a => a :: anomalies
            | None => anomalies
            end)
  end.

(** The fields on which [process] calls [strip]. *)
Definition stripped_fields : list string :=
  ["ip"; "hostname"; "fqdn"; "mac"; "device_type"; "notes"; "site"].

End Csv.

(** The output row and the anomaly of a record of texts, as dictionaries. *)
Definition dict_of_output_row (row_id : Csv.cell) (o : output_row) : list (string * Csv.cell) :=
  [("ip", Some (out_ip o));
   ("ip_valid", Some (out_ip_valid o));
   ("ip_version", Some (out_ip_version o));
   ("subnet_cidr", Some (out_subnet_cidr o));
   ("hostname", Some (out_hostname o));
   ("hostname_valid", Some (out_hostname_valid o));
   ("fqdn", Some (out_fqdn o));
   ("fqdn_consistent", Some (out_fqdn_consistent o));
   ("reverse_ptr", Some (out_reverse_ptr o));
   ("mac", Some (out_mac o));
   ("mac_valid", Some (out_mac_valid o));
   ("owner", Some (out_owner o));
   ("owner_email", Some (out_owner_email o));
   ("owner_team", Some (out_owner_team o));
   ("device_type", Some (out_device_type o));
   ("device_type_confidence", Some (out_device_type_confidence o));
   ("site", Some (out_site o));
   ("site_normalized", Some (out_site_normalized o));
   ("source_row_id", row_id);
   ("normalization_steps", Some (out_normalization_steps o))].

Definition entry_of_anomaly (row_id : Csv.cell) (a : anomaly)
    : Csv.cell * list (string * string * Csv.cell) * list string :=
  (row_id, map (fun i => (field i, type i, Some (value i))) (issues a),
   recommended_actions a).

(** The run in which the owner parser answers as on the record at hand. *)
Definition owner_env (env : llm_env) (row : Csv.record) : llm_env :=
  {| HAS_GEMINI := HAS_GEMINI env;
     generate_device := generate_device env;
     parse_owner_llm := fun _ _ =>
       Csv.parse_owner_llm env (Csv.get row "owner") (Csv.get row "source_row_id") |}.

(** * Properties *)

(** ** Characters: facts checked on all 256 code points *)

Ltac each_char c :=
  destruct c as [[] [] [] [] [] [] [] []]; vm_compute; try reflexivity; try discriminate;
  auto.

Lemma isdecimal_not_space c : PyChar.isdecimal c = true -> PyChar.isspace c = false.
Proof. each_char c. Qed.

Lemma isdecimal_not_int_space c : PyChar.isdecimal c = true -> PyStr.int_space c = false.
Proof. each_char c. Qed.

Lemma isdecimal_isdigit c : PyChar.isdecimal c = true -> PyChar.isdigit c = true.
Proof. each_char c. Qed.

Lemma isdecimal_upper c : PyChar.isdecimal c = true -> PyChar.upper c = [PyChar.code c].
Proof. each_char c. Qed.

Lemma upper_char_nonempty c : PyChar.upper c <> [].
Proof. destruct c as [[] [] [] [] [] [] [] []]; vm_compute; discriminate. Qed.

Lemma isdecimal_code c : PyChar.isdecimal c = true -> (48 <= PyChar.code c <= 57)%N.
Proof.
  destruct c as [[] [] [] [] [] [] [] []]; intros H;
    try (vm_compute in H; discriminate H); vm_compute; split; discriminate.
Qed.

Lemma digit_char_decimal d : (d < 10)%N -> PyChar.isdecimal (PyStr.digit_char d) = true.
Proof.
  intros H. rewrite <- (N2Nat.id d).
  assert (Hn : (N.to_nat d < 10)%nat) by lia. revert Hn.
  generalize (N.to_nat d). intros n Hn.
  do 10 (destruct n as [|n]; [reflexivity|]). lia.
Qed.

Lemma digit_char_code d : (d < 10)%N -> (PyChar.code (PyStr.digit_char d) - 48 = d)%N.
Proof.
  intros H. unfold PyChar.code, PyStr.digit_char.
  rewrite N_ascii_embedding by lia. lia.
Qed.

(** ** Strings *)

Lemma sapp_nil_r (s : string) : s +:+ "" = s.
Proof. induction s as [|c s IH]; simpl; [reflexivity | now rewrite IH]. Qed.

Lemma sapp_assoc (s t u : string) : (s +:+ t) +:+ u = s +:+ (t +:+ u).
Proof. induction s as [|c s IH]; simpl; [reflexivity | now rewrite IH]. Qed.

Lemma forallb_app p (s t : string) :
  PyStr.forallb p (s +:+ t) = PyStr.forallb p s && PyStr.forallb p t.
Proof.
  induction s as [|c s IH]; simpl; [reflexivity|].
  rewrite IH. now rewrite andb_assoc.
Qed.

Lemma forallb_impl (p q : ascii -> bool) (s : string) :
  (forall c, p c = true -> q c = true) ->
  PyStr.forallb p s = true -> PyStr.forallb q s = true.
Proof.
  intros Hpq. induction s as [|c s IH]; simpl; [reflexivity|].
  intros [Hc Hs]%andb_true_iff. rewrite (Hpq _ Hc). simpl. auto.
Qed.

Lemma existsb_app p (s t : string) :
  PyStr.existsb p (s +:+ t) = PyStr.existsb p s || PyStr.existsb p t.
Proof.
  induction s as [|c s IH]; simpl; [reflexivity|].
  rewrite IH. now rewrite orb_assoc.
Qed.

Lemma existsb_none p q (s : string) :
  (forall c, q c = true -> p c = false) ->
  PyStr.forallb q s = true -> PyStr.existsb p s = false.
Proof.
  intros Hqp. induction s as [|c s IH]; simpl; [reflexivity|].
  intros [Hc Hs]%andb_true_iff. rewrite (Hqp _ Hc). simpl. auto.
Qed.

(** *** Stripping *)

Section Strip.
Variable p : ascii -> bool.

Lemma lstrip_by_skip (ws s : string) :
  PyStr.forallb p ws = true -> PyStr.lstrip_by p (ws +:+ s) = PyStr.lstrip_by p s.
Proof.
  induction ws as [|c ws IH]; simpl; [reflexivity|].
  intros [Hc Hs]%andb_true_iff. rewrite Hc. auto.
Qed.

Lemma lstrip_by_all (ws : string) :
  PyStr.forallb p ws = true -> PyStr.lstrip_by p ws = "".
Proof.
  induction ws as [|c ws IH]; simpl; [reflexivity|].
  intros [Hc Hs]%andb_true_iff. rewrite Hc. auto.
Qed.

Lemma lstrip_by_head c (s : string) :
  p c = false -> PyStr.lstrip_by p (String c s) = String c s.
Proof. intros H. simpl. now rewrite H. Qed.

Lemma rstrip_by_all (ws : string) :
  PyStr.forallb p ws = true -> PyStr.rstrip_by p ws = "".
Proof.
  induction ws as [|c ws IH]; simpl; [reflexivity|].
  intros [Hc Hs]%andb_true_iff. rewrite (IH Hs), Hc. reflexivity.
Qed.

Lemma rstrip_by_clean (s : string) :
  PyStr.forallb (clean p) s = true -> PyStr.rstrip_by p s = s.
Proof.
  induction s as [|c s IH]; simpl; [reflexivity|].
  intros [Hc Hs]%andb_true_iff. rewrite (IH Hs).
  unfold clean in Hc. apply negb_true_iff in Hc. rewrite Hc.
  destruct s; reflexivity.
Qed.

Lemma rstrip_by_skip (s ws : string) :
  PyStr.forallb (clean p) s = true -> PyStr.forallb p ws = true ->
  PyStr.rstrip_by p (s +:+ ws) = s.
Proof.
  intros Hs Hws. induction s as [|c s IH]; simpl.
  - now apply rstrip_by_all.
  - simpl in Hs. apply andb_true_iff in Hs as [Hc Hs]. rewrite (IH Hs).
    unfold clean in Hc. apply negb_true_iff in Hc. rewrite Hc.
    destruct s; reflexivity.
Qed.

(** Padding with strippable characters on both sides is removed. *)
Lemma strip_by_pad (ws1 s ws2 : string) :
  PyStr.forallb p ws1 = true -> PyStr.forallb p ws2 = true ->
  PyStr.forallb (clean p) s = true ->
  PyStr.strip_by p (ws1 +:+ s +:+ ws2) = s.
Proof.
  intros H1 H2 Hs. unfold PyStr.strip_by. rewrite lstrip_by_skip by assumption.
  destruct s as [|c s].
  - simpl. now rewrite lstrip_by_all.
  - simpl in Hs. apply andb_true_iff in Hs as [Hc Hs].
    change (String c s +:+ ws2) with (String c (s +:+ ws2)).
    rewrite lstrip_by_head by now apply negb_true_iff.
    change (String c (s +:+ ws2)) with (String c s +:+ ws2).
    apply rstrip_by_skip; [|assumption]. simpl. now rewrite Hc, Hs.
Qed.

(** What [lstrip] leaves is empty or starts with a character that stays. *)
Lemma lstrip_by_first (s : string) :
  match PyStr.lstrip_by p s with
  | String c _ => p c = false
  | EmptyString => True
  end.
Proof.
  induction s as [|c s IH]; simpl; [exact I|].
  destruct (p c) eqn:E; [exact IH | exact E].
Qed.

Lemma rstrip_by_first c (s : string) :
  p c = false -> exists r, PyStr.rstrip_by p (String c s) = String c r.
Proof.
  intros H. simpl. rewrite H. destruct (PyStr.rstrip_by p s); eauto.
Qed.

Lemma rstrip_by_idem (s : string) :
  PyStr.rstrip_by p (PyStr.rstrip_by p s) = PyStr.rstrip_by p s.
Proof.
  induction s as [|c s IH]; simpl; [reflexivity|].
  destruct (PyStr.rstrip_by p s) as [|d r] eqn:E.
  - destruct (p c) eqn:Ec; simpl; [reflexivity | now rewrite Ec].
  - simpl in IH |- *. destruct (PyStr.rstrip_by p r) eqn:Er.
    + destruct (p d); [discriminate IH | now rewrite IH].
    + now rewrite IH.
Qed.

Lemma strip_by_idem (s : string) :
  PyStr.strip_by p (PyStr.strip_by p s) = PyStr.strip_by p s.
Proof.
  unfold PyStr.strip_by. pose proof (lstrip_by_first s) as H.
  destruct (PyStr.lstrip_by p s) as [|c t]; [reflexivity|].
  destruct (rstrip_by_first c t H) as [r Hr]. rewrite Hr.
  rewrite lstrip_by_head by assumption. rewrite <- Hr. apply rstrip_by_idem.
Qed.

(** A stripped string is empty or starts with a character that stays. *)
Lemma strip_by_first (s : string) :
  match PyStr.strip_by p s with
  | String c _ => p c = false
  | EmptyString => True
  end.
Proof.
  unfold PyStr.strip_by. pose proof (lstrip_by_first s) as H.
  destruct (PyStr.lstrip_by p s) as [|c t]; [exact I|].
  destruct (rstrip_by_first c t H) as [r Hr]. now rewrite Hr.
Qed.

End Strip.

Lemma strip_idem (s : string) : PyStr.strip (PyStr.strip s) = PyStr.strip s.
Proof. apply strip_by_idem. Qed.

(** *** Decimal text of integers *)

Lemma dec_val_app (u v : string) (acc : N) :
  dec_val (u +:+ v) acc = dec_val v (dec_val u acc).
Proof. revert acc. induction u as [|c u IH]; simpl; intros; [reflexivity | apply IH]. Qed.

Lemma int_digits_decimal (s : string) (acc : N) (b : bool) :
  PyStr.forallb PyChar.isdecimal s = true ->
  s <> "" \/ b = true ->
  PyStr.int_digits s acc b = Some (dec_val s acc).
Proof.
  revert acc b. induction s as [|c s IH]; simpl; intros acc b Hs Hne.
  - destruct Hne as [Hne | ->]; [now destruct Hne | reflexivity].
  - apply andb_true_iff in Hs as [Hc Hs]. rewrite Hc.
    replace (Ascii.eqb c "_") with false by (revert Hc; each_char c).
    apply IH; auto.
Qed.

Lemma digits_of_fuel (m : nat) :
  forall (f f' : nat) (n : N) (acc : string),
    (N.to_nat n < m)%nat -> (N.to_nat n < f)%nat -> (N.to_nat n < f')%nat ->
    PyStr.digits_of f n acc = PyStr.digits_of f' n "" +:+ acc.
Proof.
  induction m as [|m IH]; intros f f' n acc Hm Hf Hf'; [lia|].
  destruct f as [|f]; [lia|]. destruct f' as [|f']; [lia|]. simpl.
  destruct (n / 10 =? 0)%N eqn:E; [reflexivity|].
  apply N.eqb_neq in E.
  assert (Hlt : (n / 10 < n)%N).
  { apply N.div_lt; [|lia]. destruct n; [now destruct E | lia]. }
  rewrite (IH f f' (n / 10)%N (String _ acc)) by lia.
  rewrite (IH f' f' (n / 10)%N (String _ "")) by lia.
  now rewrite sapp_assoc.
Qed.

Lemma str_N_small (n : N) :
  (n < 10)%N -> PyStr.str_N n = String (PyStr.digit_char n) "".
Proof.
  intros H. unfold PyStr.str_N. simpl.
  rewrite N.div_small, N.mod_small by assumption. reflexivity.
Qed.

Lemma str_N_step (n : N) :
  (10 <= n)%N ->
  PyStr.str_N n = PyStr.str_N (n / 10) +:+ String (PyStr.digit_char (n mod 10)) "".
Proof.
  intros H. unfold PyStr.str_N at 1. simpl.
  assert (Hq : (0 < n / 10)%N) by (apply N.div_str_pos; lia).
  destruct (n / 10 =? 0)%N eqn:E; [apply N.eqb_eq in E; lia|].
  assert (Hlt : (n / 10 < n)%N) by (apply N.div_lt; lia).
  unfold PyStr.str_N.
  apply (digits_of_fuel (N.to_nat n)); lia.
Qed.

(** Induction along the digits of a number. *)
Lemma digits_ind (P : N -> Prop) :
  (forall n, (n < 10)%N -> P n) ->
  (forall n, (10 <= n)%N -> P (n / 10)%N -> P n) ->
  forall n, P n.
Proof.
  intros Hsmall Hstep n. induction n as [n IH] using (well_founded_induction N.lt_wf_0).
  destruct (N.ltb_spec n 10) as [H|H]; [now apply Hsmall|].
  apply Hstep; [assumption|]. apply IH. apply N.div_lt; lia.
Qed.

Lemma str_N_decimal (n : N) : PyStr.forallb PyChar.isdecimal (PyStr.str_N n) = true.
Proof.
  induction n as [n H | n H IH] using digits_ind.
  - rewrite str_N_small by assumption. simpl. now rewrite digit_char_decimal.
  - rewrite str_N_step, forallb_app, IH by assumption. simpl.
    rewrite digit_char_decimal; [reflexivity|]. apply N.mod_lt. lia.
Qed.

Lemma str_N_val (n : N) : dec_val (PyStr.str_N n) 0 = n.
Proof.
  induction n as [n H | n H IH] using digits_ind.
  - rewrite str_N_small by assumption. simpl. rewrite digit_char_code by assumption. lia.
  - rewrite str_N_step, dec_val_app, IH by assumption. simpl.
    rewrite digit_char_code by (apply N.mod_lt; lia).
    rewrite (N.div_mod n 10) at 3 by lia. lia.
Qed.

Lemma str_N_nonempty (n : N) : PyStr.str_N n <> "".
Proof.
  induction n as [n H | n H IH] using digits_ind.
  - now rewrite str_N_small.
  - rewrite str_N_step by assumption. destruct (PyStr.str_N (n / 10)); [now destruct IH | discriminate].
Qed.


Lemma zeros_decimal (k : nat) : PyStr.forallb PyChar.isdecimal (zeros k) = true.
Proof. induction k; simpl; [reflexivity | assumption]. Qed.

Lemma zeros_val (k : nat) : dec_val (zeros k) 0 = 0%N.
Proof. induction k; simpl; [reflexivity | assumption]. Qed.

Lemma str_octet (v : Z) : (0 <= v)%Z -> PyStr.str v = PyStr.str_N (Z.to_N v).
Proof. destruct v; [reflexivity | reflexivity | lia]. Qed.

Lemma octet_text_decimal (k : nat) (v : Z) :
  (0 <= v)%Z -> PyStr.forallb PyChar.isdecimal (octet_text k v) = true.
Proof.
  intros H. unfold octet_text. rewrite forallb_app, zeros_decimal, str_octet by assumption.
  apply str_N_decimal.
Qed.

Lemma octet_text_nonempty (k : nat) (v : Z) : (0 <= v)%Z -> octet_text k v <> "".
Proof.
  intros H. unfold octet_text. rewrite str_octet by assumption.
  pose proof (str_N_nonempty (Z.to_N v)).
  destruct k; simpl; [assumption | discriminate].
Qed.

Lemma digit_count_length (s : string) :
  (PyStr.digit_count s <= String.length s)%nat.
Proof.
  induction s as [|c s IH]; cbn [PyStr.digit_count String.length]; [lia|].
  destruct (PyChar.isdecimal c); lia.
Qed.

Lemma digit_count_decimal (s : string) :
  PyStr.forallb PyChar.isdecimal s = true -> PyStr.digit_count s = String.length s.
Proof.
  induction s as [|c s IH]; cbn [PyStr.digit_count String.length PyStr.forallb];
    [reflexivity|].
  intros [-> Hs]%andb_true_iff. now rewrite IH.
Qed.

(** Within the limit on the number of digits, the literal is read digit by
    digit; beyond it, it is refused. *)
Lemma int_literal_within (t : string) :
  (PyStr.digit_count t <= PyStr.int_max_str_digits)%nat ->
  PyStr.int_literal t = PyStr.int_digits t 0 false.
Proof.
  intros H. unfold PyStr.int_literal.
  destruct (Nat.ltb_spec PyStr.int_max_str_digits (PyStr.digit_count t)); [lia | reflexivity].
Qed.

Lemma int_literal_beyond (t : string) :
  (PyStr.int_max_str_digits < PyStr.digit_count t)%nat -> PyStr.int_literal t = None.
Proof.
  intros H. unfold PyStr.int_literal.
  destruct (Nat.ltb_spec PyStr.int_max_str_digits (PyStr.digit_count t)); [reflexivity | lia].
Qed.

(** A text of decimal digits is sent to [int_literal] as it is. *)
Lemma int_decimal_literal (s : string) :
  PyStr.forallb PyChar.isdecimal s = true -> s <> "" ->
  PyStr.int s = option_map Z.of_N (PyStr.int_literal s).
Proof.
  intros Hs Hne. unfold PyStr.int.
  assert (Hstrip : PyStr.strip_by PyStr.int_space s = s).
  { rewrite <- (strip_by_pad PyStr.int_space "" s "") at 2; try reflexivity.
    - simpl. now rewrite sapp_nil_r.
    - eapply forallb_impl; [|exact Hs]. intros c Hc. unfold clean.
      now rewrite isdecimal_not_int_space. }
  rewrite Hstrip.
  destruct s as [|c r]; [now destruct Hne|].
  simpl in Hs. apply andb_true_iff in Hs as [Hc _]. clear -Hc.
  destruct c as [[] [] [] [] [] [] [] []];
    try (vm_compute in Hc; discriminate Hc); reflexivity.
Qed.

(** [int] reads a string of at most 4300 decimal digits as its value. *)
Lemma int_decimal (s : string) :
  PyStr.forallb PyChar.isdecimal s = true -> s <> "" ->
  (String.length s <= PyStr.int_max_str_digits)%nat ->
  PyStr.int s = Some (Z.of_N (dec_val s 0)).
Proof.
  intros Hs Hne Hlen. rewrite int_decimal_literal by assumption.
  rewrite int_literal_within by (rewrite digit_count_decimal by assumption; exact Hlen).
  now rewrite int_digits_decimal by auto.
Qed.

(** [int] refuses a string of more than 4300 decimal digits. *)
Lemma int_decimal_long (s : string) :
  PyStr.forallb PyChar.isdecimal s = true ->
  (PyStr.int_max_str_digits < String.length s)%nat ->
  PyStr.int s = None.
Proof.
  intros Hs Hlen.
  assert (Hne : s <> "") by (intros ->; cbn in Hlen; lia).
  rewrite int_decimal_literal by assumption.
  rewrite int_literal_beyond by (rewrite digit_count_decimal by assumption; exact Hlen).
  reflexivity.
Qed.

Lemma int_octet_text (k : nat) (v : Z) :
  (0 <= v)%Z -> (String.length (octet_text k v) <= PyStr.int_max_str_digits)%nat ->
  PyStr.int (octet_text k v) = Some v.
Proof.
  intros H Hlen. rewrite int_decimal.
  - unfold octet_text. rewrite dec_val_app, zeros_val, str_octet, str_N_val by assumption.
    now rewrite Z2N.id.
  - now apply octet_text_decimal.
  - now apply octet_text_nonempty.
  - exact Hlen.
Qed.

(** The text of an octet has at most three digits. *)
Lemma str_octet_length (v : Z) : is_octet v -> (String.length (PyStr.str v) <= 3)%nat.
Proof.
  intros [Hlo Hhi].
  assert (H : List.forallb (fun n => (String.length (PyStr.str (Z.of_nat n)) <=? 3)%nat)
                (seq 0 256) = true) by (vm_compute; reflexivity).
  rewrite List.forallb_forall in H.
  specialize (H (Z.to_nat v)). rewrite Z2Nat.id in H by assumption.
  apply Nat.leb_le, H, in_seq. lia.
Qed.

Lemma str_octet_within (v : Z) :
  is_octet v -> (String.length (PyStr.str v) <= PyStr.int_max_str_digits)%nat.
Proof. intros H. apply str_octet_length in H. unfold PyStr.int_max_str_digits. lia. Qed.

(** *** Splitting and joining *)

Lemma has_char_app c (s t : string) :
  PyStr.has_char c (s +:+ t) = PyStr.has_char c s || PyStr.has_char c t.
Proof. apply existsb_app. Qed.

Lemma split_nonempty sep (s : string) : PyStr.split sep s <> [].
Proof.
  induction s as [|c s IH]; simpl; [discriminate|].
  destruct (Ascii.eqb c sep); [discriminate|].
  destruct (PyStr.split sep s); [now destruct IH | discriminate].
Qed.

Lemma split_clean sep (s : string) :
  PyStr.has_char sep s = false -> PyStr.split sep s = [s].
Proof.
  induction s as [|c s IH]; simpl; [reflexivity|].
  intros [Hc Hs]%orb_false_iff. rewrite Ascii.eqb_sym, Hc, (IH Hs). reflexivity.
Qed.

Lemma split_app sep (p rest : string) :
  PyStr.has_char sep p = false ->
  PyStr.split sep (p +:+ String sep rest) = p :: PyStr.split sep rest.
Proof.
  induction p as [|c p IH]; simpl.
  - intros _. now rewrite Ascii.eqb_refl.
  - intros [Hc Hs]%orb_false_iff. rewrite Ascii.eqb_sym, Hc, (IH Hs). reflexivity.
Qed.

(** ** IPv4 validation *)

Lemma decimal_no_char (x : ascii) (s : string) :
  PyChar.isdecimal x = false ->
  PyStr.forallb PyChar.isdecimal s = true -> PyStr.has_char x s = false.
Proof.
  intros Hx. apply existsb_none. intros c Hc.
  destruct (Ascii.eqb_spec x c) as [->|]; [congruence | reflexivity].
Qed.

Lemma dotted_digit_or_dot (p1 p2 p3 p4 : string) :
  PyStr.forallb PyChar.isdecimal p1 = true -> PyStr.forallb PyChar.isdecimal p2 = true ->
  PyStr.forallb PyChar.isdecimal p3 = true -> PyStr.forallb PyChar.isdecimal p4 = true ->
  PyStr.forallb digit_or_dot (dotted p1 p2 p3 p4) = true.
Proof.
  intros H1 H2 H3 H4. unfold dotted.
  assert (W : forall p, PyStr.forallb PyChar.isdecimal p = true ->
                        PyStr.forallb digit_or_dot p = true).
  { intros p. apply forallb_impl. intros c Hc. unfold digit_or_dot. now rewrite Hc. }
  repeat (rewrite forallb_app; simpl). now rewrite !W by assumption.
Qed.

Lemma dotted_split (p1 p2 p3 p4 : string) :
  PyStr.forallb PyChar.isdecimal p1 = true -> PyStr.forallb PyChar.isdecimal p2 = true ->
  PyStr.forallb PyChar.isdecimal p3 = true -> PyStr.forallb PyChar.isdecimal p4 = true ->
  PyStr.split "." (dotted p1 p2 p3 p4) = [p1; p2; p3; p4].
Proof.
  intros H1 H2 H3 H4. unfold dotted. simpl.
  rewrite !split_app, split_clean; auto using decimal_no_char.
Qed.

(** One round of the loop on a well-formed octet. *)
Lemma ipv4_octets_step (k : nat) (v : Z) (rest acc : list string) :
  is_octet v -> (String.length (octet_text k v) <= PyStr.int_max_str_digits)%nat ->
  ipv4_octets (octet_text k v :: rest) acc = ipv4_octets rest (acc ++ [PyStr.str v]).
Proof.
  intros [Hlo Hhi] Hlen.
  pose proof (octet_text_nonempty k v Hlo) as Hne.
  pose proof (octet_text_decimal k v Hlo) as Hdec.
  assert (Hemp : (octet_text k v =? "") = false) by now apply String.eqb_neq.
  assert (Hdig : PyStr.isdigit (octet_text k v) = true).
  { unfold PyStr.isdigit. rewrite Hemp. simpl.
    eapply forallb_impl; [apply isdecimal_isdigit | exact Hdec]. }
  assert (Hminus : PyStr.startswith "-" (octet_text k v) = false).
  { destruct (octet_text k v) as [|c r]; [reflexivity|].
    cbn [PyStr.forallb] in Hdec. cbn [PyStr.startswith].
    apply andb_true_iff in Hdec as [Hc _]. rewrite andb_true_r.
    destruct (Ascii.eqb_spec "-" c) as [<-|]; [discriminate Hc | reflexivity]. }
  assert (Hrange : ((v <? 0)%Z || (v >? 255)%Z) = false).
  { apply orb_false_iff. split; [apply Z.ltb_ge | rewrite Z.gtb_ltb; apply Z.ltb_ge]; lia. }
  cbn [ipv4_octets].
  now rewrite Hemp, Hminus, Hdig, (int_octet_text k v Hlo Hlen), Hrange.
Qed.

(** A text whose stripped form starts with a decimal digit is neither
    empty nor "N/A". *)
Lemma digit_first_not_missing (x : string) :
  match PyStr.strip x with
  | String c _ => PyChar.isdecimal c = true
  | EmptyString => False
  end ->
  (x =? "") || is_na_or_empty x = false.
Proof.
  intros H. apply orb_false_iff. split.
  - destruct (String.eqb_spec x "") as [->|]; [destruct H | reflexivity].
  - unfold is_na_or_empty. destruct (PyStr.strip x) as [|c r]; [destruct H|].
    cbn [PyStr.upper]. rewrite (isdecimal_upper c H). apply isdecimal_code in H.
    apply orb_false_iff. split; apply bool_decide_eq_false_2; [|discriminate].
    intros E. injection E as E _. change (PyChar.code "N") with 78%N in E. lia.
Qed.

(** The validator on four well-formed octets, with leading zeros and
    surrounding white space. *)
Lemma ipv4_accepts (ws1 ws2 : string) (k1 k2 k3 k4 : nat) (a b c d : Z) :
  is_octet a -> is_octet b -> is_octet c -> is_octet d ->
  (String.length (octet_text k1 a) <= PyStr.int_max_str_digits)%nat ->
  (String.length (octet_text k2 b) <= PyStr.int_max_str_digits)%nat ->
  (String.length (octet_text k3 c) <= PyStr.int_max_str_digits)%nat ->
  (String.length (octet_text k4 d) <= PyStr.int_max_str_digits)%nat ->
  PyStr.forallb PyChar.isspace ws1 = true -> PyStr.forallb PyChar.isspace ws2 = true ->
  ipv4_validate_and_normalize
    (ws1 +:+ dotted (octet_text k1 a) (octet_text k2 b) (octet_text k3 c) (octet_text k4 d)
         +:+ ws2)
  = (true, dotted (PyStr.str a) (PyStr.str b) (PyStr.str c) (PyStr.str d), "4", "ok").
Proof.
  intros Ha Hb Hc Hd La Lb Lc Ld H1 H2.
  set (core := dotted _ _ _ _).
  assert (Hdd : PyStr.forallb digit_or_dot core = true).
  { apply dotted_digit_or_dot; apply octet_text_decimal; [apply Ha|apply Hb|apply Hc|apply Hd]. }
  assert (Hstrip : PyStr.strip (ws1 +:+ core +:+ ws2) = core).
  { apply strip_by_pad; try assumption. eapply forallb_impl; [|exact Hdd].
    intros x. unfold clean. each_char x. }
  assert (Hfirst : match core with
                   | String x _ => PyChar.isdecimal x = true
                   | EmptyString => False
                   end).
  { subst core. unfold dotted.
    pose proof (octet_text_nonempty k1 a (proj1 Ha)) as Hne.
    pose proof (octet_text_decimal k1 a (proj1 Ha)) as Hdec.
    destruct (octet_text k1 a) as [|x r]; [contradiction|].
    simpl in Hdec |- *. now apply andb_true_iff in Hdec as [Hx _]. }
  unfold ipv4_validate_and_normalize.
  assert (Hmiss : ((ws1 +:+ core +:+ ws2) =? "") || is_na_or_empty (ws1 +:+ core +:+ ws2) = false).
  { apply digit_first_not_missing. now rewrite Hstrip. }
  rewrite Hmiss, Hstrip.
  replace (PyStr.has_char ":" core) with false
    by (symmetry; eapply existsb_none; [|exact Hdd]; intros x; each_char x).
  replace (PyStr.has_char "%" core) with false
    by (symmetry; eapply existsb_none; [|exact Hdd]; intros x; each_char x).
  simpl. subst core.
  rewrite dotted_split
    by (apply octet_text_decimal; first [apply Ha|apply Hb|apply Hc|apply Hd]).
  simpl length. simpl negb.
  rewrite !ipv4_octets_step by assumption. reflexivity.
Qed.




(** *** The number of parts does not depend on the surrounding white space *)

Lemma split_length sep (s : string) :
  length (PyStr.split sep s) = S (count_char sep s).
Proof.
  induction s as [|c s IH]; cbn [PyStr.split count_char]; [reflexivity|].
  destruct (Ascii.eqb c sep); cbn [length]; [now rewrite IH|].
  destruct (PyStr.split sep s); cbn [length] in *; lia.
Qed.

Lemma count_char_lstrip p x (s : string) :
  p x = false -> count_char x (PyStr.lstrip_by p s) = count_char x s.
Proof.
  intros Hx. induction s as [|c s IH]; cbn [PyStr.lstrip_by count_char]; [reflexivity|].
  destruct (p c) eqn:Hc; [|reflexivity].
  rewrite IH. destruct (Ascii.eqb_spec c x) as [->|]; [congruence | reflexivity].
Qed.

Lemma count_char_rstrip p x (s : string) :
  p x = false -> count_char x (PyStr.rstrip_by p s) = count_char x s.
Proof.
  intros Hx. induction s as [|c s IH]; cbn [PyStr.rstrip_by count_char]; [reflexivity|].
  destruct (PyStr.rstrip_by p s) as [|d r] eqn:E.
  - destruct (p c) eqn:Hc; cbn [count_char] in *; [|lia].
    rewrite <- IH. destruct (Ascii.eqb_spec c x) as [->|]; [congruence | reflexivity].
  - cbn [count_char] in *. lia.
Qed.

Lemma split_length_strip (s : string) :
  length (PyStr.split "." (PyStr.strip s)) = length (PyStr.split "." s).
Proof.
  rewrite !split_length. unfold PyStr.strip, PyStr.strip_by.
  now rewrite count_char_rstrip, count_char_lstrip.
Qed.

(** C4 as stated fails: "::1" has a single dot-separated
    part, and is rejected as IPv6, not for its number of parts. *)
Lemma ipv4_part_count_counterexample :
  length (PyStr.split "." "::1") <> 4%nat
  /\ ipv4_validate_and_normalize "::1" = (false, "::1", "6", "ipv6_detected")
  /\ ip_reason (ipv4_validate_and_normalize "::1") <> "wrong_part_count".
Proof. vm_compute. repeat split; discriminate. Qed.

(** C4, amended: an input that is not missing (its stripped form is neither
    empty nor "N/A" in upper case) and contains neither ":" nor "%" is
    rejected with "wrong_part_count" when its number of dot-separated parts
    is not 4; the value returned is the stripped input, the version empty. *)
Theorem ipv4_wrong_part_count (ip_str : string) :
  PyStr.strip ip_str <> "" ->
  PyStr.upper (PyStr.strip ip_str) <> PyStr.codes "N/A" ->
  PyStr.has_char ":" ip_str = false ->
  PyStr.has_char "%" ip_str = false ->
  length (PyStr.split "." ip_str) <> 4%nat ->
  ipv4_validate_and_normalize ip_str = (false, PyStr.strip ip_str, "", "wrong_part_count").
Proof.
  intros Hne Hna Hcolon Hpct Hparts. unfold ipv4_validate_and_normalize.
  assert (Hmiss : (ip_str =? "") || is_na_or_empty ip_str = false).
  { apply orb_false_iff. split.
    - destruct (String.eqb_spec ip_str "") as [->|]; [now destruct Hne | reflexivity].
    - unfold is_na_or_empty. apply orb_false_iff.
      split; apply bool_decide_eq_false_2; [assumption|].
      destruct (PyStr.strip ip_str) as [|c r]; [now destruct Hne|].
      cbn [PyStr.upper]. pose proof (upper_char_nonempty c) as Hu.
      destruct (PyChar.upper c); [contradiction | discriminate]. }
  rewrite Hmiss.
  assert (Hstrip : forall x, PyChar.isspace x = false -> PyStr.has_char x ip_str = false ->
                             PyStr.has_char x (PyStr.strip ip_str) = false).
  { intros x Hx Hin.
    assert (Hc : forall t, PyStr.has_char x t = false <-> count_char x t = 0%nat).
    { induction t as [|c t IH]; cbn; [tauto|].
      rewrite (Ascii.eqb_sym x c). destruct (Ascii.eqb c x); cbn; [split; [discriminate | lia] | exact IH]. }
    apply Hc. apply Hc in Hin. unfold PyStr.strip, PyStr.strip_by.
    now rewrite count_char_rstrip, count_char_lstrip. }
  rewrite !Hstrip by (assumption || reflexivity). cbn [orb].
  rewrite split_length_strip.
  destruct (Nat.eqb_spec (length (PyStr.split "." ip_str)) 4); [contradiction | reflexivity].
Qed.

Lemma ipv4_wrong_part_count_witness :
  ipv4_validate_and_normalize " 10.1.2 " = (false, "10.1.2", "", "wrong_part_count").
Proof.
  refine (ipv4_wrong_part_count " 10.1.2 " _ _ _ _ _); vm_compute; first [reflexivity | discriminate].
Defined.

(** ** The outcome invariant *)

Lemma ipv4_octets_reason (parts acc : list string) (r : string) :
  ipv4_octets parts acc = inl r -> r <> "ok".
Proof.
  revert acc. induction parts as [|p rest IH]; intros acc; cbn [ipv4_octets]; [discriminate|].
  repeat match goal with
         | |- context [if ?b then _ else _] => destruct b
         | |- context [match ?o with Some _ => _ | None => _ end] => destruct o
         end;
    try (intros [= <-]; discriminate).
  apply IH.
Qed.

Lemma fqdn_labels_reason (labels : list string) (r : string) :
  fqdn_labels labels = Some r -> r <> "ok".
Proof.
  induction labels as [|l rest IH]; cbn [fqdn_labels]; [discriminate|].
  repeat match goal with
         | |- context [if ?b then _ else _] => destruct b
         end;
    try (intros [= <-]; discriminate).
  apply IH.
Qed.

Ltac split_ifs :=
  repeat match goal with
         | |- context [if ?b then _ else _] => destruct b
         end.

(** C6: for every input, each field validator returns [valid = true]
    exactly when its reason code is "ok". *)
Theorem valid_iff_reason_ok (s : string) :
  (ip_valid (ipv4_validate_and_normalize s) = true
   <-> ip_reason (ipv4_validate_and_normalize s) = "ok")
  /\ (fst (validate_hostname s) = true <-> snd (validate_hostname s) = "ok")
  /\ (fst (validate_fqdn s) = true <-> snd (validate_fqdn s) = "ok")
  /\ (mac_valid (normalize_mac s) = true <-> mac_reason (normalize_mac s) = "ok").
Proof.
  repeat split.
  - unfold ipv4_validate_and_normalize. split_ifs; cbn; try discriminate.
    destruct (ipv4_octets _ _); cbn; [discriminate | reflexivity].
  - unfold ipv4_validate_and_normalize. split_ifs; cbn; try discriminate.
    destruct (ipv4_octets _ _) as [r|] eqn:E; cbn; [|reflexivity].
    intros ->. now apply ipv4_octets_reason in E.
  - unfold validate_hostname. split_ifs; cbn; (discriminate || reflexivity).
  - unfold validate_hostname. split_ifs; cbn; (discriminate || reflexivity).
  - unfold validate_fqdn. split_ifs; cbn; try discriminate.
    destruct (fqdn_labels _); cbn; [discriminate | reflexivity].
  - unfold validate_fqdn. split_ifs; cbn; try discriminate.
    destruct (fqdn_labels _) as [r|] eqn:E; cbn; [|reflexivity].
    intros ->. now apply fqdn_labels_reason in E.
  - unfold normalize_mac. split_ifs; cbn; (discriminate || reflexivity).
  - unfold normalize_mac. split_ifs; cbn; (discriminate || reflexivity).
Qed.

(** ** Scope, default subnet and reverse pointer *)

Lemma octet_text_0 (v : Z) : octet_text 0 v = PyStr.str v.
Proof. reflexivity. Qed.

Lemma str_decimal (v : Z) : (0 <= v)%Z -> PyStr.forallb PyChar.isdecimal (PyStr.str v) = true.
Proof. intros H. rewrite <- octet_text_0. now apply octet_text_decimal. Qed.

Lemma int_str (v : Z) : is_octet v -> PyStr.int (PyStr.str v) = Some v.
Proof.
  intros H. rewrite <- octet_text_0.
  apply int_octet_text; [apply H | now apply str_octet_within].
Qed.

Lemma canonical_ip_split (a b c d : Z) :
  (0 <= a)%Z -> (0 <= b)%Z -> (0 <= c)%Z -> (0 <= d)%Z ->
  PyStr.split "." (canonical_ip a b c d)
  = [PyStr.str a; PyStr.str b; PyStr.str c; PyStr.str d].
Proof. intros. apply dotted_split; now apply str_decimal. Qed.

Lemma canonical_ip_octets (a b c d : Z) :
  is_octet a -> is_octet b -> is_octet c -> is_octet d ->
  int_octets (canonical_ip a b c d) = Some [a; b; c; d].
Proof.
  intros Ha Hb Hc Hd. unfold int_octets.
  rewrite canonical_ip_split by (first [apply Ha | apply Hb | apply Hc | apply Hd]).
  cbn [mapM]. now rewrite !int_str by assumption.
Qed.

Lemma canonical_ip_valid (a b c d : Z) :
  is_octet a -> is_octet b -> is_octet c -> is_octet d ->
  ipv4_validate_and_normalize (canonical_ip a b c d) = (true, canonical_ip a b c d, "4", "ok").
Proof.
  intros Ha Hb Hc Hd.
  pose proof (ipv4_accepts "" "" 0 0 0 0 a b c d Ha Hb Hc Hd
                (str_octet_within a Ha) (str_octet_within b Hb)
                (str_octet_within c Hc) (str_octet_within d Hd) eq_refl eq_refl) as H.
  rewrite sapp_nil_r in H. exact H.
Qed.

Lemma classify_canonical (a b c d : Z) :
  is_octet a -> is_octet b -> is_octet c -> is_octet d ->
  classify_ipv4_type (canonical_ip a b c d)
  = if (a =? 10)%Z then "private_rfc1918"
    else if (a =? 172)%Z && ((16 <=? b) && (b <=? 31))%Z then "private_rfc1918"
    else if (a =? 192)%Z && (b =? 168)%Z then "private_rfc1918"
    else if (a =? 169)%Z && (b =? 254)%Z then "link_local_apipa"
    else if (a =? 127)%Z then "loopback"
    else "public_or_other".
Proof.
  intros Ha Hb Hc Hd. unfold classify_ipv4_type, classify_ipv4_try.
  rewrite canonical_ip_octets by assumption. cbn.
  repeat match goal with
         | |- context [(?x =? ?y)%Z] => destruct (x =? y)%Z; cbn
         | |- context [(?x <=? ?y)%Z] => destruct (x <=? y)%Z; cbn
         end; reflexivity.
Qed.

Lemma classify_private_iff (a b c d : Z) :
  is_octet a -> is_octet b -> is_octet c -> is_octet d ->
  classify_ipv4_type (canonical_ip a b c d) = "private_rfc1918" <-> rfc1918 a b.
Proof.
  intros Ha Hb Hc Hd. rewrite classify_canonical by assumption. unfold rfc1918.
  clear Ha Hb Hc Hd.
  destruct (Z.eqb_spec a 10); [intuition|].
  destruct (Z.eqb_spec a 172); cbn [andb].
  - destruct (Z.leb_spec 16 b); cbn [andb];
      [destruct (Z.leb_spec b 31)|]; cbn [andb]; [intuition| |].
    all: destruct (Z.eqb_spec a 192); [lia|]; cbn [andb].
    all: destruct (Z.eqb_spec a 169); [lia|]; cbn [andb].
    all: destruct (a =? 127)%Z; split; try discriminate; lia.
  - destruct (Z.eqb_spec a 192); cbn [andb].
    + destruct (Z.eqb_spec b 168); [intuition|].
      destruct (Z.eqb_spec a 169); [lia|]; cbn [andb].
      destruct (a =? 127)%Z; split; try discriminate; lia.
    + destruct (Z.eqb_spec a 169); cbn [andb].
      * destruct (b =? 254)%Z; [|destruct (a =? 127)%Z]; split; try discriminate; lia.
      * destruct (a =? 127)%Z; split; try discriminate; lia.
Qed.

Lemma default_subnet_canonical (a b c d : Z) :
  is_octet a -> is_octet b -> is_octet c -> is_octet d ->
  default_subnet (canonical_ip a b c d)
  = Some (if classify_ipv4_type (canonical_ip a b c d) =? "private_rfc1918"
          then PyStr.str a +:+ "." +:+ PyStr.str b +:+ "." +:+ PyStr.str c +:+ ".0/24"
          else "").
Proof.
  intros Ha Hb Hc Hd. unfold default_subnet.
  destruct (classify_ipv4_type _ =? "private_rfc1918"); [|reflexivity].
  now rewrite canonical_ip_octets by assumption.
Qed.

Lemma reverse_ptr_canonical (a b c d : Z) :
  (0 <= a)%Z -> (0 <= b)%Z -> (0 <= c)%Z -> (0 <= d)%Z ->
  generate_reverse_ptr (canonical_ip a b c d) true
  = PyStr.str d +:+ "." +:+ PyStr.str c +:+ "." +:+ PyStr.str b +:+ "." +:+ PyStr.str a
    +:+ ".in-addr.arpa".
Proof.
  intros Ha Hb Hc Hd. unfold generate_reverse_ptr. cbn [negb].
  now rewrite canonical_ip_split by assumption.
Qed.

(** C8: for the canonical text of every address a.b.c.d with octets in
    [0,255] (a text the validator accepts and returns unchanged), the scope
    is private_rfc1918 exactly when a=10, or a=172 and 16<=b<=31, or a=192
    and b=168; [default_subnet] is "a.b.c.0/24" for these and empty for every
    other scope; [generate_reverse_ptr] is "d.c.b.a.in-addr.arpa" when
    [ip_valid] holds, and empty whenever [ip_valid] is false. *)
Theorem scope_subnet_reverse_ptr (a b c d : Z) :
  (0 <= a <= 255)%Z -> (0 <= b <= 255)%Z -> (0 <= c <= 255)%Z -> (0 <= d <= 255)%Z ->
  let ip := canonical_ip a b c d in
  ipv4_validate_and_normalize ip = (true, ip, "4", "ok")
  /\ (classify_ipv4_type ip = "private_rfc1918" <-> rfc1918 a b)
  /\ (rfc1918 a b ->
      default_subnet ip
      = Some (PyStr.str a +:+ "." +:+ PyStr.str b +:+ "." +:+ PyStr.str c +:+ ".0/24"))
  /\ (~ rfc1918 a b -> default_subnet ip = Some "")
  /\ generate_reverse_ptr ip true
     = PyStr.str d +:+ "." +:+ PyStr.str c +:+ "." +:+ PyStr.str b +:+ "." +:+ PyStr.str a
       +:+ ".in-addr.arpa"
  /\ (forall anything, generate_reverse_ptr anything false = "").
Proof.
  intros Ha Hb Hc Hd ip. subst ip.
  pose proof (classify_private_iff a b c d Ha Hb Hc Hd) as Hp.
  pose proof (default_subnet_canonical a b c d Ha Hb Hc Hd) as Hs.
  repeat split.
  - now apply canonical_ip_valid.
  - apply Hp.
  - apply Hp.
  - intros H. apply Hp in H. rewrite Hs, H. reflexivity.
  - intros H. rewrite Hs.
    destruct (String.eqb_spec (classify_ipv4_type (canonical_ip a b c d)) "private_rfc1918")
      as [E|]; [|reflexivity].
    now apply Hp in E.
  - apply reverse_ptr_canonical; lia.
Qed.

Lemma scope_subnet_reverse_ptr_witness :
  classify_ipv4_type "10.1.2.3" = "private_rfc1918"
  /\ default_subnet "10.1.2.3" = Some "10.1.2.0/24"
  /\ generate_reverse_ptr "10.1.2.3" true = "3.2.1.10.in-addr.arpa".
Proof.
  pose proof (scope_subnet_reverse_ptr 10 1 2 3 ltac:(lia) ltac:(lia) ltac:(lia) ltac:(lia))
    as (_ & Hscope & Hsub & _ & Hptr & _).
  split; [|split].
  - apply Hscope. left. reflexivity.
  - apply Hsub. left. reflexivity.
  - exact Hptr.
Defined.

(** ** The pipeline, stage by stage *)

Lemma ipv4_octets_inr (parts acc cps : list string) :
  ipv4_octets parts acc = inr cps ->
  exists vs, Forall is_octet vs /\ length vs = length parts
             /\ cps = acc ++ map PyStr.str vs.
Proof.
  revert acc. induction parts as [|p rest IH]; intros acc; cbn [ipv4_octets].
  - intros [= <-]. exists []. now rewrite List.app_nil_r.
  - destruct (p =? ""); [discriminate|].
    destruct (PyStr.startswith "-" p); [discriminate|].
    destruct (negb (PyStr.isdigit p)); [discriminate|].
    destruct (PyStr.int p) as [v|]; [|discriminate].
    destruct ((v <? 0)%Z || (v >? 255)%Z) eqn:Hr; [discriminate|].
    intros H. apply IH in H as (vs & Hvs & Hlen & ->).
    exists (v :: vs). repeat split.
    + constructor; [|assumption]. apply orb_false_iff in Hr as [H1 H2].
      apply Z.ltb_ge in H1. rewrite Z.gtb_ltb in H2. apply Z.ltb_ge in H2.
      split; assumption.
    + cbn [length]. now rewrite Hlen.
    + now rewrite <- List.app_assoc.
Qed.

(** A valid outcome carries the canonical text of four octets. *)
Lemma ipv4_valid_form (ip_str : string) :
  ip_valid (ipv4_validate_and_normalize ip_str) = true ->
  exists a b c d, is_octet a /\ is_octet b /\ is_octet c /\ is_octet d
    /\ ipv4_validate_and_normalize ip_str = (true, canonical_ip a b c d, "4", "ok").
Proof.
  unfold ipv4_validate_and_normalize.
  destruct ((ip_str =? "") || is_na_or_empty ip_str); [discriminate|].
  destruct (PyStr.has_char ":" _ || PyStr.has_char "%" _); [discriminate|].
  destruct (Nat.eqb_spec (length (PyStr.split "." (PyStr.strip ip_str))) 4) as [Hlen|];
    [|discriminate].
  cbn [negb]. destruct (ipv4_octets _ _) as [r|cps] eqn:E; [discriminate|]. intros _.
  apply ipv4_octets_inr in E as (vs & Hvs & Hl & ->). rewrite Hlen in Hl.
  destruct vs as [|a [|b [|c [|d [|? ?]]]]]; try discriminate Hl.
  exists a, b, c, d.
  apply Forall_cons in Hvs as [Ha Hvs]. apply Forall_cons in Hvs as [Hb Hvs].
  apply Forall_cons in Hvs as [Hc Hvs]. apply Forall_cons in Hvs as [Hd _].
  repeat split; first [apply Ha | apply Hb | apply Hc | apply Hd].
Qed.

Lemma default_subnet_valid (ip_str : string) :
  ip_valid (ipv4_validate_and_normalize ip_str) = true ->
  exists subnet, default_subnet (ip_value (ipv4_validate_and_normalize ip_str)) = Some subnet.
Proof.
  intros H. apply ipv4_valid_form in H as (a & b & c & d & Ha & Hb & Hc & Hd & ->).
  cbn [ip_value]. rewrite default_subnet_canonical by (first [apply Ha|apply Hb|apply Hc|apply Hd]).
  eauto.
Qed.

(** [process_row] always returns; its trace, its issues, its anomaly and
    the consistency flag are those of the stages. *)
Lemma process_row_stages (env : llm_env) (row : gmap string string) :
  exists r,
    process_row env row = Some r
    /\ row_steps r
       = ip_trace (get row "ip") ++ hostname_trace (get row "hostname")
         ++ "fqdn_trim" :: fqdn_trace_tail (get row "fqdn") ++ mac_trace (get row "mac")
         ++ ["owner_parse_llm";
             "device_classify_llm_" +:+ snd (fst (classify_device_type_llm env row));
             "site_normalize"]
    /\ out_normalization_steps (row_output r) = PyStr.join "|" (row_steps r)
    /\ out_device_type_confidence (row_output r) = snd (fst (classify_device_type_llm env row))
    /\ row_anomalies r = record_issues row
    /\ row_anomaly r
       = match row_anomalies r with
         | [] => None
         | _ => Some {| anomaly_source_row_id := get row "source_row_id";
                        issues := row_anomalies r;
                        recommended_actions := generate_recommendations (row_anomalies r) |}
         end
    /\ out_fqdn_consistent (row_output r)
       = py_bool (fst (validate_fqdn (get row "fqdn"))
                  && check_fqdn_consistency (PyStr.strip (get row "hostname"))
                       (PyStr.strip (get row "fqdn"))).
Proof.
  unfold process_row, record_issues, ip_trace, ip_issues, hostname_trace, fqdn_trace_tail,
    mac_trace, field_issues.
  pose proof (default_subnet_valid (get row "ip")) as Hsub.
  destruct (ipv4_validate_and_normalize (get row "ip")) as [[[ipv ipn] ipver] ipr].
  destruct (validate_hostname (get row "hostname")) as [hv hr].
  destruct (validate_fqdn (get row "fqdn")) as [fv fr].
  destruct (normalize_mac (get row "mac")) as [[mv mn] mr].
  destruct (parse_owner_llm env _ _) as [[on oe] ot].
  destruct (classify_device_type_llm env row) as [[dt dc] rq].
  cbn [ip_valid ip_value ip_reason fst snd mac_valid mac_reason] in *.
  destruct ipv.
  - destruct (Hsub eq_refl) as [subnet ->]. cbn [mbind option_bind].
    destruct hv, fv, mv, (PyStr.strip (get row "hostname") =? ""),
      (PyStr.strip (get row "fqdn") =? ""), (PyStr.strip (get row "mac") =? "");
      eexists; repeat split.
  - cbn [mbind option_bind].
    destruct hv, fv, mv, (PyStr.strip (get row "hostname") =? ""),
      (PyStr.strip (get row "fqdn") =? ""), (PyStr.strip (get row "mac") =? "");
      eexists; repeat split.
Qed.

(** ** The trace *)

(** C3 as stated fails: on a record whose fields are all
    valid the trace has no "owner_trim", "device_type_trim" or "site_trim"
    token; the owner, device-type and site stages append one token each. *)
Lemma trace_trim_counterexample :
  let steps :=
    ["ip_trim"; "ip_parse"; "ip_normalize"; "hostname_trim"; "hostname_validate";
     "fqdn_trim"; "fqdn_validate"; "mac_trim"; "mac_normalize"; "owner_parse_llm";
     "device_classify_llm_high"; "site_normalize"] in
  option_map row_steps (process_row rules_only valid_record) = Some steps
  /\ ~ In "owner_trim" steps /\ ~ In "device_type_trim" steps /\ ~ In "site_trim" steps.
Proof.
  split; [vm_compute; reflexivity|].
  repeat split; intros H; cbn [In] in H; repeat (destruct H as [H|H]; [discriminate H|]);
    exact H.
Qed.

(** C3, amended: for every record and every backend the pipeline returns,
    and its trace is, in this order: "ip_trim", then "ip_parse" and
    "ip_normalize" for a valid IP, else "ip_invalid_<reason>";
    "hostname_trim", then "hostname_validate" or "hostname_invalid_<reason>";
    "fqdn_trim", followed by "fqdn_validate" when the FQDN is valid;
    "mac_trim", then "mac_normalize" for a valid MAC, "mac_invalid_<reason>"
    for an invalid one that is not empty after trimming, nothing for an empty
    one; then exactly "owner_parse_llm", "device_classify_llm_<confidence>"
    and "site_normalize" (no "_trim" token for these three stages).  The
    emitted [normalization_steps] is the trace joined with "|". *)
Theorem trace_by_stage (env : llm_env) (row : gmap string string) :
  exists r fqdn_tail,
    process_row env row = Some r
    /\ row_steps r
       = ip_trace (get row "ip") ++ hostname_trace (get row "hostname")
         ++ "fqdn_trim" :: fqdn_tail ++ mac_trace (get row "mac")
         ++ ["owner_parse_llm";
             "device_classify_llm_" +:+ out_device_type_confidence (row_output r);
             "site_normalize"]
    /\ (fst (validate_fqdn (get row "fqdn")) = true -> fqdn_tail = ["fqdn_validate"])
    /\ out_device_type_confidence (row_output r) = snd (fst (classify_device_type_llm env row))
    /\ out_normalization_steps (row_output r) = PyStr.join "|" (row_steps r).
Proof.
  destruct (process_row_stages env row) as (r & Hr & Hsteps & Hjoin & Hconf & _).
  exists r, (fqdn_trace_tail (get row "fqdn")). repeat split; try assumption.
  - now rewrite Hconf.
  - unfold fqdn_trace_tail. now intros ->.
Qed.

Lemma trace_by_stage_witness :
  exists r,
    process_row rules_only bad_ip_record = Some r
    /\ row_steps r
       = ["ip_trim"; "ip_invalid_octet_out_of_range"; "hostname_trim";
          "hostname_invalid_invalid_format"; "fqdn_trim"; "mac_trim";
          "mac_invalid_invalid_format"; "owner_parse_llm"; "device_classify_llm_medium";
          "site_normalize"].
Proof.
  destruct (trace_by_stage rules_only bad_ip_record) as (r & tl & Hr & Hsteps & _).
  exists r. split; [exact Hr|].
  vm_compute in Hr. injection Hr as <-. reflexivity.
Defined.

(** ** The consistency flag *)

Lemma check_fqdn_consistency_iff (hostname fqdn : string) :
  check_fqdn_consistency hostname fqdn = true
  <-> hostname <> "" /\ fqdn <> ""
      /\ PyStr.startswith (PyStr.lower hostname +:+ ".") (PyStr.lower fqdn) = true.
Proof.
  unfold check_fqdn_consistency.
  destruct (String.eqb_spec hostname "") as [->|Hh]; cbn [orb].
  - split; [discriminate | now intros [[] _]].
  - destruct (String.eqb_spec fqdn "") as [->|Hf].
    + split; [discriminate | now intros (_ & [] & _)].
    + tauto.
Qed.

(** C2 as stated fails: for hostname "web" and FQDN
    "web.corp_x.com" both are non-empty and the FQDN starts with "web.",
    yet the emitted flag is "false", because the FQDN does not pass its own
    validation. *)
Lemma fqdn_consistent_counterexample :
  get bad_fqdn_record "hostname" = "web"
  /\ get bad_fqdn_record "fqdn" = "web.corp_x.com"
  /\ PyStr.startswith (PyStr.lower "web" +:+ ".") (PyStr.lower "web.corp_x.com") = true
  /\ validate_fqdn "web.corp_x.com" = (false, "invalid_label_format")
  /\ option_map (fun r => out_fqdn_consistent (row_output r))
       (process_row rules_only bad_fqdn_record) = Some "false".
Proof. vm_compute. repeat split. Qed.

(** C2, amended: the emitted [fqdn_consistent] flag is "true" exactly when
    the FQDN passes [validate_fqdn] and the trimmed hostname and the trimmed
    FQDN are both non-empty and the FQDN, in lower case, starts with the
    hostname in lower case followed by "."; it does not depend on the
    hostname passing its validation.  [check_fqdn_consistency] itself
    depends on no validation at all. *)
Theorem fqdn_consistent_flag (env : llm_env) (row : gmap string string) :
  exists r,
    process_row env row = Some r
    /\ (out_fqdn_consistent (row_output r) = "true"
        <-> fst (validate_fqdn (get row "fqdn")) = true
            /\ PyStr.strip (get row "hostname") <> ""
            /\ PyStr.strip (get row "fqdn") <> ""
            /\ PyStr.startswith (PyStr.lower (PyStr.strip (get row "hostname")) +:+ ".")
                 (PyStr.lower (PyStr.strip (get row "fqdn"))) = true)
    /\ (out_fqdn_consistent (row_output r) <> "true"
        -> out_fqdn_consistent (row_output r) = "false")
    /\ (forall hostname fqdn,
          check_fqdn_consistency hostname fqdn = true
          <-> hostname <> "" /\ fqdn <> ""
              /\ PyStr.startswith (PyStr.lower hostname +:+ ".") (PyStr.lower fqdn) = true).
Proof.
  destruct (process_row_stages env row) as (r & Hr & _ & _ & _ & _ & _ & Hflag).
  exists r. split; [exact Hr|]. rewrite Hflag. split; [split|split].
  - intros H. destruct (fst (validate_fqdn _)); [|discriminate H]. cbn [andb] in H.
    destruct (check_fqdn_consistency _ _) eqn:E; [|discriminate H].
    split; [reflexivity|]. now apply check_fqdn_consistency_iff.
  - intros (-> & Hc). apply check_fqdn_consistency_iff in Hc. cbn [andb]. now rewrite Hc.
  - destruct (_ && _); cbn [py_bool]; [now intros [] | reflexivity].
  - intros hostname fqdn. apply check_fqdn_consistency_iff.
Qed.

Lemma fqdn_consistent_flag_witness :
  exists r,
    process_row rules_only valid_record = Some r
    /\ out_fqdn_consistent (row_output r) = "true".
Proof.
  destruct (fqdn_consistent_flag rules_only valid_record) as (r & Hr & Hflag & _).
  exists r. split; [exact Hr|]. apply Hflag. vm_compute.
  repeat split; discriminate.
Defined.

(** ** Anomalies and recommendations *)

Lemma recommend_fold (l : list issue) (acc : list string) :
  fold_left (fun acc i => acc ++ recommend i) l acc = acc ++ flat_map recommend l.
Proof.
  revert acc. induction l as [|i l IH]; intros acc; cbn [fold_left flat_map].
  - now rewrite List.app_nil_r.
  - now rewrite IH, List.app_assoc.
Qed.

(** One round of the loop appends the recommendation of the table, if any. *)
Lemma recommend_table (i : issue) :
  recommend i = match recommendation i with Some t => [t] | None => [] end.
Proof.
  unfold recommend, recommendation, recommendation_rules, rule_applies. cbn [find].
  destruct (field i =? "ip"), (field i =? "hostname"), (field i =? "mac"),
    (field i =? "fqdn"), (PyStr.contains "out_of_range" (type i)),
    (PyStr.contains "wrong_part_count" (type i)), (PyStr.contains "ipv6" (type i));
    reflexivity.
Qed.

Lemma generate_recommendations_matched (l : list issue) :
  l <> [] -> Forall (fun i => recommendation i <> None) l ->
  map Some (generate_recommendations l) = map recommendation l.
Proof.
  intros Hne Hall. unfold generate_recommendations. rewrite recommend_fold. cbn [app].
  assert (E : map Some (flat_map recommend l) = map recommendation l).
  { clear Hne. induction Hall as [|i l Hi _ IH]; [reflexivity|].
    cbn [flat_map map]. rewrite map_app, IH, recommend_table.
    destruct (recommendation i); [reflexivity | contradiction]. }
  destruct (flat_map recommend l) eqn:F; [|exact E].
  destruct l; [contradiction | discriminate E].
Qed.

Lemma generate_recommendations_default (l : list issue) :
  Forall (fun i => recommendation i = None) l ->
  generate_recommendations l = ["Review and correct field data"].
Proof.
  intros Hall. unfold generate_recommendations. rewrite recommend_fold. cbn [app].
  replace (flat_map recommend l) with (@nil string); [reflexivity|].
  induction Hall as [|i l Hi _ IH]; [reflexivity|].
  cbn [flat_map]. now rewrite recommend_table, Hi, <- IH.
Qed.

(** The issues of a record belong to the four validated fields, each of
    which has a recommendation. *)
Lemma record_issues_matched (row : gmap string string) :
  Forall (fun i => recommendation i <> None) (record_issues row).
Proof.
  assert (K : forall name reason raw,
             In name ["ip"; "hostname"; "mac"; "fqdn"] ->
             recommendation {| field := name; type := reason; value := raw |} <> None).
  { intros name reason raw Hin. unfold recommendation, recommendation_rules, rule_applies.
    cbn [find field type]. cbn [In] in Hin.
    destruct Hin as [<-|[<-|[<-|[<-|[]]]]]; cbn [String.eqb Ascii.eqb Bool.eqb andb];
      repeat match goal with
             | |- context [PyStr.contains ?w reason] => destruct (PyStr.contains w reason)
             end; discriminate. }
  unfold record_issues, ip_issues, field_issues.
  repeat apply Forall_app_2;
    match goal with
    | |- Forall _ (if ?b then _ else _) => destruct b
    end;
    repeat constructor; apply K; cbn [In]; tauto.
Qed.

(** C7: for every record, an anomaly is built exactly when the collected
    issues are not empty; it carries these issues and one recommendation per
    issue, in issue order, each the one the table gives for the issue's field
    and reason.  For any list of issues none of which matches a rule,
    [generate_recommendations] returns the single default text. *)
Theorem anomaly_iff_issues (env : llm_env) (row : gmap string string) :
  exists r,
    process_row env row = Some r
    /\ (row_anomaly r <> None <-> row_anomalies r <> [])
    /\ (forall a, row_anomaly r = Some a ->
          issues a = row_anomalies r
          /\ recommended_actions a = generate_recommendations (issues a)
          /\ map Some (recommended_actions a) = map recommendation (issues a)
          /\ length (recommended_actions a) = length (issues a))
    /\ (forall l, Forall (fun i => recommendation i = None) l ->
          generate_recommendations l = ["Review and correct field data"]).
Proof.
  destruct (process_row_stages env row) as (r & Hr & _ & _ & _ & Hiss & Han & _).
  exists r. split; [exact Hr|]. rewrite Han. split; [|split].
  - destruct (row_anomalies r); split; intros H; try discriminate; now destruct H.
  - intros a Ha.
    assert (Hne : row_anomalies r <> []) by (destruct (row_anomalies r); discriminate).
    assert (Ea : a = {| anomaly_source_row_id := get row "source_row_id";
                        issues := row_anomalies r;
                        recommended_actions := generate_recommendations (row_anomalies r) |}).
    { destruct (row_anomalies r); [discriminate Ha | now injection Ha]. }
    rewrite Ea. cbn [issues recommended_actions].
    assert (Hall : Forall (fun i => recommendation i <> None) (row_anomalies r))
      by (rewrite Hiss; apply record_issues_matched).
    pose proof (generate_recommendations_matched (row_anomalies r) Hne Hall) as Hm.
    repeat split; [exact Hm|].
    apply (f_equal (@length _)) in Hm. now rewrite !length_map in Hm.
  - apply generate_recommendations_default.
Qed.

Lemma anomaly_iff_issues_witness :
  exists r a,
    process_row rules_only bad_ip_record = Some r
    /\ row_anomaly r = Some a
    /\ recommended_actions a
       = ["Correct IP octets to valid range (0-255)";
          "Update hostname to meet RFC 1123 standards";
          "Correct MAC address to valid 12-digit hex format"].
Proof.
  destruct (anomaly_iff_issues rules_only bad_ip_record) as (r & Hr & _ & Ha & _).
  vm_compute in Hr. injection Hr as <-. eexists _, _. split; [reflexivity|].
  split; [reflexivity|].
  specialize (Ha _ eq_refl) as (_ & Hrec & _). cbn [recommended_actions]. reflexivity.
Defined.

(** ** Missing fields *)

Lemma ipv4_missing (raw_ip : string) :
  PyStr.strip raw_ip = "" \/ PyStr.upper (PyStr.strip raw_ip) = PyStr.codes "N/A" ->
  ipv4_validate_and_normalize raw_ip = (false, raw_ip, "", "missing").
Proof.
  intros H. unfold ipv4_validate_and_normalize.
  replace ((raw_ip =? "") || is_na_or_empty raw_ip) with true; [reflexivity|].
  symmetry. apply orb_true_iff. right. unfold is_na_or_empty. apply orb_true_iff.
  destruct H as [H|H]; [right | left]; apply bool_decide_eq_true_2; [now rewrite H | exact H].
Qed.

Lemma field_issues_other (name other reason raw : string) (valid : bool) :
  name <> other -> Forall (fun i => field i <> other) (field_issues name valid reason raw).
Proof.
  intros H. unfold field_issues. destruct (_ || _); repeat constructor. exact H.
Qed.

Lemma ip_issues_other (other raw : string) :
  "ip" <> other -> Forall (fun i => field i <> other) (ip_issues raw).
Proof.
  intros H. unfold ip_issues. destruct (ip_valid _); repeat constructor. exact H.
Qed.

Lemma field_issues_empty (name reason raw : string) (valid : bool) :
  valid = true \/ PyStr.strip raw = "" -> field_issues name valid reason raw = [].
Proof.
  intros H. unfold field_issues.
  replace (valid || (PyStr.strip raw =? "")) with true; [reflexivity|].
  symmetry. apply orb_true_iff.
  destruct H as [H|H]; [now left | right; now apply String.eqb_eq].
Qed.

(** C10: for every record, a hostname, FQDN or MAC that is empty after
    trimming fails its validation with reason "missing" and adds no issue of
    that field; when the IP is valid and each of the three is valid or empty,
    no anomaly is built; an IP that is empty or "N/A" after trimming fails
    with reason "missing", adds the issue (ip, missing, raw value) and an
    anomaly is built that lists it. *)
Theorem missing_fields (env : llm_env) (row : gmap string string) :
  exists r,
    process_row env row = Some r
    /\ (PyStr.strip (get row "hostname") = "" ->
        validate_hostname (get row "hostname") = (false, "missing")
        /\ Forall (fun i => field i <> "hostname") (row_anomalies r))
    /\ (PyStr.strip (get row "fqdn") = "" ->
        validate_fqdn (get row "fqdn") = (false, "missing")
        /\ Forall (fun i => field i <> "fqdn") (row_anomalies r))
    /\ (PyStr.strip (get row "mac") = "" ->
        normalize_mac (get row "mac") = (false, "", "missing")
        /\ Forall (fun i => field i <> "mac") (row_anomalies r))
    /\ (ip_valid (ipv4_validate_and_normalize (get row "ip")) = true ->
        fst (validate_hostname (get row "hostname")) = true
          \/ PyStr.strip (get row "hostname") = "" ->
        fst (validate_fqdn (get row "fqdn")) = true \/ PyStr.strip (get row "fqdn") = "" ->
        mac_valid (normalize_mac (get row "mac")) = true \/ PyStr.strip (get row "mac") = "" ->
        row_anomalies r = [] /\ row_anomaly r = None)
    /\ (PyStr.strip (get row "ip") = ""
          \/ PyStr.upper (PyStr.strip (get row "ip")) = PyStr.codes "N/A" ->
        ipv4_validate_and_normalize (get row "ip") = (false, get row "ip", "", "missing")
        /\ exists a rest,
             row_anomaly r = Some a
             /\ issues a = {| field := "ip"; type := "missing"; value := get row "ip" |} :: rest).
Proof.
  destruct (process_row_stages env row) as (r & Hr & _ & _ & _ & Hiss & Han & _).
  exists r. split; [exact Hr|]. rewrite Han, Hiss. unfold record_issues.
  split; [|split; [|split; [|split]]].
  - intros H. split.
    + unfold validate_hostname. rewrite H. now rewrite orb_true_r.
    + rewrite (field_issues_empty "hostname") by now right.
      repeat apply Forall_app_2;
        first [apply ip_issues_other | apply field_issues_other | constructor]; discriminate.
  - intros H. split.
    + unfold validate_fqdn. rewrite H. now rewrite orb_true_r.
    + rewrite (field_issues_empty "fqdn") by now right.
      repeat apply Forall_app_2;
        first [apply ip_issues_other | apply field_issues_other | constructor]; discriminate.
  - intros H. split.
    + unfold normalize_mac. rewrite H. now rewrite orb_true_r.
    + rewrite (field_issues_empty "mac") by now right.
      repeat apply Forall_app_2;
        first [apply ip_issues_other | apply field_issues_other | constructor]; discriminate.
  - intros Hip Hh Hf Hm. unfold ip_issues. rewrite Hip.
    rewrite !field_issues_empty by assumption. split; reflexivity.
  - intros H. pose proof (ipv4_missing _ H) as E. split; [exact E|].
    unfold ip_issues. rewrite E. cbn [ip_valid ip_reason app]. eauto.
Qed.

Lemma missing_fields_witness :
  (exists r, process_row rules_only empty_fields_record = Some r /\ row_anomaly r = None)
  /\ (exists r a,
        process_row rules_only na_ip_record = Some r /\ row_anomaly r = Some a
        /\ issues a = [{| field := "ip"; type := "missing"; value := " n/a " |}]).
Proof.
  split.
  - destruct (missing_fields rules_only empty_fields_record) as (r & Hr & _ & _ & _ & Hnone & _).
    exists r. split; [exact Hr|]. apply Hnone; vm_compute; auto.
  - destruct (missing_fields rules_only na_ip_record) as (r & Hr & _ & _ & _ & _ & Hna).
    destruct Hna as (_ & a & rest & Ha & Hi); [right; vm_compute; reflexivity|].
    exists r, a. split; [exact Hr|]. split; [exact Ha|].
    vm_compute in Hr. injection Hr as <-. vm_compute in Ha. injection Ha as <-.
    reflexivity.
Defined.

(** ** Device type classification *)

Lemma in_list_In (x : string) (l : list string) : in_list x l = true <-> In x l.
Proof.
  unfold in_list. rewrite existsb_exists. split.
  - intros (y & Hy & E). apply String.eqb_eq in E. now subst.
  - intros H. exists x. split; [exact H | apply String.eqb_refl].
Qed.

Lemma classify_by_keywords_table (hostname notes : string) :
  classify_by_keywords hostname notes
  = first_keyword_match (PyStr.lower (hostname +:+ " " +:+ notes)).
Proof.
  unfold classify_by_keywords, first_keyword_match, keyword_table, any_in.
  cbn [find fst snd].
  repeat match goal with
         | |- context [if ?b then _ else _] => destruct b
         end; reflexivity.
Qed.



(** ** Idempotence of the IP and MAC normalizers *)

Lemma strip_nonempty_not_na (x : string) :
  (x =? "") || is_na_or_empty x = false ->
  (PyStr.strip x =? "") || is_na_or_empty (PyStr.strip x) = false.
Proof.
  intros [_ H]%orb_false_iff. apply orb_false_iff. split.
  - unfold is_na_or_empty in H. apply orb_false_iff in H as [_ H].
    destruct (String.eqb_spec (PyStr.strip x) "") as [E|]; [|reflexivity].
    now rewrite E in H.
  - unfold is_na_or_empty in *. now rewrite strip_idem.
Qed.

(** Validating the value that the IP validator returned gives the same
    outcome again. *)
Lemma ipv4_unfold (x : string) :
  ipv4_validate_and_normalize x
  = if (x =? "") || is_na_or_empty x then (false, x, "", "missing")
    else ipv4_checks (PyStr.strip x).
Proof. reflexivity. Qed.

Lemma ipv4_checks_invalid (s : string) :
  ip_valid (ipv4_checks s) = false -> ip_value (ipv4_checks s) = s.
Proof.
  unfold ipv4_checks. split_ifs; try reflexivity.
  destruct (ipv4_octets _ _); [reflexivity | discriminate].
Qed.

Lemma ipv4_idempotent (x : string) :
  ipv4_validate_and_normalize (ip_value (ipv4_validate_and_normalize x))
  = ipv4_validate_and_normalize x.
Proof.
  destruct (ip_valid (ipv4_validate_and_normalize x)) eqn:V.
  - apply ipv4_valid_form in V as (a & b & c & d & Ha & Hb & Hc & Hd & ->).
    cbn [ip_value]. now apply canonical_ip_valid.
  - rewrite (ipv4_unfold x) in V |- *.
    destruct ((x =? "") || is_na_or_empty x) eqn:M.
    + cbn [ip_value]. now rewrite ipv4_unfold, M.
    + rewrite (ipv4_checks_invalid _ V), ipv4_unfold.
      now rewrite (strip_nonempty_not_na x M), strip_idem.
Qed.

Lemma strip_by_clean (p : ascii -> bool) (s : string) :
  PyStr.forallb (clean p) s = true -> PyStr.strip_by p s = s.
Proof.
  intros H. pose proof (strip_by_pad p "" s "" eq_refl eq_refl H) as E.
  simpl in E. now rewrite sapp_nil_r in E.
Qed.

(** *** The MAC pattern *)

Lemma pairs_ind (P : string -> Prop) :
  P "" -> (forall a, P (String a "")) ->
  (forall a b r, P r -> P (String a (String b r))) ->
  forall s, P s.
Proof.
  intros H0 H1 H2.
  assert (H : forall s, P s /\ forall c, P (String c s)).
  { induction s as [|c s [IH1 IH2]]; split; auto. }
  intros s. apply H.
Qed.

Lemma forallb_smap (q : ascii -> bool) (f : ascii -> ascii) (s : string) :
  PyStr.forallb q (PyStr.smap f s) = PyStr.forallb (fun c => q (f c)) s.
Proof. induction s as [|c s IH]; cbn; [reflexivity | now rewrite IH]. Qed.

Lemma smap_fixed (f : ascii -> ascii) (s : string) :
  PyStr.forallb (fun c => Ascii.eqb (f c) c) s = true -> PyStr.smap f s = s.
Proof.
  induction s as [|c s IH]; cbn [PyStr.forallb PyStr.smap]; [reflexivity|].
  intros [Hc Hs]%andb_true_iff. apply Ascii.eqb_eq in Hc. now rewrite Hc, IH.
Qed.

Lemma stake_length (n : nat) (s : string) :
  (n <= String.length s)%nat -> String.length (stake n s) = n.
Proof.
  revert s. induction n as [|n IH]; intros [|c s]; cbn; intros H; try lia.
  now rewrite IH by lia.
Qed.

Lemma stake_all (s : string) : stake (String.length s) s = s.
Proof. induction s as [|c s IH]; cbn; [reflexivity | now rewrite IH]. Qed.

Lemma sdrop_all (s : string) : sdrop (String.length s) s = "".
Proof. induction s as [|c s IH]; cbn; [reflexivity | exact IH]. Qed.

Lemma pairs_colon_forallb (q : ascii -> bool) (s : string) :
  q ":"%char = true -> PyStr.forallb q s = true -> PyStr.forallb q (pairs_colon s) = true.
Proof.
  intros Hq. induction s as [|a|a b r IH] using pairs_ind; try (intros H; exact H).
  cbn [PyStr.forallb]. intros [Ha [Hb Hr]%andb_true_iff]%andb_true_iff.
  destruct r as [|c r].
  - cbn [pairs_colon PyStr.forallb]. now rewrite Ha, Hb.
  - change (pairs_colon (String a (String b (String c r))))
      with (String a (String b (String ":" (pairs_colon (String c r))))).
    cbn [PyStr.forallb]. rewrite Ha, Hb, Hq. cbn [andb]. apply IH. exact Hr.
Qed.

Lemma pairs_colon_sfilter (q : ascii -> bool) (s : string) :
  q ":"%char = false -> PyStr.forallb q s = true -> sfilter q (pairs_colon s) = s.
Proof.
  intros Hq. induction s as [|a|a b r IH] using pairs_ind.
  - reflexivity.
  - cbn [PyStr.forallb pairs_colon sfilter]. intros [-> _]%andb_true_iff. reflexivity.
  - cbn [PyStr.forallb]. intros [Ha [Hb Hr]%andb_true_iff]%andb_true_iff.
    destruct r as [|c r].
    + cbn [pairs_colon sfilter]. now rewrite Ha, Hb.
    + change (pairs_colon (String a (String b (String c r))))
        with (String a (String b (String ":" (pairs_colon (String c r))))).
      cbn [sfilter]. rewrite Ha, Hb, Hq. now rewrite IH.
Qed.

Lemma pairs_colon_nonempty (s : string) : s <> "" -> pairs_colon s <> "".
Proof. destruct s as [|a [|b [|c r]]]; cbn [pairs_colon]; congruence. Qed.

(** Deleting the characters of a class with [re.sub] keeps the others. *)
Lemma sub_delete (p : ascii -> bool) (prev : option ascii) (s : string) :
  Re.sub_scan (Re.Chr p) (fun _ => "") prev 0 s = sfilter (fun c => negb (p c)) s.
Proof.
  revert prev. induction s as [|c s IH]; intros prev; [reflexivity|].
  cbn [Re.sub_scan Re.exec sfilter]. destruct (p c); cbn [negb].
  - unfold Re.accept. change (String.length (String c s)) with (S (String.length s)).
    replace (S (String.length s) - String.length s)%nat with 1%nat by lia.
    cbn [append]. apply IH.
  - now rewrite IH.
Qed.

(** [n] characters of a class, then a continuation that does not look at
    the character before. *)
Lemma rep_min_chr (p : ascii -> bool) (k : Re.cont) (n : nat) :
  (forall a b t, k a t = k b t) ->
  forall prev s,
    Re.rep_min (Re.exec (Re.Chr p)) n k prev s
    = if (n <=? String.length s)%nat && PyStr.forallb p (stake n s)
      then k None (sdrop n s) else None.
Proof.
  intros Hk. induction n as [|n IH]; intros prev s.
  - cbn. apply Hk.
  - cbn [Re.rep_min Re.exec]. destruct s as [|c s]; [reflexivity|].
    cbn [String.length stake sdrop PyStr.forallb Nat.leb].
    destruct (p c); [|now rewrite andb_false_r].
    rewrite IH. reflexivity.
Qed.

(** The MAC pattern accepts twelve hexadecimal digits, followed by the end
    of the text or by a final newline. *)
Lemma mac_pattern_matches (s : string) :
  Re.matches mac_pattern s
  = (12 <=? String.length s)%nat && PyStr.forallb PyChar.is_hex (stake 12 s)
    && ((sdrop 12 s =? "") || (sdrop 12 s =? String "010" "")).
Proof.
  unfold Re.matches.
  change (Re.exec mac_pattern Re.accept None s)
    with (Re.rep_min (Re.exec (Re.Chr PyChar.is_hex)) 12 (Re.exec Re.Eol Re.accept) None s).
  rewrite rep_min_chr by reflexivity.
  destruct ((12 <=? String.length s)%nat && PyStr.forallb PyChar.is_hex (stake 12 s));
    [|reflexivity].
  cbn [Re.exec andb]. unfold Re.accept.
  destruct ((sdrop 12 s =? "") || _); reflexivity.
Qed.

(** The normalized text is made of the first twelve characters. *)
Lemma mac_pairs_join (s : string) :
  (12 <= String.length s)%nat ->
  PyStr.join ":" (mac_pairs s) = pairs_colon (PyStr.lower (stake 12 s)).
Proof.
  intros H. do 12 (destruct s as [|? s]; [cbn in H; lia|]). clear H.
  unfold mac_pairs, PyStr.lower.
  cbn [map substring PyStr.smap PyStr.join stake pairs_colon String.append].
  destruct s; reflexivity.
Qed.

Lemma canonical_mac_fixed (h : string) :
  String.length h = 12%nat -> PyStr.forallb is_lower_hex h = true ->
  normalize_mac (pairs_colon h) = (true, pairs_colon h, "ok").
Proof.
  intros Hlen Hh.
  assert (Hne : h <> "") by (intros ->; discriminate Hlen).
  assert (Hstrip : PyStr.strip (pairs_colon h) = pairs_colon h).
  { apply strip_by_clean. apply pairs_colon_forallb; [reflexivity|].
    eapply forallb_impl; [|exact Hh]. intros c. unfold clean. each_char c. }
  assert (Hclean : Re.sub (Re.Chr mac_separator) (fun _ => "") (pairs_colon h) = h).
  { unfold Re.sub. rewrite sub_delete. apply pairs_colon_sfilter; [reflexivity|].
    eapply forallb_impl; [|exact Hh]. intros c. each_char c. }
  assert (Hhex : PyStr.forallb PyChar.is_hex h = true).
  { eapply forallb_impl; [|exact Hh]. intros c. each_char c. }
  assert (Hlow : PyStr.lower h = h).
  { apply smap_fixed. eapply forallb_impl; [|exact Hh]. intros c. each_char c. }
  unfold normalize_mac. rewrite Hstrip, Hclean, mac_pattern_matches.
  pose proof (pairs_colon_nonempty h Hne) as Hne'. apply String.eqb_neq in Hne'.
  rewrite Hne'. cbn [orb].
  rewrite mac_pairs_join by lia.
  assert (Htake : stake 12 h = h) by (rewrite <- Hlen; apply stake_all).
  assert (Hdrop : sdrop 12 h = "") by (rewrite <- Hlen; apply sdrop_all).
  now rewrite Htake, Hdrop, Hlen, Hhex, Hlow.
Qed.

(** Normalizing the value that the MAC normalizer returned gives the same
    outcome again. *)
Lemma normalize_mac_idempotent (x : string) :
  normalize_mac (mac_value (normalize_mac x)) = normalize_mac x.
Proof.
  unfold normalize_mac at 2 3.
  destruct ((x =? "") || (PyStr.strip x =? "")) eqn:M; [reflexivity|].
  set (cleaned := Re.sub _ _ _).
  destruct (Re.matches mac_pattern cleaned) eqn:P; cbn [negb mac_value].
  - rewrite mac_pattern_matches in P.
    apply andb_true_iff in P as [[Hlen Hhex]%andb_true_iff _]. apply Nat.leb_le in Hlen.
    rewrite mac_pairs_join by assumption. apply canonical_mac_fixed.
    + unfold PyStr.lower.
      assert (L : forall f s, String.length (PyStr.smap f s) = String.length s)
        by (intros f s; induction s; cbn; congruence).
      rewrite L. now apply stake_length.
    + unfold PyStr.lower. rewrite forallb_smap.
      eapply forallb_impl; [|exact Hhex]. intros c. each_char c.
  - apply orb_false_iff in M as [_ M]. unfold normalize_mac.
    rewrite strip_idem, M. cbn [orb]. fold cleaned. now rewrite P.
Qed.

(** C5 as stated fails for the site normalizer: "lab1"
    becomes "lab 1", which becomes "Lab 1"; and "-N/A" becomes "N/A", which
    the guard for missing values turns into the empty text. *)
Lemma site_not_idempotent :
  normalize_site "lab1" = "lab 1"
  /\ normalize_site (normalize_site "lab1") = "Lab 1"
  /\ normalize_site (normalize_site "lab1") <> normalize_site "lab1"
  /\ normalize_site "-N/A" = "N/A"
  /\ normalize_site (normalize_site "-N/A") = ""
  /\ normalize_site (normalize_site "-N/A") <> normalize_site "-N/A".
Proof. vm_compute. repeat split; discriminate. Qed.

(** C5, amended: for every input, validating again the value returned by
    [ipv4_validate_and_normalize] gives the same outcome, and so does
    normalizing again the value returned by [normalize_mac]; in particular
    each returned value is a fixed point. *)
Theorem ip_and_mac_idempotent (x : string) :
  ipv4_validate_and_normalize (ip_value (ipv4_validate_and_normalize x))
  = ipv4_validate_and_normalize x
  /\ ip_value (ipv4_validate_and_normalize (ip_value (ipv4_validate_and_normalize x)))
     = ip_value (ipv4_validate_and_normalize x)
  /\ normalize_mac (mac_value (normalize_mac x)) = normalize_mac x
  /\ mac_value (normalize_mac (mac_value (normalize_mac x))) = mac_value (normalize_mac x).
Proof.
  split; [|split; [|split]].
  - apply ipv4_idempotent.
  - now rewrite ipv4_idempotent.
  - apply normalize_mac_idempotent.
  - now rewrite normalize_mac_idempotent.
Qed.

(** ** The whole table *)

(** [process] returns for every table: one output row per record, in
    order, and at most one anomaly per record. *)
Lemma process_total (env : llm_env) (rows : list (gmap string string)) :
  exists output_rows anomalies,
    process env rows = Some (output_rows, anomalies)
    /\ length output_rows = length rows
    /\ (length anomalies <= length rows)%nat.
Proof.
  induction rows as [|row rows (out & ans & IH & Hlen & Hle)]; cbn [process].
  - exists [], []. repeat split; reflexivity.
  - destruct (process_row_stages env row) as (r & Hr & _). rewrite Hr, IH.
    cbn [mbind option_bind].
    eexists _, _. split; [reflexivity|]. cbn [length]. split; [now rewrite Hlen|].
    destruct (row_anomaly r); cbn [length]; lia.
Qed.

(** ** Examples of the specification *)

Example ipv4_out_of_range :
  ipv4_validate_and_normalize "300.1.1.1" = (false, "300.1.1.1", "", "octet_out_of_range").
Proof. vm_compute. reflexivity. Qed.

Example ipv4_padded :
  ipv4_validate_and_normalize " 010.1.02.3 " = (true, "10.1.2.3", "4", "ok").
Proof. vm_compute. reflexivity. Qed.

Example ipv4_superscript_digit :
  ipv4_validate_and_normalize (String (ascii_of_N 178) ".1.1.1")
  = (false, String (ascii_of_N 178) ".1.1.1", "", "parse_error").
Proof. vm_compute. reflexivity. Qed.

Example hostname_examples :
  validate_hostname "web-01" = (true, "ok")
  /\ validate_hostname "-web" = (false, "invalid_format")
  /\ validate_hostname (zeros 254) = (false, "too_long").
Proof. vm_compute. repeat split. Qed.

Example fqdn_examples :
  validate_fqdn "web-01.corp.example.com" = (true, "ok")
  /\ check_fqdn_consistency "web-01" "web-01.corp.example.com" = true
  /\ check_fqdn_consistency "web-02" "web-01.corp.example.com" = false
  /\ check_fqdn_consistency "WEB-01" "web-01.Corp.example.com" = true.
Proof. vm_compute. repeat split. Qed.

Example mac_examples :
  normalize_mac "AA-BB-CC-DD-EE-FF" = (true, "aa:bb:cc:dd:ee:ff", "ok")
  /\ normalize_mac "aabb.ccdd.eeff" = (true, "aa:bb:cc:dd:ee:ff", "ok")
  /\ normalize_mac "AABBCCDDEE" = (false, "AABBCCDDEE", "invalid_format").
Proof. vm_compute. repeat split. Qed.

Example site_examples :
  normalize_site "bldg-1_campus" = "Building 1 Campus"
  /\ normalize_site "Building1" = "Building 1"
  /\ normalize_site "  HQ   dc-2 " = "HQ DC 2"
  /\ normalize_site " n/a " = "".
Proof. vm_compute. repeat split. Qed.

Example private_address :
  classify_ipv4_type "10.1.2.3" = "private_rfc1918"
  /\ default_subnet "10.1.2.3" = Some "10.1.2.0/24"
  /\ generate_reverse_ptr "10.1.2.3" true = "3.2.1.10.in-addr.arpa"
  /\ classify_ipv4_type "169.254.7.7" = "link_local_apipa"
  /\ classify_ipv4_type "127.0.0.1" = "loopback"
  /\ classify_ipv4_type "8.8.8.8" = "public_or_other".
Proof. vm_compute. repeat split. Qed.

Example out_of_range_record :
  option_map row_anomaly
    (process_row rules_only (list_to_map [("source_row_id", "9"); ("ip", "10.0.0.300");
                                          ("hostname", "srv-1")]))
  = Some (Some {| anomaly_source_row_id := "9";
                  issues := [{| field := "ip"; type := "octet_out_of_range";
                                value := "10.0.0.300" |}];
                  recommended_actions := ["Correct IP octets to valid range (0-255)"] |}).
Proof. vm_compute. reflexivity. Qed.

(** * Further properties of the code *)

(** ** The emitted row *)

(** The fields of the emitted row, read off the stages. *)
Lemma process_row_outputs (env : llm_env) (row : gmap string string) :
  exists r,
    process_row env row = Some r
    /\ out_ip (row_output r)
       = (if ip_valid (ipv4_validate_and_normalize (get row "ip"))
          then ip_value (ipv4_validate_and_normalize (get row "ip"))
          else PyStr.strip (get row "ip"))
    /\ out_ip_valid (row_output r)
       = py_bool (ip_valid (ipv4_validate_and_normalize (get row "ip")))
    /\ out_ip_version (row_output r) = ip_version (ipv4_validate_and_normalize (get row "ip"))
    /\ Some (out_subnet_cidr (row_output r))
       = (if ip_valid (ipv4_validate_and_normalize (get row "ip"))
          then default_subnet (ip_value (ipv4_validate_and_normalize (get row "ip")))
          else Some "")
    /\ out_reverse_ptr (row_output r)
       = (if ip_valid (ipv4_validate_and_normalize (get row "ip"))
          then generate_reverse_ptr (ip_value (ipv4_validate_and_normalize (get row "ip"))) true
          else "")
    /\ out_hostname (row_output r) = PyStr.strip (get row "hostname")
    /\ out_hostname_valid (row_output r) = py_bool (fst (validate_hostname (get row "hostname")))
    /\ out_fqdn (row_output r) = PyStr.strip (get row "fqdn")
    /\ out_mac (row_output r)
       = (if mac_valid (normalize_mac (get row "mac"))
          then mac_value (normalize_mac (get row "mac"))
          else PyStr.strip (get row "mac"))
    /\ out_mac_valid (row_output r) = py_bool (mac_valid (normalize_mac (get row "mac")))
    /\ (out_owner (row_output r), out_owner_email (row_output r), out_owner_team (row_output r))
       = parse_owner_llm env (get row "owner") (get row "source_row_id")
    /\ (out_device_type (row_output r), out_device_type_confidence (row_output r))
       = fst (classify_device_type_llm env row)
    /\ row_requests r = snd (classify_device_type_llm env row)
    /\ out_site (row_output r) = PyStr.strip (get row "site")
    /\ out_site_normalized (row_output r) = normalize_site (get row "site")
    /\ out_source_row_id (row_output r) = get row "source_row_id".
Proof.
  unfold process_row.
  pose proof (default_subnet_valid (get row "ip")) as Hsub.
  destruct (ipv4_validate_and_normalize (get row "ip")) as [[[ipv ipn] ipver] ipr].
  destruct (validate_hostname (get row "hostname")) as [hv hr].
  destruct (validate_fqdn (get row "fqdn")) as [fv fr].
  destruct (normalize_mac (get row "mac")) as [[mv mn] mr].
  destruct (parse_owner_llm env _ _) as [[on oe] ot].
  destruct (classify_device_type_llm env row) as [[dt dc] rq].
  cbn [ip_valid ip_value ip_version ip_reason fst snd mac_valid mac_value mac_reason] in *.
  destruct ipv.
  - destruct (Hsub eq_refl) as [subnet ->]. cbn [mbind option_bind].
    destruct hv, fv, mv, (PyStr.strip (get row "hostname") =? ""),
      (PyStr.strip (get row "fqdn") =? ""), (PyStr.strip (get row "mac") =? "");
      (eexists; split; [reflexivity|]; cbv beta iota delta
         [row_output row_requests out_ip out_ip_valid out_ip_version out_subnet_cidr
          out_reverse_ptr out_hostname out_hostname_valid out_fqdn out_mac out_mac_valid
          out_owner out_owner_email out_owner_team out_device_type
          out_device_type_confidence out_site out_site_normalized out_source_row_id];
       repeat (split; [reflexivity|]); reflexivity).
  - cbn [mbind option_bind].
    destruct hv, fv, mv, (PyStr.strip (get row "hostname") =? ""),
      (PyStr.strip (get row "fqdn") =? ""), (PyStr.strip (get row "mac") =? "");
      (eexists; split; [reflexivity|]; cbv beta iota delta
         [row_output row_requests out_ip out_ip_valid out_ip_version out_subnet_cidr
          out_reverse_ptr out_hostname out_hostname_valid out_fqdn out_mac out_mac_valid
          out_owner out_owner_email out_owner_team out_device_type
          out_device_type_confidence out_site out_site_normalized out_source_row_id];
       repeat (split; [reflexivity|]); reflexivity).
Qed.

(** X1: for a record whose IP is accepted, the emitted row carries the
    canonical text of four octets in [0,255], the flag "true", version "4",
    the reverse pointer of these octets, and the /24 subnet exactly when the
    address is in an RFC 1918 range. *)
Theorem valid_ip_row (env : llm_env) (row : gmap string string) :
  ip_valid (ipv4_validate_and_normalize (get row "ip")) = true ->
  exists r a b c d,
    process_row env row = Some r
    /\ is_octet a /\ is_octet b /\ is_octet c /\ is_octet d
    /\ out_ip (row_output r) = canonical_ip a b c d
    /\ out_ip_valid (row_output r) = "true"
    /\ out_ip_version (row_output r) = "4"
    /\ out_reverse_ptr (row_output r)
       = PyStr.str d +:+ "." +:+ PyStr.str c +:+ "." +:+ PyStr.str b +:+ "." +:+ PyStr.str a
         +:+ ".in-addr.arpa"
    /\ (rfc1918 a b ->
        out_subnet_cidr (row_output r)
        = PyStr.str a +:+ "." +:+ PyStr.str b +:+ "." +:+ PyStr.str c +:+ ".0/24")
    /\ (~ rfc1918 a b -> out_subnet_cidr (row_output r) = "").
Proof.
  intros V.
  destruct (process_row_outputs env row)
    as (r & Hr & Hip & Hflag & Hver & Hsub & Hptr & _).
  rewrite V in Hip, Hflag, Hsub, Hptr.
  apply ipv4_valid_form in V as (a & b & c & d & Ha & Hb & Hc & Hd & E).
  rewrite E in Hip, Hver, Hsub, Hptr. cbn [ip_value ip_version] in *.
  exists r, a, b, c, d.
  pose proof (classify_private_iff a b c d Ha Hb Hc Hd) as Hp.
  rewrite default_subnet_canonical in Hsub by (first [apply Ha|apply Hb|apply Hc|apply Hd]).
  injection Hsub as Hsub.
  rewrite reverse_ptr_canonical in Hptr by (first [apply Ha|apply Hb|apply Hc|apply Hd]).
  split; [exact Hr|]. do 4 (split; [assumption|]).
  split; [exact Hip|]. split; [exact Hflag|]. split; [exact Hver|]. split; [exact Hptr|].
  split.
  - intros H. apply Hp in H. now rewrite Hsub, H.
  - intros H. rewrite Hsub.
    destruct (String.eqb_spec (classify_ipv4_type (canonical_ip a b c d)) "private_rfc1918")
      as [E'|]; [|reflexivity].
    now apply Hp in E'.
Qed.

Lemma valid_ip_row_witness :
  exists r,
    process_row rules_only valid_record = Some r
    /\ out_ip (row_output r) = "10.1.2.3"
    /\ out_reverse_ptr (row_output r) = "3.2.1.10.in-addr.arpa"
    /\ out_subnet_cidr (row_output r) = "10.1.2.0/24".
Proof.
  destruct (valid_ip_row rules_only valid_record eq_refl)
    as (r & a & b & c & d & Hr & _).
  exists r. split; [exact Hr|].
  vm_compute in Hr. injection Hr as <-. repeat split.
Defined.

(** X2: the emitted row keeps what it was given: hostname, FQDN and site
    are the trimmed inputs whether or not they are valid; a rejected IP is
    emitted trimmed, with flag "false" and empty subnet and reverse pointer;
    a rejected MAC is emitted trimmed with flag "false"; the row identifier
    is copied. *)
Theorem rejected_input_is_kept (env : llm_env) (row : gmap string string) :
  exists r,
    process_row env row = Some r
    /\ out_hostname (row_output r) = PyStr.strip (get row "hostname")
    /\ out_fqdn (row_output r) = PyStr.strip (get row "fqdn")
    /\ out_site (row_output r) = PyStr.strip (get row "site")
    /\ out_source_row_id (row_output r) = get row "source_row_id"
    /\ (ip_valid (ipv4_validate_and_normalize (get row "ip")) = false ->
        out_ip (row_output r) = PyStr.strip (get row "ip")
        /\ out_ip_valid (row_output r) = "false"
        /\ out_subnet_cidr (row_output r) = ""
        /\ out_reverse_ptr (row_output r) = "")
    /\ (mac_valid (normalize_mac (get row "mac")) = false ->
        out_mac (row_output r) = PyStr.strip (get row "mac")
        /\ out_mac_valid (row_output r) = "false").
Proof.
  destruct (process_row_outputs env row)
    as (r & Hr & Hip & Hflag & _ & Hsub & Hptr & Hh & _ & Hf & Hm & Hmf & _ & _ & _
        & Hs & _ & Hid).
  exists r. repeat (split; [assumption|]). split.
  - intros V. rewrite V in Hip, Hflag, Hsub, Hptr. injection Hsub as Hsub.
    repeat split; assumption.
  - intros V. rewrite V in Hm, Hmf. split; assumption.
Qed.

Lemma rejected_input_is_kept_witness :
  exists r,
    process_row rules_only bad_ip_record = Some r
    /\ out_ip (row_output r) = "300.1.1.1"
    /\ out_mac (row_output r) = "AABBCCDDEE".
Proof.
  destruct (rejected_input_is_kept rules_only bad_ip_record)
    as (r & Hr & _ & _ & _ & _ & Hip & Hmac).
  exists r. split; [exact Hr|]. split.
  - rewrite (proj1 (Hip eq_refl)). reflexivity.
  - rewrite (proj1 (Hmac eq_refl)). reflexivity.
Defined.

(** ** The whole table *)


(** ** The issues of a record *)

Lemma valid_iff_ok_ip (s : string) :
  ip_reason (ipv4_validate_and_normalize s) = "ok"
  -> ip_valid (ipv4_validate_and_normalize s) = true.
Proof.
  unfold ipv4_validate_and_normalize. split_ifs; cbn; try discriminate.
  destruct (ipv4_octets _ _) as [r|] eqn:E; cbn; [|reflexivity].
  intros ->. now apply ipv4_octets_reason in E.
Qed.

Lemma valid_iff_ok_rest (s : string) :
  (snd (validate_hostname s) = "ok" -> fst (validate_hostname s) = true)
  /\ (snd (validate_fqdn s) = "ok" -> fst (validate_fqdn s) = true)
  /\ (mac_reason (normalize_mac s) = "ok" -> mac_valid (normalize_mac s) = true).
Proof.
  split; [|split].
  - unfold validate_hostname. split_ifs; cbn; (discriminate || reflexivity).
  - unfold validate_fqdn. split_ifs; cbn; try discriminate.
    destruct (fqdn_labels _) as [r|] eqn:E; cbn; [|reflexivity].
    intros ->. now apply fqdn_labels_reason in E.
  - unfold normalize_mac. split_ifs; cbn; (discriminate || reflexivity).
Qed.

Lemma hostname_missing_iff (h : string) :
  snd (validate_hostname h) = "missing" <-> PyStr.strip h = "".
Proof.
  unfold validate_hostname.
  destruct (String.eqb_spec h "") as [->|Hh]; cbn [orb]; [split; reflexivity|].
  destruct (String.eqb_spec (PyStr.strip h) "") as [E|E]; cbn [snd]; [tauto|].
  split_ifs; cbn [snd]; split; intros H; try discriminate H; contradiction.
Qed.

Lemma fqdn_missing_iff (f : string) :
  snd (validate_fqdn f) = "missing" <-> PyStr.strip f = "".
Proof.
  unfold validate_fqdn.
  destruct (String.eqb_spec f "") as [->|Hf]; cbn [orb]; [split; reflexivity|].
  destruct (String.eqb_spec (PyStr.strip f) "") as [E|E]; cbn [snd]; [tauto|].
  destruct (negb (PyStr.has_char "." (PyStr.strip f))); cbn [snd];
    [split; intros H; [discriminate H | contradiction]|].
  destruct (fqdn_labels _) as [r|] eqn:L; cbn [snd];
    [|split; intros H; [discriminate H | contradiction]].
  split; [|contradiction]. intros ->. exfalso. revert L.
  generalize (PyStr.split "." (PyStr.strip f)). intros l.
  induction l as [|x l IH]; cbn [fqdn_labels]; [discriminate|].
  split_ifs; try discriminate. exact IH.
Qed.

Lemma mac_missing_iff (m : string) :
  mac_reason (normalize_mac m) = "missing" <-> PyStr.strip m = "".
Proof.
  unfold normalize_mac.
  destruct (String.eqb_spec m "") as [->|Hm]; cbn [orb]; [split; reflexivity|].
  destruct (String.eqb_spec (PyStr.strip m) "") as [E|E]; cbn [mac_reason]; [tauto|].
  split_ifs; cbn [mac_reason]; split; intros H; try discriminate H; contradiction.
Qed.

(** The issues of a record, one by one. *)
Lemma record_issues_In (row : gmap string string) (i : issue) :
  In i (record_issues row)
  <-> (i = {| field := "ip";
              type := ip_reason (ipv4_validate_and_normalize (get row "ip"));
              value := get row "ip" |}
       /\ ip_valid (ipv4_validate_and_normalize (get row "ip")) = false)
      \/ (i = {| field := "hostname"; type := snd (validate_hostname (get row "hostname"));
                 value := get row "hostname" |}
          /\ fst (validate_hostname (get row "hostname")) = false
          /\ PyStr.strip (get row "hostname") <> "")
      \/ (i = {| field := "fqdn"; type := snd (validate_fqdn (get row "fqdn"));
                 value := get row "fqdn" |}
          /\ fst (validate_fqdn (get row "fqdn")) = false
          /\ PyStr.strip (get row "fqdn") <> "")
      \/ (i = {| field := "mac"; type := mac_reason (normalize_mac (get row "mac"));
                 value := get row "mac" |}
          /\ mac_valid (normalize_mac (get row "mac")) = false
          /\ PyStr.strip (get row "mac") <> "").
Proof.
  unfold record_issues, ip_issues, field_issues. rewrite !in_app_iff.
  assert (Hone : forall (b : bool) (x : issue),
            In i (if b then [] else [x]) <-> i = x /\ b = false).
  { intros [] x; cbn [In];
      [split; [tauto | intros [_ [=]]]
      | split; [intros [<-|[]]; now split | intros [-> _]; now left]]. }
  assert (Hor : forall (b : bool) (s : string),
            b || (s =? "") = false <-> b = false /\ s <> "").
  { intros b s. rewrite orb_false_iff. destruct (String.eqb_spec s ""); split;
      intros [H1 H2]; split; congruence. }
  rewrite !Hone, !Hor. tauto.
Qed.

(** X4: the issues of a record come in the order ip, hostname, fqdn, mac,
    at most one per field.  An ip issue is recorded exactly when the IP is
    rejected; a hostname, fqdn or mac issue exactly when the field is
    rejected and not empty after trimming.  Each issue carries the raw
    value of its field and the reason returned by that field's validator,
    which is never "ok"; only the ip issue can have the reason "missing". *)
Theorem issues_by_field (env : llm_env) (row : gmap string string) :
  exists r,
    process_row env row = Some r
    /\ sublist (map field (row_anomalies r)) ["ip"; "hostname"; "fqdn"; "mac"]
    /\ (forall i,
          In i (row_anomalies r)
          <-> (i = {| field := "ip";
                      type := ip_reason (ipv4_validate_and_normalize (get row "ip"));
                      value := get row "ip" |}
               /\ ip_valid (ipv4_validate_and_normalize (get row "ip")) = false)
              \/ (i = {| field := "hostname";
                         type := snd (validate_hostname (get row "hostname"));
                         value := get row "hostname" |}
                  /\ fst (validate_hostname (get row "hostname")) = false
                  /\ PyStr.strip (get row "hostname") <> "")
              \/ (i = {| field := "fqdn"; type := snd (validate_fqdn (get row "fqdn"));
                         value := get row "fqdn" |}
                  /\ fst (validate_fqdn (get row "fqdn")) = false
                  /\ PyStr.strip (get row "fqdn") <> "")
              \/ (i = {| field := "mac";
                         type := mac_reason (normalize_mac (get row "mac"));
                         value := get row "mac" |}
                  /\ mac_valid (normalize_mac (get row "mac")) = false
                  /\ PyStr.strip (get row "mac") <> ""))
    /\ Forall (fun i => value i = get row (field i) /\ type i <> "ok"
                        /\ (type i = "missing" -> field i = "ip"))
         (row_anomalies r).
Proof.
  destruct (process_row_stages env row) as (r & Hr & _ & _ & _ & Hiss & _).
  exists r. split; [exact Hr|]. rewrite Hiss.
  assert (Hshape :
    sublist (map field (record_issues row)) ["ip"; "hostname"; "fqdn"; "mac"]
    /\ Forall (fun i => value i = get row (field i) /\ type i <> "ok"
                        /\ (type i = "missing" -> field i = "ip"))
         (record_issues row)).
  { unfold record_issues, ip_issues, field_issues.
    pose proof (valid_iff_ok_ip (get row "ip")) as Hip.
    pose proof (hostname_missing_iff (get row "hostname")) as Hh.
    pose proof (fqdn_missing_iff (get row "fqdn")) as Hf.
    pose proof (mac_missing_iff (get row "mac")) as Hm.
    pose proof (valid_iff_ok_rest (get row "hostname")) as (Hh' & _ & _).
    pose proof (valid_iff_ok_rest (get row "fqdn")) as (_ & Hf' & _).
    pose proof (valid_iff_ok_rest (get row "mac")) as (_ & _ & Hm').
    destruct (ip_valid _) eqn:V1, (fst (validate_hostname _)) eqn:V2,
      (fst (validate_fqdn _)) eqn:V3, (mac_valid _) eqn:V4,
      (String.eqb_spec (PyStr.strip (get row "hostname")) ""),
      (String.eqb_spec (PyStr.strip (get row "fqdn")) ""),
      (String.eqb_spec (PyStr.strip (get row "mac")) "");
      cbn [orb app map field];
      (split;
       [repeat first [apply sublist_nil | apply sublist_skip; [] | apply sublist_cons
                      | apply sublist_skip]
       | repeat (apply Forall_cons; split;
                 [cbn [field type value]; repeat split; try reflexivity;
                  first [ intros E; apply Hip in E; discriminate E
                        | intros E; apply Hh' in E; discriminate E
                        | intros E; apply Hf' in E; discriminate E
                        | intros E; apply Hm' in E; discriminate E
                        | intros E; apply Hh in E; contradiction
                        | intros E; apply Hf in E; contradiction
                        | intros E; apply Hm in E; contradiction ]|]);
         apply Forall_nil_2]). }
  destruct Hshape as [Hsub Hall].
  split; [exact Hsub|]. split; [intros i; apply record_issues_In | exact Hall].
Qed.

(** ** Scope, subnet and reverse pointer outside the pipeline *)

(** X5: on the canonical text of an address with octets in [0,255] the
    scope is never "unknown": it is link_local_apipa exactly for 169.254.x.x,
    loopback exactly for 127.x.x.x, private_rfc1918 exactly for the three
    private ranges and public_or_other for everything else. *)
Theorem scope_of_valid_address (a b c d : Z) :
  is_octet a -> is_octet b -> is_octet c -> is_octet d ->
  let scope := classify_ipv4_type (canonical_ip a b c d) in
  (scope = "private_rfc1918" <-> rfc1918 a b)
  /\ (scope = "link_local_apipa" <-> (a = 169 /\ b = 254)%Z)
  /\ (scope = "loopback" <-> a = 127%Z)
  /\ (scope = "public_or_other"
      <-> ~ rfc1918 a b /\ ~ (a = 169 /\ b = 254)%Z /\ a <> 127%Z)
  /\ scope <> "unknown".
Proof.
  intros Ha Hb Hc Hd scope. subst scope.
  rewrite classify_canonical by assumption. unfold rfc1918.
  destruct Ha as [Ha _], Hb as [Hb _], Hc as [Hc _], Hd as [Hd _].
  destruct (Z.eqb_spec a 10) as [->|];
    [repeat split; try discriminate; try lia; intros; lia|].
  destruct (Z.eqb_spec a 172) as [->|]; cbn [andb Z.eqb Pos.eqb].
  - destruct (Z.leb_spec 16 b), (Z.leb_spec b 31); cbn [andb];
      repeat split; try discriminate; try lia; try tauto; intros; lia.
  - destruct (Z.eqb_spec a 192) as [->|]; cbn [andb Z.eqb Pos.eqb].
    + destruct (Z.eqb_spec b 168);
        repeat split; try discriminate; try lia; try tauto; intros; lia.
    + destruct (Z.eqb_spec a 169) as [->|]; cbn [andb Z.eqb Pos.eqb].
      * destruct (Z.eqb_spec b 254);
          repeat split; try discriminate; try lia; try tauto; intros; lia.
      * destruct (Z.eqb_spec a 127);
          repeat split; try discriminate; try lia; try tauto; intros; lia.
Qed.

Lemma scope_of_valid_address_witness :
  classify_ipv4_type "169.254.10.20" = "link_local_apipa"
  /\ classify_ipv4_type "127.0.0.1" = "loopback".
Proof.
  split.
  - apply (proj1 (proj2 (scope_of_valid_address 169 254 10 20
             ltac:(unfold is_octet; lia) ltac:(unfold is_octet; lia)
             ltac:(unfold is_octet; lia) ltac:(unfold is_octet; lia)))).
    split; reflexivity.
  - apply (proj1 (proj2 (proj2 (scope_of_valid_address 127 0 0 1
             ltac:(unfold is_octet; lia) ltac:(unfold is_octet; lia)
             ltac:(unfold is_octet; lia) ltac:(unfold is_octet; lia))))).
    reflexivity.
Defined.

Lemma int_octets_length (ip : string) (l : list Z) :
  int_octets ip = Some l -> length l = length (PyStr.split "." ip).
Proof. unfold int_octets. intros H. symmetry. now apply length_mapM in H. Qed.

Lemma classify_private_octets (ip : string) :
  classify_ipv4_type ip = "private_rfc1918" -> exists l, int_octets ip = Some l.
Proof.
  unfold classify_ipv4_type, classify_ipv4_try.
  destruct (int_octets ip) as [l|]; [eauto | discriminate].
Qed.

(** X6: [default_subnet] lets an [IndexError] escape exactly on the texts
    that [classify_ipv4_type] calls private and that have fewer than three
    dot-separated parts (such as "10" or "192.168"); on every other text it
    returns, and the result is empty unless the scope is private. *)
Theorem default_subnet_raises (ip : string) :
  (default_subnet ip = None
   <-> classify_ipv4_type ip = "private_rfc1918"
       /\ (length (PyStr.split "." ip) < 3)%nat)
  /\ (classify_ipv4_type ip <> "private_rfc1918" -> default_subnet ip = Some "").
Proof.
  unfold default_subnet.
  destruct (String.eqb_spec (classify_ipv4_type ip) "private_rfc1918") as [E|E].
  - split; [|contradiction].
    destruct (classify_private_octets ip E) as [l Hl]. rewrite Hl.
    apply int_octets_length in Hl. rewrite <- Hl. cbn [mbind option_bind].
    destruct l as [|p0 [|p1 [|p2 l]]]; cbn;
      first [ solve [split; [intros _; split; [exact E | lia] | reflexivity]]
            | solve [split; [discriminate | intros [_ H]; lia]] ].
  - split; [|reflexivity]. split; [discriminate | tauto].
Qed.

(** X7: with [ip_valid] set, [generate_reverse_ptr] is empty exactly when
    the text has fewer than four dot-separated parts (the [IndexError] is
    caught); otherwise it is made of the first four parts in reverse order,
    whatever they are, and further parts are ignored. *)
Theorem reverse_ptr_parts (ip : string) :
  (generate_reverse_ptr ip true = "" <-> (length (PyStr.split "." ip) < 4)%nat)
  /\ (forall o0 o1 o2 o3 more,
        PyStr.split "." ip = o0 :: o1 :: o2 :: o3 :: more ->
        generate_reverse_ptr ip true
        = o3 +:+ "." +:+ o2 +:+ "." +:+ o1 +:+ "." +:+ o0 +:+ ".in-addr.arpa").
Proof.
  unfold generate_reverse_ptr. cbn [negb].
  destruct (PyStr.split "." ip) as [|o0 [|o1 [|o2 [|o3 more]]]]; cbn;
    (split; [split; try reflexivity; try (intros; lia)|]);
    try (intros ? ? ? ? ? [=]; subst; reflexivity).
  intros H. exfalso. destruct o3; discriminate H.
Qed.

(** ** The device classifier *)

Lemma first_keyword_match_confidence (clues : string) :
  snd (first_keyword_match clues) = "medium" \/ snd (first_keyword_match clues) = "low".
Proof. unfold first_keyword_match. destruct (find _ _); [left | right]; reflexivity. Qed.

Lemma not_in_known (x : string) : ~ In x known_types <-> in_list x known_types = false.
Proof.
  rewrite <- in_list_In. destruct (in_list x known_types); split; congruence.
Qed.

(** X8: the confidence is "high" exactly when the explicit device type,
    trimmed and in lower case, is a known type, and is "medium" or "low"
    otherwise; at most one request is sent to the model, and one is sent
    exactly when the type is not known and the client is set up; when that
    request succeeds the result is the reply's type in lower case, with
    "medium" when the reply's confidence is at least the float 0.8 (for a
    finite number, when 3602879701896397/2^52 <= confidence; also for
    Infinity) and "low" when it is below, or NaN. *)
Theorem device_confidence_levels (env : llm_env) (row : gmap string string) :
  let device_type := PyStr.lower (PyStr.strip (get row "device_type")) in
  let prompt := {| prompt_hostname := or_na (PyStr.strip (get row "hostname"));
                   prompt_notes := or_na (PyStr.strip (get row "notes"));
                   prompt_ip := or_na (PyStr.strip (get row "ip")) |} in
  let result := fst (classify_device_type_llm env row) in
  let requests := snd (classify_device_type_llm env row) in
  (snd result = "high" <-> In device_type known_types)
  /\ (snd result = "high" \/ snd result = "medium" \/ snd result = "low")
  /\ (requests = [prompt] <-> ~ In device_type known_types /\ HAS_GEMINI env = true)
  /\ (requests = [] \/ requests = [prompt])
  /\ (forall reply,
        ~ In device_type known_types -> HAS_GEMINI env = true ->
        generate_device env prompt = Some reply ->
        fst result = PyStr.lower (reply_device_type reply)
        /\ (snd result = "medium" \/ snd result = "low")
        /\ (snd result = "medium" <-> ge_float (reply_confidence reply) float_08 = true)
        /\ (forall q, reply_confidence reply = Finite q ->
            (snd result = "medium"
             <-> QArith_base.Qle
                   (QArith_base.Qmake 3602879701896397 (2 ^ 52)) q))
        /\ (reply_confidence reply = Infinity -> snd result = "medium")
        /\ (reply_confidence reply = MinusInfinity \/ reply_confidence reply = NaN ->
            snd result = "low")).
Proof.
  intros device_type prompt result requests. subst result requests.
  unfold classify_device_type_llm. fold device_type. fold prompt.
  destruct (in_list device_type known_types) eqn:K.
  - apply in_list_In in K. cbn [fst snd].
    repeat split; auto; try tauto; try discriminate; try (now intros [? _]).
  - apply not_in_known in K.
    pose proof (first_keyword_match_confidence
                  (PyStr.lower (PyStr.strip (get row "hostname") +:+ " "
                                +:+ PyStr.strip (get row "notes")))) as Hk.
    rewrite <- classify_by_keywords_table in Hk.
    assert (Hnothigh : snd (classify_by_keywords (PyStr.strip (get row "hostname"))
                              (PyStr.strip (get row "notes"))) = "high"
                       <-> In device_type known_types).
    { split; [|contradiction]. intros E. destruct Hk as [Hk|Hk]; rewrite Hk in E; discriminate E. }
    destruct (HAS_GEMINI env).
    + destruct (generate_device env prompt) as [reply|]; cbn [fst snd].
      * split; [|split; [|split; [|split]]].
        -- split; [|contradiction].
           destruct (ge_float (reply_confidence reply) float_08); discriminate.
        -- destruct (ge_float (reply_confidence reply) float_08); auto.
        -- split; [intros _; split; [exact K | reflexivity] | reflexivity].
        -- right. reflexivity.
        -- intros reply' _ _ [= <-]. split; [reflexivity|].
           assert (Hm : (if ge_float (reply_confidence reply) float_08
                         then "medium" else "low") = "medium"
                        <-> ge_float (reply_confidence reply) float_08 = true)
             by (destruct (ge_float (reply_confidence reply) float_08);
                 split; congruence).
           split; [destruct (ge_float (reply_confidence reply) float_08); auto|].
           split; [exact Hm|]. split; [|split].
           ++ intros q E. rewrite Hm, E. cbn [ge_float].
              apply QArith_base.Qle_bool_iff.
           ++ intros E. apply Hm. now rewrite E.
           ++ intros [E|E]; rewrite E; reflexivity.
      * split; [|split; [|split; [|split]]].
        -- exact Hnothigh.
        -- destruct Hk as [Hk|Hk]; auto.
        -- split; [intros _; split; [exact K | reflexivity] | reflexivity].
        -- right. reflexivity.
        -- intros reply _ _ E. discriminate E.
    + cbn [fst snd]. split; [|split; [|split; [|split]]].
      * exact Hnothigh.
      * destruct Hk as [Hk|Hk]; auto.
      * split; [discriminate | intros [_ E]; discriminate E].
      * left. reflexivity.
      * intros reply _ E. discriminate E.
Qed.

Lemma device_confidence_levels_witness :
  fst (classify_device_type_llm
         {| HAS_GEMINI := true;
            generate_device := fun _ =>
              Some {| reply_device_type := "Router";
                      reply_confidence := Finite (QArith_base.Qmake 9 10) |};
            parse_owner_llm := fun _ _ => ("", "", "") |}
         bad_ip_record)
  = ("router", "medium").
Proof.
  destruct (proj2 (proj2 (proj2 (proj2 (device_confidence_levels
              {| HAS_GEMINI := true;
                 generate_device := fun _ =>
                   Some {| reply_device_type := "Router";
                           reply_confidence := Finite (QArith_base.Qmake 9 10) |};
                 parse_owner_llm := fun _ _ => ("", "", "") |} bad_ip_record))))
           {| reply_device_type := "Router";
              reply_confidence := Finite (QArith_base.Qmake 9 10) |})
    as (Htype & _ & Hconf & _).
  - vm_compute. intuition discriminate.
  - reflexivity.
  - reflexivity.
  - apply injective_projections; [exact Htype | apply Hconf; reflexivity].
Defined.

(** *** Keywords that hide other keywords *)

Lemma startswith_contains (p s : string) :
  PyStr.startswith p s = true -> PyStr.contains p s = true.
Proof. intros H. destruct s; cbn [PyStr.contains]; now rewrite H. Qed.

Lemma contains_tail (p : string) c (s : string) :
  PyStr.contains p s = true -> PyStr.contains p (String c s) = true.
Proof. intros H. cbn [PyStr.contains]. rewrite H. apply orb_true_r. Qed.

Lemma contains_laptop_ap (s : string) :
  PyStr.contains "laptop" s = true -> PyStr.contains "ap" s = true.
Proof.
  induction s as [|c s IH]; [discriminate|].
  cbn [PyStr.contains]. intros [H|H]%orb_true_iff.
  - apply orb_true_iff. right.
    cbn [PyStr.startswith] in H. apply andb_true_iff in H as [_ H].
    apply startswith_contains.
    destruct s as [|a [|b s]]; try discriminate H; cbn [PyStr.startswith] in H |- *.
    + now apply andb_true_iff in H as [_ H].
    + apply andb_true_iff in H as [Ha H]. apply andb_true_iff in H as [Hb _].
      now rewrite Ha, Hb.
  - apply orb_true_iff. right. now apply IH.
Qed.

(** X9: the keyword rules never reach "workstation" through the keyword
    "laptop": a text that contains "laptop" contains "ap", a keyword of the
    access points, which are tried first; such a text gets one of the six
    categories before firewall. *)
Theorem laptop_is_not_a_workstation (hostname notes : string) :
  PyStr.contains "laptop" (PyStr.lower (hostname +:+ " " +:+ notes)) = true ->
  In (classify_by_keywords hostname notes)
    [("server", "medium"); ("router", "medium"); ("switch", "medium");
     ("printer", "medium"); ("iot", "medium"); ("access point", "medium")].
Proof.
  intros H. apply contains_laptop_ap in H. unfold classify_by_keywords.
  set (clues := PyStr.lower _) in *.
  assert (Hap : any_in ["ap"; "access"; "wireless"; "wifi"] clues = true).
  { unfold any_in. cbn [existsb]. now rewrite H. }
  rewrite Hap. split_ifs; cbn [In]; tauto.
Qed.

Lemma laptop_is_not_a_workstation_witness :
  In (classify_by_keywords "LAPTOP-17" "spare")
    [("server", "medium"); ("router", "medium"); ("switch", "medium");
     ("printer", "medium"); ("iot", "medium"); ("access point", "medium")].
Proof. exact (laptop_is_not_a_workstation "LAPTOP-17" "spare" eq_refl). Defined.

(** ** Recommendations for any list of issues *)

Lemma flat_map_recommend (l : list issue) :
  flat_map recommend l = omap recommendation l.
Proof.
  induction l as [|i l IH]; [reflexivity|].
  cbn [flat_map omap list_omap]. rewrite IH, recommend_table.
  destruct (recommendation i); reflexivity.
Qed.

(** X10: for any list of issues, [generate_recommendations] returns the
    recommendations the table gives, in order, for the issues that match a
    rule; the issues of other fields are passed over; when none matches (in
    particular for no issue at all) it returns the single default text, so
    the result is never empty. *)
Theorem recommendations_of_any_issues (l : list issue) :
  generate_recommendations l
  = match omap recommendation l with
    | [] => ["Review and correct field data"]
    | matched => matched
    end
  /\ generate_recommendations l <> []
  /\ (length (generate_recommendations l) <= Nat.max 1 (length l))%nat.
Proof.
  assert (E : generate_recommendations l
              = match omap recommendation l with
                | [] => ["Review and correct field data"]
                | matched => matched
                end).
  { unfold generate_recommendations. rewrite recommend_fold. cbn [app].
    rewrite flat_map_recommend. destruct (omap recommendation l); reflexivity. }
  split; [exact E|]. rewrite E.
  assert (Hlen : (length (omap recommendation l) <= length l)%nat).
  { clear E. induction l as [|i l IH]; [reflexivity|]. cbn [omap list_omap length].
    destruct (recommendation i); cbn [length]; lia. }
  destruct (omap recommendation l); cbn [length] in *; split; try discriminate; lia.
Qed.

(** ** Outcomes of the IPv4 validator *)

Lemma ipv4_octets_reasons (parts acc : list string) (r : string) :
  ipv4_octets parts acc = inl r ->
  In r ["empty_octet"; "negative_octet"; "non_numeric_octet"; "parse_error";
        "octet_out_of_range"].
Proof.
  revert acc. induction parts as [|p rest IH]; intros acc; cbn [ipv4_octets]; [discriminate|].
  destruct (p =? ""); [intros [= <-]; cbn; tauto|].
  destruct (PyStr.startswith "-" p); [intros [= <-]; cbn; tauto|].
  destruct (negb (PyStr.isdigit p)); [intros [= <-]; cbn; tauto|].
  destruct (PyStr.int p) as [v|]; [|intros [= <-]; cbn; tauto].
  destruct ((v <? 0)%Z || (v >? 255)%Z); [intros [= <-]; cbn; tauto|].
  apply IH.
Qed.

(** X11: the reason returned by [ipv4_validate_and_normalize] is one of
    nine fixed codes; the version is "4" exactly for a valid outcome, "6"
    exactly for the reason "ipv6_detected", and empty otherwise; a rejected
    input is returned as given when missing, and trimmed otherwise. *)
Theorem ipv4_outcomes (ip_str : string) :
  let r := ipv4_validate_and_normalize ip_str in
  In (ip_reason r)
    ["ok"; "missing"; "ipv6_detected"; "wrong_part_count"; "empty_octet";
     "negative_octet"; "non_numeric_octet"; "parse_error"; "octet_out_of_range"]
  /\ (ip_version r = "4" <-> ip_valid r = true)
  /\ (ip_version r = "6" <-> ip_reason r = "ipv6_detected")
  /\ (ip_version r <> "4" -> ip_version r <> "6" -> ip_version r = "")
  /\ (ip_reason r = "missing" -> ip_value r = ip_str)
  /\ (ip_valid r = false -> ip_reason r <> "missing" -> ip_value r = PyStr.strip ip_str).
Proof.
  intros r. subst r. unfold ipv4_validate_and_normalize.
  destruct ((ip_str =? "") || is_na_or_empty ip_str);
    [cbn; repeat split; try discriminate; try tauto; intros; congruence|].
  destruct (PyStr.has_char ":" _ || PyStr.has_char "%" _);
    [cbn; repeat split; try discriminate; try tauto; intros; congruence|].
  destruct (negb _);
    [cbn; repeat split; try discriminate; try tauto; intros; congruence|].
  destruct (ipv4_octets _ _) as [reason|cps] eqn:E.
  - pose proof (ipv4_octets_reasons _ _ _ E) as Hin.
    cbn [ip_reason ip_version ip_valid ip_value].
    split; [cbn [In] in Hin |- *; tauto|].
    split; [split; discriminate|].
    split; [split; [discriminate|]|].
    + intros ->. cbn [In] in Hin. repeat (destruct Hin as [Hin|Hin]; [discriminate Hin|]).
      destruct Hin.
    + repeat split; try reflexivity. intros ->. cbn [In] in Hin.
      repeat (destruct Hin as [Hin|Hin]; [discriminate Hin|]). destruct Hin.
  - cbn. repeat split; try discriminate; try tauto; intros; congruence.
Qed.

(** ** Consistency of hostname and FQDN *)

Lemma lower_empty (s : string) : PyStr.lower s = "" <-> s = "".
Proof. destruct s; cbn; split; congruence. Qed.

(** X12: [check_fqdn_consistency] only looks at the lower-case forms of
    its arguments: two hostnames, and two FQDNs, that differ in case only
    give the same answer; a name is never consistent with itself, and the
    lower-case form of a consistent FQDN is strictly longer than the
    lower-case form of the hostname. *)
Theorem consistency_ignores_case (h h' f f' : string) :
  PyStr.lower h = PyStr.lower h' -> PyStr.lower f = PyStr.lower f' ->
  check_fqdn_consistency h f = check_fqdn_consistency h' f'
  /\ check_fqdn_consistency h h = false
  /\ (check_fqdn_consistency h f = true ->
      (String.length (PyStr.lower h) < String.length (PyStr.lower f))%nat).
Proof.
  intros Hh Hf.
  assert (Hsw : forall p s, PyStr.startswith (p +:+ ".") s = true ->
                            (String.length p < String.length s)%nat).
  { induction p as [|a p IH]; intros [|b s]; cbn [append PyStr.startswith String.length];
      try discriminate; [lia|].
    intros [_ H]%andb_true_iff. apply IH in H. lia. }
  split; [|split].
  - unfold check_fqdn_consistency. rewrite Hh, Hf.
    destruct (String.eqb_spec h ""), (String.eqb_spec h' ""), (String.eqb_spec f ""),
      (String.eqb_spec f' ""); cbn [orb]; try reflexivity; exfalso;
      repeat match goal with
             | H : ?s = "" |- _ => subst s
             end;
      change (PyStr.lower "") with "" in *;
      match goal with
      | n : ?x <> "" |- _ => solve [apply n; apply lower_empty; congruence]
      end.
  - unfold check_fqdn_consistency. destruct (h =? ""); cbn [orb]; [reflexivity|].
    destruct (PyStr.startswith _ _) eqn:E; [|reflexivity].
    apply Hsw in E. lia.
  - unfold check_fqdn_consistency. destruct ((h =? "") || (f =? "")); [discriminate|].
    intros E. now apply Hsw in E.
Qed.

Lemma consistency_ignores_case_witness :
  check_fqdn_consistency "Web-01" "WEB-01.Corp.Example.com"
  = check_fqdn_consistency "web-01" "web-01.corp.example.com".
Proof.
  exact (proj1 (consistency_ignores_case "Web-01" "web-01" "WEB-01.Corp.Example.com"
                  "web-01.corp.example.com" eq_refl eq_refl)).
Defined.

(** ** The inputs the IPv4 validator accepts *)

Lemma join_split (sep : ascii) (s : string) :
  PyStr.join (String sep "") (PyStr.split sep s) = s.
Proof.
  induction s as [|c s IH]; [reflexivity|]. cbn [PyStr.split].
  pose proof (split_nonempty sep s) as Hne.
  destruct (Ascii.eqb_spec c sep) as [->|Hc].
  - destruct (PyStr.split sep s) as [|h t]; [contradiction|].
    cbn [PyStr.join append] in *. now rewrite IH.
  - destruct (PyStr.split sep s) as [|h [|h' t]]; [contradiction| |];
      cbn [PyStr.join append] in *; now rewrite <- IH.
Qed.

Lemma int_digits_value (p : string) (acc n : N) (b : bool) :
  PyStr.forallb PyChar.isdigit p = true ->
  PyStr.int_digits p acc b = Some n ->
  PyStr.forallb PyChar.isdecimal p = true /\ n = dec_val p acc.
Proof.
  revert acc b. induction p as [|c p IH]; intros acc b; cbn [PyStr.forallb PyStr.int_digits dec_val].
  - intros _. destruct b; [intros [= <-]; auto | discriminate].
  - intros [Hc Hp]%andb_true_iff.
    destruct (Ascii.eqb_spec c "_") as [->|_]; [discriminate Hc|].
    destruct (PyChar.isdecimal c); [|discriminate].
    intros H. now apply IH in H.
Qed.

(** A part that [str.isdigit] accepts and [int] reads is made of decimal
    digits, no more than the limit, and is read as its value. *)
Lemma int_of_digits (p : string) (v : Z) :
  PyStr.isdigit p = true -> PyStr.int p = Some v ->
  PyStr.forallb PyChar.isdecimal p = true
  /\ (String.length p <= PyStr.int_max_str_digits)%nat
  /\ v = Z.of_N (dec_val p 0).
Proof.
  unfold PyStr.isdigit. intros [Hne Hd]%andb_true_iff.
  assert (Hstrip : PyStr.strip_by PyStr.int_space p = p).
  { apply strip_by_clean. eapply forallb_impl; [|exact Hd]. intros c. unfold clean.
    each_char c. }
  unfold PyStr.int. rewrite Hstrip.
  destruct p as [|c r]; [discriminate Hne|].
  assert (Hc : PyChar.isdigit c = true) by (cbn in Hd; now apply andb_true_iff in Hd as [Hc _]).
  assert (E : match String c r with
              | String "-" r0 => option_map (fun n => (- Z.of_N n)%Z) (PyStr.int_literal r0)
              | String "+" r0 => option_map Z.of_N (PyStr.int_literal r0)
              | t => option_map Z.of_N (PyStr.int_literal t)
              end = option_map Z.of_N (PyStr.int_literal (String c r))).
  { clear -Hc. destruct c as [[] [] [] [] [] [] [] []];
      try (vm_compute in Hc; discriminate Hc); reflexivity. }
  rewrite E. unfold PyStr.int_literal.
  destruct (Nat.ltb_spec PyStr.int_max_str_digits (PyStr.digit_count (String c r)))
    as [|Hcount]; [discriminate|].
  destruct (PyStr.int_digits (String c r) 0 false) as [n|] eqn:D; [|discriminate].
  intros [= <-]. apply int_digits_value in D as [D ->]; [|exact Hd].
  rewrite digit_count_decimal in Hcount by exact D. auto.
Qed.

Lemma ipv4_octets_digits (p : string) (rest acc : list string) :
  is_octet_text p ->
  ipv4_octets (p :: rest) acc
  = ipv4_octets rest (acc ++ [PyStr.str (Z.of_N (dec_val p 0))]).
Proof.
  intros (Hne & Hdec & Hlen & Hle).
  assert (Hemp : (p =? "") = false) by now apply String.eqb_neq.
  assert (Hdig : PyStr.isdigit p = true).
  { unfold PyStr.isdigit. rewrite Hemp. cbn [negb andb].
    eapply forallb_impl; [apply isdecimal_isdigit | exact Hdec]. }
  assert (Hminus : PyStr.startswith "-" p = false).
  { destruct p as [|c r]; [reflexivity|].
    cbn [PyStr.forallb] in Hdec. cbn [PyStr.startswith].
    apply andb_true_iff in Hdec as [Hc _]. rewrite andb_true_r.
    destruct (Ascii.eqb_spec "-" c) as [<-|]; [discriminate Hc | reflexivity]. }
  cbn [ipv4_octets]. rewrite Hemp, Hminus, Hdig, (int_decimal p Hdec Hne Hlen). cbn [negb].
  replace ((Z.of_N (dec_val p 0) <? 0)%Z || (Z.of_N (dec_val p 0) >? 255)%Z) with false;
    [reflexivity|].
  symmetry. apply orb_false_iff. split; [apply Z.ltb_ge | rewrite Z.gtb_ltb; apply Z.ltb_ge]; lia.
Qed.

Lemma ipv4_octets_parts (parts acc cps : list string) :
  ipv4_octets parts acc = inr cps ->
  Forall is_octet_text parts
  /\ cps = acc ++ map (fun p => PyStr.str (Z.of_N (dec_val p 0))) parts.
Proof.
  revert acc. induction parts as [|p rest IH]; intros acc; cbn [ipv4_octets].
  - intros [= <-]. split; [constructor | now rewrite List.app_nil_r].
  - destruct (String.eqb_spec p "") as [|Hne]; [discriminate|].
    destruct (PyStr.startswith "-" p); [discriminate|].
    destruct (PyStr.isdigit p) eqn:Hd; [|discriminate]. cbn [negb].
    destruct (PyStr.int p) as [v|] eqn:Hi; [|discriminate].
    destruct ((v <? 0)%Z || (v >? 255)%Z) eqn:Hr; [discriminate|].
    pose proof (int_of_digits p v Hd Hi) as (Hdec & Hlen & ->).
    intros H. apply IH in H as [Hrest ->]. split.
    + constructor; [|exact Hrest]. repeat split; [exact Hne | exact Hdec | exact Hlen|].
      apply orb_false_iff in Hr as [_ H2]. rewrite Z.gtb_ltb in H2. apply Z.ltb_ge in H2. lia.
    + cbn [map]. now rewrite <- List.app_assoc.
Qed.

(** Four such parts are accepted, and read as their values. *)
Lemma ipv4_accepts_digits (ip_str p1 p2 p3 p4 : string) :
  PyStr.strip ip_str = dotted p1 p2 p3 p4 ->
  is_octet_text p1 -> is_octet_text p2 -> is_octet_text p3 -> is_octet_text p4 ->
  ipv4_validate_and_normalize ip_str
  = (true,
     canonical_ip (Z.of_N (dec_val p1 0)) (Z.of_N (dec_val p2 0))
       (Z.of_N (dec_val p3 0)) (Z.of_N (dec_val p4 0)),
     "4", "ok").
Proof.
  intros Hs H1 H2 H3 H4.
  assert (Hdd : PyStr.forallb digit_or_dot (dotted p1 p2 p3 p4) = true).
  { apply dotted_digit_or_dot; [apply H1 | apply H2 | apply H3 | apply H4]. }
  rewrite ipv4_unfold, digit_first_not_missing.
  2:{ rewrite Hs. unfold dotted. destruct H1 as (Hne & Hdec & _).
      destruct p1 as [|c r]; [contradiction|]. cbn [append].
      cbn [PyStr.forallb] in Hdec. now apply andb_true_iff in Hdec as [Hc _]. }
  rewrite Hs. unfold ipv4_checks.
  replace (PyStr.has_char ":" (dotted p1 p2 p3 p4)) with false
    by (symmetry; eapply existsb_none; [|exact Hdd]; intros x; each_char x).
  replace (PyStr.has_char "%" (dotted p1 p2 p3 p4)) with false
    by (symmetry; eapply existsb_none; [|exact Hdd]; intros x; each_char x).
  cbn [orb]. rewrite dotted_split by (first [apply H1 | apply H2 | apply H3 | apply H4]).
  cbn [length Nat.eqb negb].
  rewrite !ipv4_octets_digits by assumption. reflexivity.
Qed.

(** X13: the inputs accepted by [ipv4_validate_and_normalize] are exactly
    those whose trimmed text is four dot-separated parts, each a non-empty
    text of decimal digits in the sense of [str.isdecimal] (on the texts of
    this development, code points below 256, the digits 0 to 9), of at most
    4300 digits, the limit of [int], and of value at most 255 (leading zeros
    allowed within the limit); the value returned is then the dotted text
    of the four values, written without leading zeros. *)
Theorem ipv4_accepted_iff (ip_str : string) :
  (ip_valid (ipv4_validate_and_normalize ip_str) = true
   <-> exists p1 p2 p3 p4,
         PyStr.strip ip_str = dotted p1 p2 p3 p4
         /\ is_octet_text p1 /\ is_octet_text p2 /\ is_octet_text p3 /\ is_octet_text p4)
  /\ (forall p1 p2 p3 p4,
        PyStr.strip ip_str = dotted p1 p2 p3 p4 ->
        is_octet_text p1 -> is_octet_text p2 -> is_octet_text p3 -> is_octet_text p4 ->
        ipv4_validate_and_normalize ip_str
        = (true,
           canonical_ip (Z.of_N (dec_val p1 0)) (Z.of_N (dec_val p2 0))
             (Z.of_N (dec_val p3 0)) (Z.of_N (dec_val p4 0)),
           "4", "ok")).
Proof.
  split; [split|].
  - rewrite ipv4_unfold.
    destruct ((ip_str =? "") || is_na_or_empty ip_str); [discriminate|].
    unfold ipv4_checks.
    destruct (PyStr.has_char ":" _ || PyStr.has_char "%" _); [discriminate|].
    destruct (Nat.eqb_spec (length (PyStr.split "." (PyStr.strip ip_str))) 4) as [Hlen|];
      [|discriminate].
    cbn [negb]. destruct (ipv4_octets _ _) as [r|cps] eqn:E; [discriminate|]. intros _.
    apply ipv4_octets_parts in E as [Hparts _].
    pose proof (join_split "." (PyStr.strip ip_str)) as Hjoin.
    destruct (PyStr.split "." (PyStr.strip ip_str)) as [|p1 [|p2 [|p3 [|p4 [|? ?]]]]];
      try discriminate Hlen.
    exists p1, p2, p3, p4.
    apply Forall_cons in Hparts as [H1 Hparts]. apply Forall_cons in Hparts as [H2 Hparts].
    apply Forall_cons in Hparts as [H3 Hparts]. apply Forall_cons in Hparts as [H4 _].
    split; [symmetry; exact Hjoin|]. repeat (split; [assumption|]). assumption.
  - intros (p1 & p2 & p3 & p4 & Hs & H1 & H2 & H3 & H4).
    now rewrite (ipv4_accepts_digits ip_str p1 p2 p3 p4).
  - apply ipv4_accepts_digits.
Qed.

(** ** The label rule behind the hostname and FQDN validators *)

Lemma chomp_empty (t : string) :
  chomp t = "" <-> t = "" \/ t = String "010" "".
Proof.
  destruct t as [|c [|d t]]; cbn [chomp String.eqb andb].
  - tauto.
  - destruct (Ascii.eqb_spec c "010") as [->|Hc]; [tauto|].
    split; [discriminate | intros [|[=]]; [discriminate | contradiction]].
  - split; [discriminate | intros [|]; discriminate].
Qed.

Lemma chomp_cons (c d : ascii) (t : string) :
  chomp (String c (String d t)) = String c (chomp (String d t)).
Proof. reflexivity. Qed.

Lemma eol_chomp (t : string) :
  (t =? "") || (t =? String "010" "") = true <-> chomp t = "".
Proof.
  rewrite chomp_empty, orb_true_iff. now rewrite !String.eqb_eq.
Qed.

(** A text whose last character is no newline is read whole. *)
Lemma chomp_clean (q : ascii -> bool) (s : string) :
  q "010"%char = false -> last_is q s = true -> chomp s = s.
Proof.
  intros Hq. induction s as [|c s IH]; [reflexivity|].
  destruct s as [|d s].
  - cbn [last_is chomp String.eqb andb]. intros Hc.
    destruct (Ascii.eqb_spec c "010") as [->|]; [congruence | reflexivity].
  - intros H. rewrite chomp_cons. f_equal. now apply IH.
Qed.

Lemma rstrip_by_last (p : ascii -> bool) (s : string) :
  PyStr.rstrip_by p s = "" \/ last_is (fun c => negb (p c)) (PyStr.rstrip_by p s) = true.
Proof.
  induction s as [|c s IH]; cbn [PyStr.rstrip_by]; [now left|].
  destruct (PyStr.rstrip_by p s) as [|d r] eqn:E.
  - destruct (p c) eqn:Ec; [now left | right; cbn; now rewrite Ec].
  - right. destruct IH as [|IH]; [discriminate | exact IH].
Qed.

Lemma chomp_strip (s : string) : chomp (PyStr.strip s) = PyStr.strip s.
Proof.
  unfold PyStr.strip, PyStr.strip_by.
  destruct (rstrip_by_last PyChar.isspace (PyStr.lstrip_by PyChar.isspace s)) as [->|H];
    [reflexivity|].
  eapply chomp_clean; [|exact H]. reflexivity.
Qed.

Lemma alnum_is_alnum_hyphen c : PyChar.is_ascii_alnum c = true -> alnum_hyphen c = true.
Proof. unfold alnum_hyphen. now intros ->. Qed.

Lemma label_tail_exec (n : nat) (prev : option ascii) (s : string) :
  match Re.rep_max (Re.exec (Re.Chr alnum_hyphen)) n
          (Re.exec (Re.Chr PyChar.is_ascii_alnum) (Re.exec Re.Eol Re.accept)) prev s with
  | Some _ => true
  | None => false
  end = label_tail n s.
Proof.
  revert prev s. induction n as [|n IH]; intros prev s.
  - destruct s as [|d t]; cbn [Re.rep_max Re.exec label_tail]; [reflexivity|].
    destruct (PyChar.is_ascii_alnum d); [|reflexivity].
    cbn [andb]. destruct ((t =? "") || _); reflexivity.
  - cbn [Re.rep_max]. destruct s as [|d t]; [reflexivity|].
    cbn [Re.exec label_tail]. specialize (IH (Some d) t).
    destruct (alnum_hyphen d); cbn [andb].
    + destruct (Re.rep_max _ n _ (Some d) t); rewrite <- IH; [reflexivity|].
      cbn [Re.or_else]. destruct (PyChar.is_ascii_alnum d); [|reflexivity].
      cbn [andb]. destruct ((t =? "") || _); reflexivity.
    + cbn [Re.or_else]. destruct (PyChar.is_ascii_alnum d); [|reflexivity].
      cbn [andb]. destruct ((t =? "") || _); reflexivity.
Qed.

Lemma label_tail_spec (s : string) (n : nat) :
  label_tail n s = true
  <-> (String.length (chomp s) <= S n)%nat
      /\ PyStr.forallb alnum_hyphen (chomp s) = true
      /\ last_is PyChar.is_ascii_alnum (chomp s) = true.
Proof.
  revert n. induction s as [|d t IH]; intros n.
  - cbn. split; [discriminate | intros (_ & _ & [=])].
  - assert (Hend : PyChar.is_ascii_alnum d && ((t =? "") || (t =? String "010" "")) = true
                   <-> chomp t = "" /\ PyChar.is_ascii_alnum d = true).
    { rewrite andb_true_iff, eol_chomp. tauto. }
    assert (Hstep : label_tail n (String d t) = true
                    <-> (exists n', n = S n' /\ alnum_hyphen d = true /\ label_tail n' t = true)
                        \/ (chomp t = "" /\ PyChar.is_ascii_alnum d = true)).
    { rewrite <- Hend. cbn [label_tail]. destruct n as [|n'].
      - split; [now right | intros [(? & [=] & _)|H]; exact H].
      - destruct (alnum_hyphen d && label_tail n' t) eqn:E.
        + apply andb_true_iff in E as [E1 E2]. split; [|reflexivity].
          intros _. left. now exists n'.
        + split; [now right|]. intros [(m & [= <-] & E1 & E2)|H]; [|exact H].
          now rewrite E1, E2 in E. }
    rewrite Hstep. clear Hstep Hend.
    destruct t as [|e t].
    + cbn [chomp String.eqb andb label_tail].
      destruct (Ascii.eqb_spec d "010") as [->|Hd].
      * cbn. split; [|intros (_ & _ & [=])].
        intros [(n' & _ & _ & H)|[_ H]]; [destruct n' | vm_compute in H]; discriminate H.
      * cbn [String.length PyStr.forallb last_is]. split.
        -- intros [(n' & _ & _ & H)|[_ H]]; [destruct n'; discriminate H|].
           rewrite H, (alnum_is_alnum_hyphen d H). repeat split; lia.
        -- intros (_ & _ & H). now right.
    + rewrite chomp_cons. cbn [String.length PyStr.forallb].
      destruct (chomp (String e t)) as [|x u] eqn:C.
      * cbn [last_is String.length PyStr.forallb]. split.
        -- intros [(n' & -> & _ & H)|[_ H]].
           ++ apply IH in H as (_ & _ & [=]).
           ++ rewrite H, (alnum_is_alnum_hyphen d H). repeat split; lia.
        -- intros (_ & _ & H). now right.
      * change (last_is PyChar.is_ascii_alnum (String d (String x u)))
          with (last_is PyChar.is_ascii_alnum (String x u)).
        rewrite andb_true_iff. split.
        -- intros [(n' & -> & Hd & H)|[[=] _]].
           apply IH in H as (H1 & H2 & H3). repeat split; try assumption. lia.
        -- intros (H1 & [Hd H2] & H3). left.
           destruct n as [|n']; [cbn in H1; lia|]. exists n'.
           repeat split; [assumption|]. apply IH. repeat split; try assumption. lia.
Qed.

(** The label pattern accepts exactly the texts that satisfy the label rule
    once their final newline, if any, is left out. *)
Lemma label_pattern_matches (s : string) :
  Re.matches label_pattern s = label_ok (chomp s).
Proof.
  apply eq_true_iff_eq. unfold Re.matches, label_pattern, label_ok.
  cbn [Re.exec Re.rep_min]. destruct s as [|c t]; [cbn; split; discriminate|].
  pose proof (label_tail_exec 61 (Some c) t) as Hexec.
  pose proof (label_tail_spec t 61) as Hspec.
  pose proof (eol_chomp t) as Heol.
  destruct (PyChar.is_ascii_alnum c) eqn:Hc.
  - pose proof (alnum_is_alnum_hyphen c Hc) as Hc'.
    assert (Hnl : c <> "010"%char) by (intros ->; discriminate Hc).
    destruct t as [|e t].
    + cbn [chomp String.eqb andb]. destruct (Ascii.eqb_spec c "010"); [contradiction|].
      cbn. rewrite Hc, Hc'. split; reflexivity.
    + rewrite chomp_cons. cbn [String.length PyStr.forallb first_is].
      rewrite Hc, Hc'. cbn [andb].
      destruct (chomp (String e t)) as [|x u] eqn:C.
      * destruct Heol as [_ Heol]. rewrite (Heol eq_refl).
        destruct (Re.rep_max _ _ _ _ _); cbn; rewrite Hc; split; reflexivity.
      * change (last_is PyChar.is_ascii_alnum (String c (String x u)))
          with (last_is PyChar.is_ascii_alnum (String x u)).
        assert (Heol' : (String e t =? "") || (String e t =? String "010" "") = false).
        { destruct ((String e t =? "") || _); [|reflexivity].
          destruct Heol as [Heol _]. now specialize (Heol eq_refl). }
        rewrite Heol'. rewrite andb_true_r.
        destruct (Re.rep_max _ _ _ _ _); rewrite <- Hexec in Hspec; cbn [Re.or_else].
        -- destruct Hspec as [Hspec _]. destruct (Hspec eq_refl) as (H1 & H2 & H3).
           rewrite H2, H3.
           cbn [String.length] in *. split; [intros _|reflexivity].
           rewrite !andb_true_r. apply Nat.leb_le. lia.
        -- split; [discriminate|]. intros H.
           apply andb_true_iff in H as [[H1 H2]%andb_true_iff H3].
           apply Nat.leb_le in H1. cbn [String.length] in *.
           destruct Hspec as [_ Hspec]. apply Hspec. repeat split; try assumption. lia.
  - split; [discriminate|]. intros H.
    apply andb_true_iff in H as [[_ H]%andb_true_iff _].
    destruct t as [|e t].
    + cbn [chomp String.eqb andb] in H. destruct (Ascii.eqb c "010"); [discriminate H|].
      cbn in H. congruence.
    + rewrite chomp_cons in H. cbn in H. congruence.
Qed.

Lemma strip_missing (x : string) :
  (x =? "") || (PyStr.strip x =? "") = (PyStr.strip x =? "").
Proof. destruct x; reflexivity. Qed.

Lemma label_ok_length (t : string) :
  label_ok t = true -> (1 <= String.length t <= 63)%nat.
Proof.
  unfold label_ok. intros [[[H1 _]%andb_true_iff H2]%andb_true_iff _]%andb_true_iff.
  apply Nat.leb_le in H1. destruct t; [discriminate H2 | cbn; cbn in H1; lia].
Qed.

Lemma label_ok_no_dot (t : string) :
  label_ok t = true -> PyStr.has_char "." t = false.
Proof.
  unfold label_ok. intros [[[_ H]%andb_true_iff _]%andb_true_iff _]%andb_true_iff.
  eapply existsb_none; [|exact H]. intros x. each_char x.
Qed.

(** X14: a hostname is valid exactly when its trimmed text satisfies the
    label rule (1 to 63 ASCII letters, digits and hyphens, a letter or digit
    at both ends); the reasons follow the trimmed length: empty is
    [missing], more than 253 characters is [too_long], and every other
    rejected text, among them all those of 64 to 253 characters, is
    [invalid_format]. *)
Theorem hostname_rule (hostname : string) :
  let h := PyStr.strip hostname in
  (fst (validate_hostname hostname) = true <-> label_ok h = true)
  /\ (snd (validate_hostname hostname) = "missing" <-> h = "")
  /\ (snd (validate_hostname hostname) = "too_long" <-> (253 < String.length h)%nat)
  /\ (snd (validate_hostname hostname) = "invalid_format"
      <-> h <> "" /\ (String.length h <= 253)%nat /\ label_ok h = false)
  /\ ((63 < String.length h <= 253)%nat ->
      validate_hostname hostname = (false, "invalid_format")).
Proof.
  intros h. subst h. unfold validate_hostname.
  rewrite strip_missing, label_pattern_matches, chomp_strip.
  set (h := PyStr.strip hostname).
  pose proof (label_ok_length h) as Hlen.
  destruct (String.eqb_spec h "") as [E|Hne].
  - rewrite E. cbn. repeat split; try discriminate; try tauto; try lia.
  - destruct (Nat.ltb_spec 253 (String.length h)) as [Hl|Hl]; cbn [fst snd].
    + repeat split; try discriminate; try tauto; try lia.
      all: try solve [ intros H; apply Hlen in H; lia | intros; specialize (Hlen eq_refl); lia | intros ->; contradiction | intros (_ & _ & [=]) | intros (H & _); congruence ].
    + destruct (label_ok h) eqn:L; cbn [negb fst snd].
      * repeat split; try discriminate; try tauto; try lia.
        all: try solve [ intros H; apply Hlen in H; lia | intros; specialize (Hlen eq_refl); lia | intros ->; contradiction | intros (_ & _ & [=]) | intros (H & _); congruence ].
      * repeat split; try discriminate; try tauto; try lia.
        all: try solve [ intros H; apply Hlen in H; lia | intros; specialize (Hlen eq_refl); lia | intros ->; contradiction | intros (_ & _ & [=]) | intros (H & _); congruence ].
Qed.

Lemma fqdn_labels_none (labels : list string) :
  fqdn_labels labels = None
  <-> Forall (fun l => (String.length l <= 63)%nat /\ label_ok (chomp l) = true) labels.
Proof.
  induction labels as [|l rest IH]; cbn [fqdn_labels].
  - split; [constructor | reflexivity].
  - rewrite Forall_cons, <- IH, label_pattern_matches.
    destruct (Nat.ltb_spec 63 (String.length l)) as [Hl|Hl]; cbn [orb].
    + split; [discriminate | intros [[H _] _]; lia].
    + destruct (Nat.eqb_spec (String.length l) 0) as [H0|H0].
      * split; [discriminate|]. intros [[_ H] _].
        destruct l; [discriminate H | discriminate H0].
      * destruct (label_ok (chomp l)); cbn [negb]; [tauto|].
        split; [discriminate | intros [[_ [=]] _]].
Qed.

Lemma fqdn_labels_reasons (labels : list string) (r : string) :
  fqdn_labels labels = Some r ->
  r = "invalid_label_length" \/ r = "invalid_label_format".
Proof.
  induction labels as [|l rest IH]; cbn [fqdn_labels]; [discriminate|].
  destruct ((63 <? String.length l)%nat || (String.length l =? 0)%nat);
    [intros [= <-]; now left|].
  destruct (negb (Re.matches label_pattern l)); [intros [= <-]; now right | exact IH].
Qed.

(** X15: an FQDN is valid exactly when its trimmed text contains a dot and
    every dot-separated part has at most 63 characters and satisfies the
    label rule; as the pattern ends in [$], a part may carry one newline
    after its last character.  A trimmed text without a dot is rejected as
    [missing_domain], whatever it contains. *)
Theorem fqdn_rule (fqdn : string) :
  let f := PyStr.strip fqdn in
  (fst (validate_fqdn fqdn) = true
   <-> PyStr.has_char "." f = true
       /\ Forall (fun l => (String.length l <= 63)%nat /\ label_ok (chomp l) = true)
            (PyStr.split "." f))
  /\ (snd (validate_fqdn fqdn) = "missing_domain"
      <-> f <> "" /\ PyStr.has_char "." f = false).
Proof.
  intros f. unfold validate_fqdn. rewrite strip_missing. fold f.
  destruct (String.eqb_spec f "") as [E|Hne].
  - rewrite E. cbn. split; split; try discriminate; intros [H _]; congruence.
  - destruct (PyStr.has_char "." f) eqn:Hdot; cbn [negb fst snd].
    + pose proof (fqdn_labels_none (PyStr.split "." f)) as Hn.
      pose proof (fqdn_labels_reasons (PyStr.split "." f)) as Hr.
      destruct (fqdn_labels (PyStr.split "." f)) as [r|]; cbn [fst snd].
      * split; split; try discriminate.
        -- intros [_ H]. apply Hn in H. discriminate H.
        -- intros ->. destruct (Hr _ eq_refl) as [H|H]; discriminate H.
        -- intros [_ [=]].
      * split; split; try discriminate.
        -- intros _. split; [reflexivity | now apply Hn].
        -- reflexivity.
        -- intros [_ [=]].
    + split; split; try discriminate; tauto.
Qed.

(** X16: no text is both a valid hostname and a valid FQDN: a valid
    hostname has no dot and is rejected by the FQDN validator as
    [missing_domain]; a valid FQDN has a dot and is rejected by the hostname
    validator. *)
Theorem hostname_or_fqdn (x : string) :
  (fst (validate_hostname x) = true -> validate_fqdn x = (false, "missing_domain"))
  /\ (fst (validate_fqdn x) = true ->
      fst (validate_hostname x) = false
      /\ (snd (validate_hostname x) = "invalid_format"
          \/ snd (validate_hostname x) = "too_long")).
Proof.
  assert (Hhost : fst (validate_hostname x) = true -> label_ok (PyStr.strip x) = true).
  { unfold validate_hostname. rewrite strip_missing, label_pattern_matches, chomp_strip.
    destruct (PyStr.strip x =? ""); [discriminate|].
    destruct (253 <? String.length (PyStr.strip x))%nat; [discriminate|].
    destruct (label_ok (PyStr.strip x)); [reflexivity | discriminate]. }
  split.
  - intros H. apply Hhost in H.
    unfold validate_fqdn. rewrite strip_missing, (label_ok_no_dot _ H).
    destruct (String.eqb_spec (PyStr.strip x) "") as [E|]; [|reflexivity].
    rewrite E in H. discriminate H.
  - intros H.
    assert (Hdot : PyStr.has_char "." (PyStr.strip x) = true).
    { revert H. unfold validate_fqdn. rewrite strip_missing.
      destruct (PyStr.strip x =? ""); [discriminate|].
      destruct (PyStr.has_char "." (PyStr.strip x)); [reflexivity | discriminate]. }
    assert (Hne : (PyStr.strip x =? "") = false).
    { destruct (String.eqb_spec (PyStr.strip x) "") as [E|]; [|reflexivity].
      rewrite E in Hdot. discriminate Hdot. }
    unfold validate_hostname. rewrite strip_missing, Hne, label_pattern_matches, chomp_strip.
    destruct (253 <? String.length (PyStr.strip x))%nat; [now split; [|right]|].
    destruct (label_ok (PyStr.strip x)) eqn:L; [|now split; [|left]].
    apply label_ok_no_dot in L. congruence.
Qed.

(** ** The inputs the MAC normalizer accepts *)

Lemma chomp_stake (q : ascii -> bool) (n : nat) (s : string) :
  q "010"%char = false ->
  (n <= String.length s)%nat -> PyStr.forallb q (stake n s) = true ->
  (sdrop n s =? "") || (sdrop n s =? String "010" "") = true ->
  chomp s = stake n s.
Proof.
  intros Hq. revert s. induction n as [|n IH]; intros s Hlen Hs Hend.
  - destruct s; [reflexivity|]. cbn [sdrop] in Hend. apply eol_chomp in Hend.
    rewrite Hend. reflexivity.
  - destruct s as [|c t]; [cbn in Hlen; lia|].
    cbn [stake sdrop PyStr.forallb String.length] in *.
    apply andb_true_iff in Hs as [Hc Hs].
    cbn [chomp]. destruct (Ascii.eqb_spec c "010") as [->|_]; [congruence|].
    rewrite andb_false_r. f_equal. apply IH; [lia | assumption | assumption].
Qed.

Lemma chomp_cases (s : string) : s = chomp s \/ s = chomp s +:+ String "010" "".
Proof.
  induction s as [|c t IH]; [now left|].
  destruct t as [|d t].
  - cbn [chomp String.eqb andb]. destruct (Ascii.eqb_spec c "010") as [->|]; [now right | now left].
  - rewrite chomp_cons. destruct IH as [IH|IH]; [left | right]; cbn [append]; now rewrite <- IH.
Qed.

Lemma stake_app (u v : string) : stake (String.length u) (u +:+ v) = u.
Proof. induction u as [|c u IH]; cbn; [now destruct v | now rewrite IH]. Qed.

Lemma sdrop_app (u v : string) : sdrop (String.length u) (u +:+ v) = v.
Proof. induction u as [|c u IH]; cbn; [now destruct v | exact IH]. Qed.

Lemma length_app (u v : string) :
  String.length (u +:+ v) = (String.length u + String.length v)%nat.
Proof. induction u as [|c u IH]; cbn; [reflexivity | now rewrite IH]. Qed.

Lemma length_smap (f : ascii -> ascii) (s : string) :
  String.length (PyStr.smap f s) = String.length s.
Proof. induction s; cbn; congruence. Qed.

(** The MAC pattern, through the text read up to the final newline. *)
Lemma mac_pattern_chomp (s : string) :
  Re.matches mac_pattern s = true
  <-> String.length (chomp s) = 12%nat /\ PyStr.forallb PyChar.is_hex (chomp s) = true.
Proof.
  rewrite mac_pattern_matches, !andb_true_iff, Nat.leb_le. split.
  - intros [[Hlen Hhex] Hend].
    rewrite (chomp_stake PyChar.is_hex 12 s) by (reflexivity || assumption).
    split; [now apply stake_length | exact Hhex].
  - intros [Hlen Hhex].
    destruct (chomp_cases s) as [E|E]; rewrite E, <- Hlen.
    + rewrite stake_all, sdrop_all. repeat split; [lia | exact Hhex].
    + rewrite stake_app, sdrop_app, length_app. repeat split; [lia | exact Hhex].
Qed.

Lemma pairs_colon_length_12 (h : string) :
  String.length h = 12%nat -> String.length (pairs_colon h) = 17%nat.
Proof.
  intros L. do 12 (destruct h as [|? h]; [discriminate L|]).
  destruct h; [reflexivity | discriminate L].
Qed.

(** A valid MAC: the twelve digits left and the value made of them. *)
Lemma normalize_mac_valid (mac : string) :
  mac_valid (normalize_mac mac) = true ->
  let digits := chomp (sfilter (fun c => negb (mac_separator c)) (PyStr.strip mac)) in
  String.length digits = 12%nat /\ PyStr.forallb PyChar.is_hex digits = true
  /\ normalize_mac mac = (true, pairs_colon (PyStr.lower digits), "ok").
Proof.
  intros Hv digits. subst digits. revert Hv. unfold normalize_mac. rewrite strip_missing.
  unfold Re.sub. rewrite sub_delete.
  set (cleaned := sfilter _ (PyStr.strip mac)).
  destruct (PyStr.strip mac =? ""); [discriminate|].
  pose proof (mac_pattern_chomp cleaned) as Hm.
  destruct (Re.matches mac_pattern cleaned) eqn:M; [|discriminate]. intros _.
  destruct Hm as [Hm _]. destruct (Hm eq_refl) as [Hlen Hhex].
  pose proof M as M'. rewrite mac_pattern_matches in M'.
  apply andb_true_iff in M' as [[M1 M2]%andb_true_iff M3]. apply Nat.leb_le in M1.
  assert (Hst : stake 12 cleaned = chomp cleaned)
    by (symmetry; now apply (chomp_stake PyChar.is_hex)).
  cbn [negb]. rewrite mac_pairs_join, Hst by assumption. now repeat split.
Qed.

Lemma mac_value_shape (mac : string) :
  mac_valid (normalize_mac mac) = true ->
  String.length (mac_value (normalize_mac mac)) = 17%nat
  /\ PyStr.forallb (fun c => is_lower_hex c || Ascii.eqb c ":")
       (mac_value (normalize_mac mac)) = true.
Proof.
  intros Hv. destruct (normalize_mac_valid mac Hv) as (Hlen & Hhex & ->).
  cbn [mac_value]. split.
  - apply pairs_colon_length_12. unfold PyStr.lower. now rewrite length_smap.
  - apply pairs_colon_forallb; [reflexivity|].
    unfold PyStr.lower. rewrite forallb_smap.
    eapply forallb_impl; [|exact Hhex]. intros c. each_char c.
Qed.

(** X17: the MAC normalizer looks only at the trimmed input with the
    separators [-], [:] and [.] deleted, wherever they stand: the input is
    valid exactly when twelve hexadecimal digits are left (a newline may
    follow them); the value is then these digits in lower case, in six
    colon-separated pairs, 17 characters in all.  Any other non-empty input
    is returned trimmed, with the reason [invalid_format]. *)
Theorem mac_rule (mac : string) :
  let digits := chomp (sfilter (fun c => negb (mac_separator c)) (PyStr.strip mac)) in
  (mac_valid (normalize_mac mac) = true
   <-> String.length digits = 12%nat /\ PyStr.forallb PyChar.is_hex digits = true)
  /\ (mac_valid (normalize_mac mac) = true ->
      normalize_mac mac = (true, pairs_colon (PyStr.lower digits), "ok")
      /\ String.length (mac_value (normalize_mac mac)) = 17%nat
      /\ PyStr.forallb (fun c => is_lower_hex c || Ascii.eqb c ":")
           (mac_value (normalize_mac mac)) = true)
  /\ (mac_valid (normalize_mac mac) = false -> PyStr.strip mac <> "" ->
      normalize_mac mac = (false, PyStr.strip mac, "invalid_format")).
Proof.
  intros digits. split; [split|split].
  - intros Hv. destruct (normalize_mac_valid mac Hv) as (Hlen & Hhex & _). now split.
  - subst digits. intros [Hlen Hhex]. unfold normalize_mac. rewrite strip_missing.
    unfold Re.sub. rewrite sub_delete.
    destruct (String.eqb_spec (PyStr.strip mac) "") as [E|_];
      [rewrite E in Hlen; discriminate Hlen|].
    destruct (mac_pattern_chomp (sfilter (fun c => negb (mac_separator c)) (PyStr.strip mac)))
      as [_ Hm].
    now rewrite (Hm (conj Hlen Hhex)).
  - intros Hv. destruct (normalize_mac_valid mac Hv) as (_ & _ & E).
    destruct (mac_value_shape mac Hv) as [H1 H2]. now repeat split.
  - unfold normalize_mac. rewrite strip_missing.
    destruct (String.eqb_spec (PyStr.strip mac) "") as [E|_]; [intros _ H; contradiction|].
    destruct (Re.matches mac_pattern _); [discriminate | reflexivity].
Qed.

(** ** The shape of a normalized site *)

Lemma lstrip_by_length (p : ascii -> bool) (s : string) :
  (String.length (PyStr.lstrip_by p s) <= String.length s)%nat.
Proof.
  induction s as [|c s IH]; cbn [PyStr.lstrip_by String.length]; [lia|].
  destruct (p c); cbn [String.length]; lia.
Qed.

Lemma rep_max_chr_accept (p : ascii -> bool) (n : nat) (prev : option ascii) (s : string) :
  (String.length s <= n)%nat ->
  Re.rep_max (Re.exec (Re.Chr p)) n Re.accept prev s = Some (PyStr.lstrip_by p s).
Proof.
  revert prev s. induction n as [|n IH]; intros prev s Hlen.
  - destruct s; [reflexivity | cbn in Hlen; lia].
  - cbn [Re.rep_max Re.exec]. destruct s as [|c t]; [reflexivity|].
    cbn [PyStr.lstrip_by]. destruct (p c); [|reflexivity].
    rewrite IH by (cbn in Hlen; lia). reflexivity.
Qed.

(** [p+] at a position: the whole run of [p] is taken. *)
Lemma exec_plus_chr (p : ascii -> bool) (prev : option ascii) (s : string) :
  Re.exec (Re.Plus (Re.Chr p)) Re.accept prev s
  = match s with
    | String c t => if p c then Some (PyStr.lstrip_by p t) else None
    | EmptyString => None
    end.
Proof.
  destruct s as [|c t]; [reflexivity|]. cbn [Re.exec]. destruct (p c); [|reflexivity].
  apply rep_max_chr_accept. cbn. lia.
Qed.

Lemma sub_scan_runs_prev (p : ascii -> bool) (repl : string -> string)
    (prev prev' : option ascii) (skip : nat) (s : string) :
  Re.sub_scan (Re.Plus (Re.Chr p)) repl prev skip s
  = Re.sub_scan (Re.Plus (Re.Chr p)) repl prev' skip s.
Proof.
  destruct s as [|c t]; [reflexivity|]. cbn [Re.sub_scan].
  destruct skip; [|reflexivity]. now rewrite !exec_plus_chr.
Qed.

Lemma sub_scan_runs_skip (p : ascii -> bool) (repl : string -> string)
    (prev : option ascii) (t : string) :
  Re.sub_scan (Re.Plus (Re.Chr p)) repl prev
    (String.length t - String.length (PyStr.lstrip_by p t)) t
  = Re.sub_scan (Re.Plus (Re.Chr p)) repl None 0 (PyStr.lstrip_by p t).
Proof.
  revert prev. induction t as [|d u IH]; intros prev; [reflexivity|].
  cbn [PyStr.lstrip_by]. destruct (p d) eqn:Hd.
  - pose proof (lstrip_by_length p u) as Hlen. cbn [String.length].
    replace (S (String.length u) - String.length (PyStr.lstrip_by p u))%nat
      with (S (String.length u - String.length (PyStr.lstrip_by p u))) by lia.
    cbn [Re.sub_scan]. apply IH.
  - rewrite Nat.sub_diag. apply sub_scan_runs_prev.
Qed.

Lemma collapse_in_run (p : ascii -> bool) (w t : string) :
  collapse p w true t = collapse p w false (PyStr.lstrip_by p t).
Proof.
  induction t as [|d u IH]; [reflexivity|]. cbn [collapse PyStr.lstrip_by].
  destruct (p d) eqn:Hd; [exact IH|]. cbn [collapse]. now rewrite Hd.
Qed.

(** Replacing [p+] by a fixed text collapses the runs of [p]. *)
Lemma sub_runs (p : ascii -> bool) (w s : string) :
  Re.sub (Re.Plus (Re.Chr p)) (fun _ => w) s = collapse p w false s.
Proof.
  unfold Re.sub.
  assert (H : forall n s, (String.length s <= n)%nat ->
              Re.sub_scan (Re.Plus (Re.Chr p)) (fun _ => w) None 0 s = collapse p w false s).
  { clear s. induction n as [|n IH]; intros s Hlen.
    - destruct s; [reflexivity | cbn in Hlen; lia].
    - destruct s as [|c t]; [reflexivity|]. cbn [Re.sub_scan collapse].
      rewrite exec_plus_chr. destruct (p c) eqn:Hc.
      + pose proof (lstrip_by_length p t) as Hl. cbn [String.length] in *.
        replace (S (String.length t) - String.length (PyStr.lstrip_by p t))%nat
          with (S (String.length t - String.length (PyStr.lstrip_by p t))) by lia.
        rewrite sub_scan_runs_skip, IH by lia. now rewrite collapse_in_run.
      + rewrite (sub_scan_runs_prev p _ (Some c) None), IH by (cbn in Hlen; lia).
        reflexivity. }
  apply (H (String.length s)). lia.
Qed.

Lemma collapse_forallb (p q : ascii -> bool) (w : string) (b : bool) (s : string) :
  PyStr.forallb q w = true -> (forall c, p c = false -> q c = true) ->
  PyStr.forallb q (collapse p w b s) = true.
Proof.
  intros Hw Hq. revert b. induction s as [|c t IH]; intros b; [reflexivity|].
  cbn [collapse]. destruct (p c) eqn:Hc.
  - destruct b; [apply IH|]. rewrite forallb_app, Hw. apply IH.
  - cbn [PyStr.forallb]. rewrite (Hq c Hc). apply IH.
Qed.

Lemma collapse_single_spaced (b : bool) (s : string) :
  single_spaced b (collapse PyChar.isspace " " b s) = true.
Proof.
  revert b. induction s as [|c t IH]; intros b; [reflexivity|].
  cbn [collapse]. destruct (PyChar.isspace c) eqn:Hc.
  - destruct b; [apply IH|]. cbn [append single_spaced].
    change (PyChar.isspace " ") with true. cbn. apply IH.
  - cbn [single_spaced]. rewrite Hc. apply IH.
Qed.

Lemma single_spaced_weaken (b : bool) (s : string) :
  single_spaced b s = true -> single_spaced false s = true.
Proof.
  destruct s as [|c t]; [reflexivity|]. cbn [single_spaced].
  destruct (PyChar.isspace c); [|trivial].
  destruct b; cbn [negb]; [now rewrite andb_false_r | trivial].
Qed.

Lemma single_spaced_tail (b : bool) (c : ascii) (t : string) :
  single_spaced b (String c t) = true -> single_spaced false t = true.
Proof.
  cbn [single_spaced]. destruct (PyChar.isspace c); [|trivial].
  intros [_ H]%andb_true_iff. now apply single_spaced_weaken in H.
Qed.

Lemma single_spaced_lstrip (p : ascii -> bool) (b : bool) (s : string) :
  single_spaced b s = true -> single_spaced false (PyStr.lstrip_by p s) = true.
Proof.
  revert b. induction s as [|c t IH]; intros b H; [reflexivity|].
  cbn [PyStr.lstrip_by]. destruct (p c).
  - apply single_spaced_tail in H. now apply IH in H.
  - now apply single_spaced_weaken in H.
Qed.

Lemma single_spaced_rstrip (p : ascii -> bool) (b : bool) (s : string) :
  single_spaced b s = true -> single_spaced b (PyStr.rstrip_by p s) = true.
Proof.
  revert b. induction s as [|c t IH]; intros b H; [reflexivity|].
  cbn [PyStr.rstrip_by]. cbn [single_spaced] in H.
  destruct (PyStr.rstrip_by p t) as [|d r] eqn:E.
  - destruct (p c); [reflexivity|]. cbn [single_spaced].
    destruct (PyChar.isspace c); [|reflexivity].
    apply andb_true_iff in H as [H _]. now rewrite H.
  - cbn [single_spaced]. destruct (PyChar.isspace c).
    + apply andb_true_iff in H as [H1 H2]. rewrite H1. apply (IH true H2).
    + apply (IH false H).
Qed.

Lemma forallb_lstrip (p q : ascii -> bool) (s : string) :
  PyStr.forallb q s = true -> PyStr.forallb q (PyStr.lstrip_by p s) = true.
Proof.
  induction s as [|c t IH]; [trivial|]. cbn [PyStr.lstrip_by]. destruct (p c); [|trivial].
  cbn [PyStr.forallb]. intros [_ H]%andb_true_iff. now apply IH.
Qed.

Lemma forallb_rstrip (p q : ascii -> bool) (s : string) :
  PyStr.forallb q s = true -> PyStr.forallb q (PyStr.rstrip_by p s) = true.
Proof.
  induction s as [|c t IH]; [trivial|]. cbn [PyStr.rstrip_by PyStr.forallb].
  intros [Hc Ht]%andb_true_iff. specialize (IH Ht).
  destruct (PyStr.rstrip_by p t) as [|d r].
  - destruct (p c); [reflexivity|]. cbn. now rewrite Hc.
  - cbn [PyStr.forallb] in *. now rewrite Hc, IH.
Qed.

Lemma forallb_strip (q : ascii -> bool) (s : string) :
  PyStr.forallb q s = true -> PyStr.forallb q (PyStr.strip s) = true.
Proof. intros H. apply forallb_rstrip. now apply forallb_lstrip. Qed.

Lemma forallb_substring (q : ascii -> bool) (a n : nat) (s : string) :
  PyStr.forallb q s = true -> PyStr.forallb q (substring a n s) = true.
Proof.
  revert a n. induction s as [|c t IH]; intros a n H.
  - destruct a, n; reflexivity.
  - cbn [PyStr.forallb] in H. apply andb_true_iff in H as [Hc Ht].
    destruct a as [|a]; cbn [substring].
    + destruct n as [|n]; [reflexivity|]. cbn [PyStr.forallb]. rewrite Hc. now apply IH.
    + now apply IH.
Qed.

(** A substitution whose replacements stay in a class of characters keeps
    a text in this class. *)
Lemma sub_forallb (q : ascii -> bool) (r : Re.regex) (repl : string -> string) (s : string) :
  (forall m, PyStr.forallb q m = true -> PyStr.forallb q (repl m) = true) ->
  PyStr.forallb q s = true -> PyStr.forallb q (Re.sub r repl s) = true.
Proof.
  intros Hrepl. unfold Re.sub. generalize (@None ascii) as prev. generalize 0%nat as skip.
  induction s as [|c t IH]; intros skip prev H; [reflexivity|].
  pose proof H as H'. cbn [PyStr.forallb] in H'. apply andb_true_iff in H' as [Hc Ht].
  cbn [Re.sub_scan]. destruct skip as [|k]; [|now apply IH].
  destruct (Re.exec r Re.accept prev (String c t)) as [rest|].
  - destruct (String.length (String c t) - String.length rest)%nat as [|n'] eqn:En.
    + cbn [PyStr.forallb]. rewrite Hc. now apply IH.
    + rewrite forallb_app, IH by assumption. rewrite andb_true_r.
      apply Hrepl. now apply forallb_substring.
  - cbn [PyStr.forallb]. rewrite Hc. now apply IH.
Qed.

Lemma normalize_site_single_spaced (site : string) :
  single_spaced false (normalize_site site) = true.
Proof.
  unfold normalize_site.
  destruct ((site =? "") || is_na_or_empty site); [reflexivity|].
  rewrite (sub_runs PyChar.isspace). unfold PyStr.strip, PyStr.strip_by.
  apply single_spaced_rstrip. eapply single_spaced_lstrip. apply collapse_single_spaced.
Qed.

Lemma normalize_site_no_separator (site : string) :
  PyStr.forallb (fun c => negb (site_separator c)) (normalize_site site) = true.
Proof.
  unfold normalize_site.
  destruct ((site =? "") || is_na_or_empty site); [reflexivity|].
  apply forallb_strip.
  apply sub_forallb; [intros m Hm; reflexivity|].
  apply sub_forallb; [intros [|a [|d [|? ?]]] Hm; exact Hm|].
  do 6 (apply sub_forallb; [intros m Hm; reflexivity|]).
  change (fun c => Ascii.eqb c "-" || Ascii.eqb c "_") with site_separator.
  rewrite sub_runs. apply collapse_forallb; [reflexivity|]. now intros c ->.
Qed.

Lemma normalize_site_trimmed (site : string) :
  PyStr.strip (normalize_site site) = normalize_site site.
Proof.
  unfold normalize_site.
  destruct ((site =? "") || is_na_or_empty site); [reflexivity | apply strip_idem].
Qed.

(** X18: a normalized site is trimmed, its only whitespace is single spaces
    between other characters, and it holds no hyphen and no underscore. *)
Theorem site_shape (site : string) :
  PyStr.strip (normalize_site site) = normalize_site site
  /\ single_spaced false (normalize_site site) = true
  /\ PyStr.forallb (fun c => negb (site_separator c)) (normalize_site site) = true.
Proof.
  split; [apply normalize_site_trimmed|].
  split; [apply normalize_site_single_spaced | apply normalize_site_no_separator].
Qed.

(** ** Owner parsing by the two patterns *)

Lemma has_char_tail (x c : ascii) (t : string) :
  PyStr.has_char x (String c t) = false -> Ascii.eqb x c = false /\ PyStr.has_char x t = false.
Proof. unfold PyStr.has_char. cbn [PyStr.existsb]. now intros H%orb_false_iff. Qed.

(** A pattern that fails wherever a character is absent is not found in a
    text without this character. *)
Lemma search_scan_none (r : Re.regex) (x : ascii) :
  (forall prev t, PyStr.has_char x t = false -> Re.exec r Re.accept prev t = None) ->
  forall s prev, PyStr.has_char x s = false -> Owner.search_scan r prev s = None.
Proof.
  intros Hr. induction s as [|c t IH]; intros prev Hs.
  - cbn [Owner.search_scan]. now rewrite Hr.
  - cbn [Owner.search_scan]. rewrite (Hr _ _ Hs).
    apply has_char_tail in Hs as [_ Hs]. now apply IH.
Qed.

Lemma rep_max_none (p : ascii -> bool) (k : Re.cont) (x : ascii) (n : nat) :
  (forall prev t, PyStr.has_char x t = false -> k prev t = None) ->
  forall prev s, PyStr.has_char x s = false ->
    Re.rep_max (Re.exec (Re.Chr p)) n k prev s = None.
Proof.
  intros Hk. induction n as [|n IH]; intros prev s Hs; cbn [Re.rep_max]; [now apply Hk|].
  rewrite (Hk _ _ Hs). destruct s as [|c t]; [reflexivity|]. cbn [Re.exec].
  apply has_char_tail in Hs as [_ Hs]. destruct (p c); [|reflexivity].
  now rewrite IH.
Qed.

Lemma email_pattern_none (prev : option ascii) (t : string) :
  PyStr.has_char "@" t = false -> Re.exec Owner.email_pattern Re.accept prev t = None.
Proof.
  intros Ht. unfold Owner.email_pattern.
  change (Re.exec (Re.Cat (Re.Plus (Re.Chr Owner.email_local)) ?r) Re.accept prev t)
    with (Re.exec (Re.Chr Owner.email_local)
            (Re.rep_max (Re.exec (Re.Chr Owner.email_local)) (String.length t)
               (Re.exec r Re.accept)) prev t).
  destruct t as [|c t']; [reflexivity|]. cbn [Re.exec].
  destruct (Owner.email_local c); [|reflexivity].
  apply has_char_tail in Ht as [_ Ht].
  apply (rep_max_none _ _ "@"); [|exact Ht].
  intros prev' u Hu. destruct u as [|d u']; [reflexivity|].
  apply has_char_tail in Hu as [Hd _]. now rewrite Hd.
Qed.

Lemma team_pattern_none (prev : option ascii) (t : string) :
  PyStr.has_char "(" t = false -> Re.exec Owner.team_pattern Re.accept prev t = None.
Proof.
  intros Ht. unfold Owner.team_pattern. destruct t as [|c t']; [reflexivity|].
  apply has_char_tail in Ht as [Hc _]. cbn [Re.exec]. now rewrite Hc.
Qed.

(** X19: the two patterns on a text with no [@] and no opening parenthesis:
    no email and no team are found, and the whole text, trimmed of
    whitespace and of commas at its ends, is returned as the name, also when
    it is the name of a team. *)
Theorem owner_rules_plain (o : string) :
  (PyStr.has_char "@" o = false -> snd (fst (Owner.parse_owner_rules o)) = "")
  /\ (PyStr.has_char "(" o = false -> snd (Owner.parse_owner_rules o) = "")
  /\ (PyStr.has_char "@" o = false -> PyStr.has_char "(" o = false ->
      Owner.parse_owner_rules o
      = (PyStr.strip (PyStr.strip_by (Ascii.eqb ",") (PyStr.strip o)), "", "")).
Proof.
  unfold Owner.parse_owner_rules, Owner.search. split; [|split].
  - intros H. rewrite (search_scan_none _ "@" email_pattern_none _ _ H). reflexivity.
  - intros H. rewrite (search_scan_none _ "(" team_pattern_none _ _ H). reflexivity.
  - intros H1 H2. rewrite (search_scan_none _ "@" email_pattern_none _ _ H1).
    rewrite (search_scan_none _ "(" team_pattern_none _ _ H2). reflexivity.
Qed.

(** A run of a class followed by a character outside it: the greedy
    repetition takes the whole run when the continuation accepts there. *)
Lemma rep_max_run (p : ascii -> bool) (k : Re.cont) (run rest : string) (r : string) :
  (forall a b t, k a t = k b t) ->
  PyStr.forallb p run = true -> first_is p rest = false -> k None rest = Some r ->
  forall n prev, (String.length run <= n)%nat ->
    Re.rep_max (Re.exec (Re.Chr p)) n k prev (run +:+ rest) = Some r.
Proof.
  intros Hk Hrun Hfirst Hrest. induction run as [|c run IH]; intros n prev Hn.
  - cbn [append]. destruct n as [|n]; cbn [Re.rep_max]; [now rewrite (Hk prev None)|].
    rewrite (Hk prev None), Hrest.
    destruct rest as [|d rest']; [reflexivity|]. cbn [Re.exec].
    cbn [first_is] in Hfirst. now rewrite Hfirst.
  - cbn [PyStr.forallb] in Hrun. apply andb_true_iff in Hrun as [Hc Hrun].
    destruct n as [|n]; [cbn in Hn; lia|].
    cbn [append Re.rep_max Re.exec]. rewrite Hc, IH by (assumption || (cbn in Hn; lia)).
    reflexivity.
Qed.

Lemma substring_0_app (u v : string) : substring 0 (String.length u) (u +:+ v) = u.
Proof.
  induction u as [|c u IH]; cbn [String.length append substring].
  - now destruct v.
  - now rewrite IH.
Qed.

Lemma no_char_forallb (x : ascii) (s : string) :
  PyStr.has_char x s = false -> PyStr.forallb (fun c => negb (Ascii.eqb c x)) s = true.
Proof.
  induction s as [|c t IH]; [reflexivity|]. intros [Hc Ht]%has_char_tail.
  cbn [PyStr.forallb]. rewrite Ascii.eqb_sym, Hc. now apply IH.
Qed.

Lemma search_scan_skip (r : Re.regex) (x : ascii) (pre s : string) (prev : option ascii) :
  (forall prev' c t, Ascii.eqb x c = false ->
     Re.exec r Re.accept prev' (String c t) = None) ->
  PyStr.has_char x pre = false ->
  exists prev', Owner.search_scan r prev (pre +:+ s) = Owner.search_scan r prev' s.
Proof.
  intros Hr. revert prev. induction pre as [|c pre IH]; intros prev Hpre.
  - now exists prev.
  - apply has_char_tail in Hpre as [Hc Hpre]. cbn [append Owner.search_scan].
    rewrite (Hr _ _ _ Hc). now apply IH.
Qed.

Lemma team_pattern_found (prev : option ascii) (t post : string) :
  t <> "" -> PyStr.has_char ")" t = false ->
  Re.exec Owner.team_pattern Re.accept prev ("(" +:+ t +:+ ")" +:+ post) = Some post.
Proof.
  intros Hne Ht. destruct t as [|c t']; [contradiction|].
  pose proof (no_char_forallb _ _ Ht) as Hall.
  cbn [PyStr.forallb] in Hall. apply andb_true_iff in Hall as [Hc Hall].
  unfold Owner.team_pattern. cbn [append Re.exec]. rewrite Hc.
  apply rep_max_run; [reflexivity | exact Hall | reflexivity | reflexivity|].
  cbn [String.length]. rewrite length_app. lia.
Qed.

(** X20: a team in parentheses is found by the patterns: when the first
    opening parenthesis of the text is followed by a non-empty text without
    closing parenthesis and then by a closing one, the team is this text,
    trimmed, whatever else the owner field holds. *)
Theorem owner_rules_team (pre t post : string) :
  PyStr.has_char "(" pre = false -> t <> "" -> PyStr.has_char ")" t = false ->
  Owner.search Owner.team_pattern (pre +:+ "(" +:+ t +:+ ")" +:+ post)
  = Some ("(" +:+ t +:+ ")")
  /\ snd (Owner.parse_owner_rules (pre +:+ "(" +:+ t +:+ ")" +:+ post)) = PyStr.strip t.
Proof.
  intros Hpre Hne Ht.
  assert (Hs : Owner.search Owner.team_pattern (pre +:+ "(" +:+ t +:+ ")" +:+ post)
               = Some ("(" +:+ t +:+ ")")).
  { unfold Owner.search.
    destruct (search_scan_skip Owner.team_pattern "(" pre ("(" +:+ t +:+ ")" +:+ post) None)
      as [prev' ->]; [|exact Hpre|].
    - intros prev' c u Hc. unfold Owner.team_pattern. cbn [Re.exec]. now rewrite Hc.
    - pose proof (team_pattern_found prev' t post Hne Ht) as Hexec.
      cbn [append] in Hexec |- *. cbn [Owner.search_scan]. rewrite Hexec.
      f_equal.
      replace (String.length (String "(" (t +:+ String ")" post)) - String.length post)%nat
        with (String.length (String "(" (t +:+ ")"))).
      + change (String "(" (t +:+ String ")" post))
          with ("(" +:+ (t +:+ (")" +:+ post))).
        rewrite <- (sapp_assoc t ")" post), <- (sapp_assoc "(" (t +:+ ")") post).
        apply substring_0_app.
      + cbn [String.length]. rewrite !length_app. cbn [String.length]. lia. }
  split; [exact Hs|].
  unfold Owner.parse_owner_rules. rewrite Hs. cbn [snd]. f_equal.
  unfold Owner.team_group. cbn [append String.length substring].
  rewrite length_app. cbn [String.length].
  replace (S (String.length t + 1) - 2)%nat with (String.length t) by lia.
  apply substring_0_app.
Qed.

Lemma owner_rules_team_witness :
  snd (Owner.parse_owner_rules "priya (platform) priya@corp.example.com") = "platform".
Proof.
  refine (proj2 (owner_rules_team "priya " "platform" " priya@corp.example.com" _ _ _));
    [reflexivity | discriminate | reflexivity].
Defined.

(** X21: what [parse_owner_llm] does with the model: a blank owner gives
    three empty values without any request; otherwise one request is sent
    for the trimmed text when the client is set up, and none when it is
    not; a reply is returned as it is, and the patterns are used on the
    trimmed text when there is no client or the request fails.  The result
    does not depend on whitespace around the owner text nor on the row
    identifier. *)
Theorem owner_llm_cases (has_gemini : bool)
    (generate_owner : string -> option (string * string * string))
    (owner row_id : string) :
  let o := PyStr.strip owner in
  let result := Owner.parse_owner_llm has_gemini generate_owner owner row_id in
  (o = "" -> result = (("", "", ""), []))
  /\ (snd result = [o] <-> o <> "" /\ has_gemini = true)
  /\ (snd result = [] \/ snd result = [o])
  /\ (forall reply, o <> "" -> has_gemini = true -> generate_owner o = Some reply ->
      fst result = reply)
  /\ (o <> "" -> has_gemini = false \/ generate_owner o = None ->
      fst result = Owner.parse_owner_rules o)
  /\ (forall other_id,
        Owner.parse_owner_llm has_gemini generate_owner o other_id = result).
Proof.
  intros o result. subst result o. unfold Owner.parse_owner_llm.
  rewrite !strip_missing, strip_idem. set (o := PyStr.strip owner).
  destruct (String.eqb_spec o "") as [E|Hne]; [|destruct has_gemini;
    [destruct (generate_owner o) as [reply|] eqn:G|]]; cbn [fst snd];
    (split; [|split; [|split; [|split; [|split]]]]);
    intros; try reflexivity; try tauto; try congruence;
    try (left; reflexivity); try (right; reflexivity).
  all: try (split; [discriminate | intros [H1 H2]; congruence]).
  match goal with H : _ \/ _ |- _ => destruct H; congruence end.
Qed.

(** ** The columns of an output row *)

Lemma validate_hostname_label (hostname : string) :
  fst (validate_hostname hostname) = label_ok (PyStr.strip hostname).
Proof.
  unfold validate_hostname. rewrite strip_missing, label_pattern_matches, chomp_strip.
  pose proof (label_ok_length (PyStr.strip hostname)) as Hlen.
  destruct (String.eqb_spec (PyStr.strip hostname) "") as [E|_]; [now rewrite E|].
  destruct (Nat.ltb_spec 253 (String.length (PyStr.strip hostname))) as [Hl|_].
  - destruct (label_ok (PyStr.strip hostname)); [|reflexivity].
    specialize (Hlen eq_refl). lia.
  - now destruct (label_ok (PyStr.strip hostname)).
Qed.

Lemma py_bool_true (b : bool) : py_bool b = "true" <-> b = true.
Proof. destruct b; cbn; split; congruence. Qed.

(** X22: the columns of every output row: the hostname is flagged valid
    exactly when the hostname written satisfies the label rule; a MAC
    flagged valid is written as 17 characters, lower-case hexadecimal digits
    and colons; the normalized site is trimmed, single-spaced and free of
    hyphens and underscores. *)
Theorem valid_columns (env : llm_env) (row : gmap string string) :
  exists r,
    process_row env row = Some r
    /\ (out_hostname_valid (row_output r) = "true"
        <-> label_ok (out_hostname (row_output r)) = true)
    /\ (out_mac_valid (row_output r) = "true" ->
        String.length (out_mac (row_output r)) = 17%nat
        /\ PyStr.forallb (fun c => is_lower_hex c || Ascii.eqb c ":")
             (out_mac (row_output r)) = true)
    /\ PyStr.strip (out_site_normalized (row_output r)) = out_site_normalized (row_output r)
    /\ single_spaced false (out_site_normalized (row_output r)) = true
    /\ PyStr.forallb (fun c => negb (site_separator c))
         (out_site_normalized (row_output r)) = true.
Proof.
  destruct (process_row_outputs env row)
    as (r & Hr & _ & _ & _ & _ & _ & Hh & Hhv & _ & Hm & Hmv & _ & _ & _ & _ & Hs & _).
  exists r. split; [exact Hr|].
  rewrite Hh, Hhv, Hm, Hmv, Hs, !py_bool_true, validate_hostname_label.
  split; [reflexivity|]. split.
  - intros Hv. rewrite Hv. now apply mac_value_shape.
  - split; [apply normalize_site_trimmed|].
    split; [apply normalize_site_single_spaced | apply normalize_site_no_separator].
Qed.

Lemma valid_columns_witness :
  exists r,
    process_row rules_only valid_record = Some r
    /\ String.length (out_mac (row_output r)) = 17%nat.
Proof.
  destruct (valid_columns rules_only valid_record) as (r & Hr & _ & Hm & _).
  exists r. split; [exact Hr|]. apply Hm.
  vm_compute in Hr. injection Hr as <-. reflexivity.
Defined.

(** X23: the owner columns of an output row, when the owner parser of the
    run is [parse_owner_llm] of the program, with its client and model: a
    blank owner leaves the three columns empty; without a client they hold
    what the two patterns find in the trimmed owner, so that an owner text
    with no [@] and no opening parenthesis goes to the name column, trimmed
    of whitespace and commas, and the email and team columns stay empty. *)
Theorem owner_columns (env : llm_env)
    (generate_owner : string -> option (string * string * string))
    (row : gmap string string) :
  (forall owner row_id,
     parse_owner_llm env owner row_id
     = fst (Owner.parse_owner_llm (HAS_GEMINI env) generate_owner owner row_id)) ->
  let o := PyStr.strip (get row "owner") in
  exists r,
    process_row env row = Some r
    /\ (o = "" ->
        out_owner (row_output r) = "" /\ out_owner_email (row_output r) = ""
        /\ out_owner_team (row_output r) = "")
    /\ (o <> "" -> HAS_GEMINI env = false ->
        (out_owner (row_output r), out_owner_email (row_output r),
         out_owner_team (row_output r)) = Owner.parse_owner_rules o)
    /\ (o <> "" -> HAS_GEMINI env = false ->
        PyStr.has_char "@" o = false -> PyStr.has_char "(" o = false ->
        out_owner (row_output r) = PyStr.strip (PyStr.strip_by (Ascii.eqb ",") o)
        /\ out_owner_email (row_output r) = "" /\ out_owner_team (row_output r) = "").
Proof.
  intros Henv o.
  destruct (process_row_outputs env row)
    as (r & Hr & _ & _ & _ & _ & _ & _ & _ & _ & _ & _ & Ho & _).
  exists r. split; [exact Hr|].
  rewrite Henv in Ho. unfold Owner.parse_owner_llm in Ho.
  rewrite strip_missing in Ho. fold o in Ho.
  destruct (String.eqb_spec o "") as [E|Hne].
  - cbn [fst] in Ho. injection Ho as -> -> ->.
    split; [now intros _|]. split; intros H; contradiction.
  - split; [intros H; contradiction|].
    assert (Hrules : HAS_GEMINI env = false ->
              (out_owner (row_output r), out_owner_email (row_output r),
               out_owner_team (row_output r)) = Owner.parse_owner_rules o).
    { intros Hg. now rewrite Hg in Ho. }
    split; [intros _; exact Hrules|].
    intros _ Hg Hat Hpar. specialize (Hrules Hg).
    unfold Owner.parse_owner_rules, Owner.search in Hrules.
    rewrite (search_scan_none _ "@" email_pattern_none _ _ Hat) in Hrules.
    rewrite (search_scan_none _ "(" team_pattern_none _ _ Hpar) in Hrules.
    cbn [default String.eqb] in Hrules. unfold o in Hrules at 1. rewrite strip_idem in Hrules.
    fold o in Hrules. injection Hrules as -> -> ->. now repeat split.
Qed.

Lemma owner_columns_witness :
  exists r,
    process_row
      {| HAS_GEMINI := false; generate_device := fun _ => None;
         parse_owner_llm := fun owner row_id =>
           fst (Owner.parse_owner_llm false (fun _ => None) owner row_id) |}
      (<["owner" := " ops, "]> valid_record) = Some r
    /\ out_owner (row_output r) = "ops" /\ out_owner_email (row_output r) = ""
    /\ out_owner_team (row_output r) = "".
Proof.
  destruct (owner_columns
              {| HAS_GEMINI := false; generate_device := fun _ => None;
                 parse_owner_llm := fun owner row_id =>
                   fst (Owner.parse_owner_llm false (fun _ => None) owner row_id) |}
              (fun _ => None) (<["owner" := " ops, "]> valid_record))
    as (r & Hr & _ & _ & H); [reflexivity|].
  exists r. split; [exact Hr|].
  apply H; [discriminate | reflexivity | reflexivity | reflexivity].
Defined.

(** ** Records with fields left out *)

Lemma get_texts (row : Csv.record) (key s : string) :
  Csv.get row key = Some s -> get (Csv.texts row) key = s.
Proof.
  unfold Csv.get, get, Csv.texts. rewrite lookup_omap.
  cbv delta [Csv.record Csv.cell] in *.
  destruct (row !! key) as [[s'|]|]; cbn; intros [= <-]; reflexivity.
Qed.

(** On a record that gives a text for each field that [process] strips, the
    iteration does what it does on the texts. *)
Lemma process_record_texts (env : llm_env) (row : Csv.record) :
  (forall f, In f Csv.stripped_fields -> exists s, Csv.get row f = Some s) ->
  Csv.process_record env row
  = option_map
      (fun r => (dict_of_output_row (Csv.get row "source_row_id") (row_output r),
                 option_map (entry_of_anomaly (Csv.get row "source_row_id")) (row_anomaly r),
                 row_requests r))
      (process_row (owner_env env row) (Csv.texts row)).
Proof.
  intros H.
  destruct (H "ip") as [ip Eip]; [cbn; tauto|].
  destruct (H "hostname") as [h Eh]; [cbn; tauto|].
  destruct (H "fqdn") as [f Ef]; [cbn; tauto|].
  destruct (H "mac") as [m Em]; [cbn; tauto|].
  destruct (H "device_type") as [dt Edt]; [cbn; tauto|].
  destruct (H "notes") as [n En]; [cbn; tauto|].
  destruct (H "site") as [s Es]; [cbn; tauto|].
  unfold Csv.process_record, process_row, Csv.classify_device_type_llm.
  change (classify_device_type_llm (owner_env env row) (Csv.texts row))
    with (classify_device_type_llm env (Csv.texts row)).
  rewrite Eip, Eh, Ef, Em, Edt, En, Es.
  rewrite (get_texts row "ip" ip Eip), (get_texts row "hostname" h Eh),
    (get_texts row "fqdn" f Ef), (get_texts row "mac" m Em),
    (get_texts row "site" s Es).
  cbn [Csv.ipv4_validate_and_normalize Csv.validate_hostname Csv.validate_fqdn
       Csv.normalize_mac Csv.normalize_site Csv.strip option_map mbind option_bind
       owner_env parse_owner_llm].
  destruct (ipv4_validate_and_normalize ip) as [[[ipv ipn] ipver] ipr].
  destruct (validate_hostname h) as [hv hr].
  destruct (validate_fqdn f) as [fv fr].
  destruct (normalize_mac m) as [[mv mn] mr].
  destruct (Csv.parse_owner_llm env (Csv.get row "owner") (Csv.get row "source_row_id"))
    as [[on oe] ot].
  destruct (classify_device_type_llm env (Csv.texts row)) as [[dty dc] rq].
  destruct ipv; cbn [mbind option_bind option_map];
    [destruct (default_subnet ipn); cbn [mbind option_bind option_map]; [|reflexivity]|];
    destruct hv, fv, mv, (PyStr.strip h =? ""), (PyStr.strip f =? ""), (PyStr.strip m =? "");
    reflexivity.
Qed.

(** Run the binds of the option monad, case by case on the trimmed texts
    compared with the empty text. *)
Ltac run_binds :=
  cbn [Csv.strip option_map mbind option_bind];
  repeat match goal with
         | |- context [negb (?x =? "")] => destruct (x =? ""); cbn [negb mbind option_bind]
         end;
  reflexivity.

(** The iteration raises as soon as one of these fields is [None]. *)
Lemma process_record_none (env : llm_env) (row : Csv.record) (f : string) :
  In f Csv.stripped_fields -> Csv.get row f = None -> Csv.process_record env row = None.
Proof.
  intros Hf Hnone. unfold Csv.process_record, Csv.classify_device_type_llm.
  destruct (Csv.ipv4_validate_and_normalize (Csv.get row "ip")) as [[[ipv ipn] ipver] ipr] eqn:Eip.
  destruct (Csv.validate_hostname (Csv.get row "hostname")) as [hv hr] eqn:Eh.
  destruct (Csv.validate_fqdn (Csv.get row "fqdn")) as [fv fr] eqn:Ef.
  destruct (Csv.normalize_mac (Csv.get row "mac")) as [[mv mn] mr] eqn:Em.
  destruct (Csv.parse_owner_llm env (Csv.get row "owner") (Csv.get row "source_row_id"))
    as [[on oe] ot].
  destruct (classify_device_type_llm env (Csv.texts row)) as [[dty dc] rq].
  assert (Hm : Csv.get row "mac" = None -> mv = false)
    by (intros E; rewrite E in Em; cbn in Em; congruence).
  clear Eip Eh Ef Em.
  cbn [In Csv.stripped_fields] in Hf.
  destruct ipv; cbn [mbind option_bind];
    [destruct ipn as [ipn|]; cbn [mbind option_bind]; [|reflexivity];
     destruct (default_subnet ipn) as [subnet|]; cbn [mbind option_bind]; [|reflexivity]|];
    (destruct (Csv.get row "hostname") as [h|] eqn:?; [|destruct hv; run_binds]);
    (destruct (Csv.get row "fqdn") as [fq|] eqn:?; [|destruct hv, fv; run_binds]);
    (destruct (Csv.get row "mac") as [m|] eqn:?;
     [|specialize (Hm eq_refl); subst mv; destruct hv, fv; run_binds]);
    (destruct (Csv.get row "device_type") as [dt|] eqn:?; [|destruct hv, fv, mv; run_binds]);
    (destruct (Csv.get row "notes") as [n|] eqn:?; [|destruct hv, fv, mv; run_binds]);
    (destruct (Csv.get row "ip") as [ip|] eqn:?; [|destruct hv, fv, mv; run_binds]);
    (destruct (Csv.get row "site") as [site|] eqn:?; [|destruct hv, fv, mv; run_binds]);
    exfalso; intuition (subst; congruence).
Qed.

Lemma get_none (row : Csv.record) (key : string) :
  Csv.get row key = None <-> row !! key = Some None.
Proof.
  unfold Csv.get. cbv delta [Csv.record Csv.cell] in *.
  destruct (row !! key) as [[s|]|]; cbn; split; congruence.
Qed.

Lemma get_some (row : Csv.record) (key : string) :
  row !! key <> Some None -> exists s, Csv.get row key = Some s.
Proof.
  intros H. destruct (Csv.get row key) as [s|] eqn:E; [now exists s|].
  now apply get_none in E.
Qed.

Lemma fields_texts_or_none (row : Csv.record) (fields : list string) :
  (forall f, In f fields -> exists s, Csv.get row f = Some s)
  \/ (exists f, In f fields /\ Csv.get row f = None).
Proof.
  induction fields as [|k fields [IH|(f & Hf & E)]].
  - left. intros f [].
  - destruct (Csv.get row k) as [s|] eqn:E.
    + left. intros f [<-|Hf]; [now exists s | now apply IH].
    + right. exists k. split; [now left | exact E].
  - right. exists f. split; [now right | exact E].
Qed.

(** An iteration raises exactly when the record has [None] in one of the
    fields that [process] strips. *)
Lemma process_record_raises (env : llm_env) (row : Csv.record) :
  Csv.process_record env row = None
  <-> exists f, In f Csv.stripped_fields /\ row !! f = Some None.
Proof.
  split.
  - intros Hnone.
    destruct (fields_texts_or_none row Csv.stripped_fields) as [Hall|(f & Hf & E)].
    + rewrite (process_record_texts env row Hall) in Hnone.
      destruct (process_row_stages (owner_env env row) (Csv.texts row)) as (r & Hr & _).
      rewrite Hr in Hnone. discriminate Hnone.
    + exists f. split; [exact Hf | now apply get_none].
  - intros (f & Hf & E). apply (process_record_none env row f Hf). now apply get_none.
Qed.

Lemma process_row_owner_env (env : llm_env) (row : Csv.record) :
  row !! "owner" <> Some None -> row !! "source_row_id" <> Some None ->
  process_row (owner_env env row) (Csv.texts row) = process_row env (Csv.texts row).
Proof.
  intros Ho Hid.
  destruct (get_some row "owner" Ho) as [o Eo].
  destruct (get_some row "source_row_id" Hid) as [id Eid].
  unfold process_row.
  change (classify_device_type_llm (owner_env env row) (Csv.texts row))
    with (classify_device_type_llm env (Csv.texts row)).
  cbn [owner_env parse_owner_llm]. rewrite Eo, Eid.
  rewrite (get_texts row "owner" o Eo), (get_texts row "source_row_id" id Eid).
  reflexivity.
Qed.

(** On a record of texts, an iteration gives the output row and the anomaly
    of the texts, written as dictionaries. *)
Lemma process_record_of_texts (env : llm_env) (row : Csv.record) :
  (forall f, row !! f <> Some None) ->
  Csv.process_record env row
  = option_map
      (fun r => (dict_of_output_row (Some (out_source_row_id (row_output r))) (row_output r),
                 option_map (fun a => entry_of_anomaly (Some (anomaly_source_row_id a)) a)
                   (row_anomaly r),
                 row_requests r))
      (process_row env (Csv.texts row)).
Proof.
  intros H.
  rewrite process_record_texts by (intros f _; apply get_some, H).
  rewrite process_row_owner_env by apply H.
  destruct (get_some row "source_row_id" (H _)) as [id Eid].
  destruct (process_row_outputs env (Csv.texts row)) as (r & Hr & Hfields).
  destruct (process_row_stages env (Csv.texts row)) as (r' & Hr' & _ & _ & _ & _ & Han & _).
  rewrite Hr in Hr'. injection Hr' as <-. rewrite Hr. cbn [option_map].
  assert (Hid : out_source_row_id (row_output r) = id).
  { destruct Hfields
      as (_ & _ & _ & _ & _ & _ & _ & _ & _ & _ & _ & _ & _ & _ & _ & Hfields).
    rewrite Hfields. now apply get_texts. }
  rewrite Eid, Hid. f_equal. f_equal.
  rewrite Han. destruct (row_anomalies r); cbn [option_map anomaly_source_row_id];
    [reflexivity|].
  now rewrite (get_texts row "source_row_id" id Eid).
Qed.

(** X3: [process] on the records that [csv.DictReader] gives, where a
    field that a short line leaves out is [None].  [process] raises (an
    [AttributeError] that it does not catch) exactly when some record has
    [None] in one of the fields ip, hostname, fqdn, mac, device_type, notes
    and site; a [None] owner or row identifier alone is tolerated.  On a
    table whose records hold texts only it returns the output rows and the
    anomalies that the functions on texts give, in input order. *)
Theorem short_line_raises (env : llm_env) (rows : list Csv.record) :
  (Csv.process env rows = None
   <-> Exists (fun row => exists f, In f Csv.stripped_fields /\ row !! f = Some None) rows)
  /\ (Forall (fun row => forall f, row !! f <> Some None) rows ->
      Csv.process env rows
      = option_map
          (fun '(output_rows, anomalies) =>
             (map (fun o => dict_of_output_row (Some (out_source_row_id o)) o) output_rows,
              map (fun a => entry_of_anomaly (Some (anomaly_source_row_id a)) a) anomalies))
          (process env (map Csv.texts rows))).
Proof.
  split.
  - induction rows as [|row rows IH]; cbn [Csv.process].
    + split; [discriminate | intros H; inversion H].
    + rewrite Exists_cons, <- IH, <- (process_record_raises env row).
      destruct (Csv.process_record env row) as [[[o e] rq]|]; cbn [mbind option_bind];
        [|split; [now left | reflexivity]].
      destruct (Csv.process env rows) as [[os ans]|]; cbn [mbind option_bind].
      * split; [discriminate | intros [H|H]; discriminate H].
      * split; [now right | reflexivity].
  - induction rows as [|row rows IH]; intros Hall; cbn [Csv.process process map];
      [reflexivity|].
    apply Forall_cons in Hall as [Hrow Hall].
    rewrite (process_record_of_texts env row Hrow), (IH Hall).
    destruct (process_row env (Csv.texts row)) as [r|]; cbn [option_map mbind option_bind];
      [|reflexivity].
    destruct (process env (map Csv.texts rows)) as [[os ans]|];
      cbn [option_map mbind option_bind]; [|reflexivity].
    destruct (row_anomaly r); reflexivity.
Qed.

(** A record without its notes: the run stops there. *)
Lemma short_line_raises_witness :
  Csv.process rules_only
    [<["notes" := None]> (Some <$> valid_record)] = None.
Proof.
  apply (proj1 (short_line_raises rules_only _)).
  apply Exists_cons_hd. exists "notes". split; [cbn; tauto | reflexivity].
Defined.
